(** * Montandon data-fetching scripts: a shallow embedding

    The four scripts under [Analysis_montandon] query a STAC API, tally the
    answers and export tables.  Each script is embedded in a module of its
    own that keeps the names of the Python functions.  What the scripts take
    from outside the process is made an explicit input:

    - the clock ([datetime.now()]) is a [datetime] argument;
    - the HTTP server is an oracle [Server] that answers the n-th request of
      a session;
    - the order in which a thread pool completes its futures is a function
      on the list of submitted tasks.

    Everything a script does to the outside (requests, warnings, sleeps,
    lines appended to the error log, files written) is recorded in a trace of
    [Event]s.  Where the behaviour of a library depends on its version or
    platform, or is not needed for a run of the scripts on answers of the
    API, the model says so with the event [NotModelled] and stops there, in
    place of a guess. *)

From Stdlib Require Import ZArith List String Ascii Bool Lia Permutation Sorted QArith.
Import ListNotations.

Open Scope string_scope.
Open Scope Z_scope.

(** ** Text: decimal numerals and Python's string order *)

Module Text.

(** The character of a decimal digit [0 <= d <= 9]. *)
Definition digit_char (d : Z) : ascii := ascii_of_N (Z.to_N (48 + d)).

(** Most significant digit first, accumulated in front of [acc]. *)
Fixpoint digits_of (fuel : nat) (n : Z) (acc : string) : string :=
  match fuel with
  | O => acc
  | S fuel' =>
      let acc' := String (digit_char (n mod 10)) acc in
      if n / 10 =? 0 then acc' else digits_of fuel' (n / 10) acc'
  end.

(** [str(n)] and [f"{n}"] for a Python int. *)
Definition str_of_Z (n : Z) : string :=
  if n <? 0
  then "-" ++ digits_of (S (Z.to_nat (Z.log2 (- n)))) (- n) ""
  else digits_of (S (Z.to_nat (Z.log2 n))) n "".

(** Left padding with zeros up to [width] characters ([%02d], [%04d]). *)
Fixpoint zeros (k : nat) : string :=
  match k with O => "" | S k' => String "0" (zeros k') end.

Definition zfill (width : nat) (s : string) : string :=
  zeros (width - String.length s) ++ s.

(** [sub in s] for Python strings. *)
Fixpoint contains (sub s : string) : bool :=
  if String.prefix sub s then true
  else match s with
       | EmptyString => false
       | String _ s' => contains sub s'
       end.

(** Python compares [str] values code point by code point; on the byte
    strings used here that is [String.compare]. *)
Definition str_lt (a b : string) : Prop := String.ltb a b = true.
Definition str_le (a b : string) : Prop := String.leb a b = true.

(** [sorted(xs, key=key)]: a stable sort by [<=] on the keys; insertion
    sort, each element put in front of the later ones that are not smaller. *)
Fixpoint insert_by {A : Type} (key : A -> string) (x : A) (l : list A) : list A :=
  match l with
  | [] => [x]
  | y :: l' => if String.leb (key x) (key y) then x :: l else y :: insert_by key x l'
  end.

Fixpoint sorted_by {A : Type} (key : A -> string) (l : list A) : list A :=
  match l with
  | [] => []
  | x :: l' => insert_by key x (sorted_by key l')
  end.

(** [sorted(xs)] on strings. *)
Definition sorted (l : list string) : list string := sorted_by (fun s => s) l.

(** The order of the keys, on the elements. *)
Definition le_key {A : Type} (key : A -> string) (a b : A) : Prop :=
  String.leb (key a) (key b) = true.

(** The numeral of a number of four digits. *)
Definition four (y : Z) : string :=
  String (digit_char (y / 10 / 10 / 10 mod 10))
    (String (digit_char (y / 10 / 10 mod 10))
       (String (digit_char (y / 10 mod 10))
          (String (digit_char (y mod 10)) ""))).

(** [Series.unique()]: the distinct values in order of first appearance. *)
Fixpoint unique_acc (seen : list string) (l : list string) : list string :=
  match l with
  | [] => []
  | x :: l' =>
      if existsb (String.eqb x) seen then unique_acc seen l'
      else x :: unique_acc (x :: seen) l'
  end.

Definition unique (l : list string) : list string := unique_acc [] l.

Definition mem (x : string) (l : list string) : bool := existsb (String.eqb x) l.

End Text.

(** ** Calendar: the part of Python's [datetime] the scripts use

    A [datetime] is a count of seconds since the start of ordinal day 0 of
    the proleptic Gregorian calendar (day 1 is 0001-01-01), which is how
    CPython does arithmetic on them.  Microseconds are left out: every value
    the scripts keep went through a format with a resolution of a second.
    CPython holds the years 1 to 9999 only: [in_range] says which counts are
    datetimes, the clock and [fromisoformat] give such ones, and an addition
    that leaves the range raises OverflowError ([plus_days]). *)

Module Calendar.

Definition datetime := Z.

Definition is_leap (year : Z) : bool :=
  (year mod 4 =? 0) && (negb (year mod 100 =? 0) || (year mod 400 =? 0)).

Definition days_before_year (year : Z) : Z :=
  let y := year - 1 in y * 365 + y / 4 - y / 100 + y / 400.

Definition DAYS_IN_MONTH : list Z :=
  [-1; 31; 28; 31; 30; 31; 30; 31; 31; 30; 31; 30; 31].

Definition DAYS_BEFORE_MONTH : list Z :=
  [-1; 0; 31; 59; 90; 120; 151; 181; 212; 243; 273; 304; 334].

Definition table (t : list Z) (month : Z) : Z := nth (Z.to_nat month) t (-1).

Definition b2z (b : bool) : Z := if b then 1 else 0.

Definition days_in_month (year month : Z) : Z :=
  if (month =? 2) && is_leap year then 29 else table DAYS_IN_MONTH month.

Definition days_before_month (year month : Z) : Z :=
  table DAYS_BEFORE_MONTH month + b2z ((2 <? month) && is_leap year).

Definition ymd2ord (year month day : Z) : Z :=
  days_before_year year + days_before_month year month + day.

Definition DI400Y : Z := 146097.
Definition DI100Y : Z := 36524.
Definition DI4Y : Z := 1461.

Definition ord2ymd (ordinal : Z) : Z * Z * Z :=
  let n := ordinal - 1 in
  let n400 := n / DI400Y in
  let n := n mod DI400Y in
  let n100 := n / DI100Y in
  let n := n mod DI100Y in
  let n4 := n / DI4Y in
  let n := n mod DI4Y in
  let n1 := n / 365 in
  let n := n mod 365 in
  let year := n400 * 400 + 1 + n100 * 100 + n4 * 4 + n1 in
  if (n1 =? 4) || (n100 =? 4) then (year - 1, 12, 31)
  else
    let leapyear := (n1 =? 3) && (negb (n4 =? 24) || (n100 =? 3)) in
    let month := Z.shiftr (n + 50) 5 in
    let preceding :=
      table DAYS_BEFORE_MONTH month + b2z ((2 <? month) && leapyear) in
    if n <? preceding
    then
      let month := month - 1 in
      let preceding :=
        preceding - (table DAYS_IN_MONTH month + b2z ((month =? 2) && leapyear)) in
      (year, month, n - preceding + 1)
    else (year, month, n - preceding + 1).

Definition SECONDS_PER_DAY : Z := 86400.

Definition make (year month day hour minute second : Z) : datetime :=
  ymd2ord year month day * SECONDS_PER_DAY + hour * 3600 + minute * 60 + second.

(** [d.year] *)
Definition year (d : datetime) : Z :=
  let '(y, _, _) := ord2ymd (d / SECONDS_PER_DAY) in y.

(** [d.date()], as an ordinal. *)
Definition day_of (d : datetime) : Z := d / SECONDS_PER_DAY.

(** [timedelta(days=n)], in seconds. *)
Definition timedelta_days (n : Z) : Z := n * SECONDS_PER_DAY.

(** The ordinal of 9999-12-31, the last day of a [datetime]. *)
Definition MAXORDINAL : Z := 3652059.

(** The counts of seconds that are datetimes: those of the days 1 to
    [MAXORDINAL]. *)
Definition in_range (d : datetime) : bool :=
  (1 <=? d / SECONDS_PER_DAY) && (d / SECONDS_PER_DAY <=? MAXORDINAL).

(** [d + timedelta(days=n)]; [None] is the OverflowError that
    [timedelta] raises for more than 999999999 days and the addition for a
    result outside the years 1 to 9999. *)
Definition plus_days (d : datetime) (n : Z) : option datetime :=
  if (Z.abs n <=? 999999999) && in_range (d + timedelta_days n)
  then Some (d + timedelta_days n)
  else None.

(** [d.strftime("%Y-%m-%dT%H:%M:%SZ")].  The year is written with four
    digits, which is what every platform does from the year 1000 on (below
    it the C libraries differ on the padding of [%Y]). *)
Definition strftime (d : datetime) : string :=
  let '(y, m, dd) := ord2ymd (d / SECONDS_PER_DAY) in
  let s := d mod SECONDS_PER_DAY in
  Text.zfill 4 (Text.str_of_Z y) ++ "-" ++ Text.zfill 2 (Text.str_of_Z m) ++ "-"
  ++ Text.zfill 2 (Text.str_of_Z dd) ++ "T"
  ++ Text.zfill 2 (Text.str_of_Z (s / 3600)) ++ ":"
  ++ Text.zfill 2 (Text.str_of_Z (s mod 3600 / 60)) ++ ":"
  ++ Text.zfill 2 (Text.str_of_Z (s mod 60)) ++ "Z".

(** [s.replace('Z', '+00:00')] *)
Fixpoint replace_Z (s : string) : string :=
  match s with
  | EmptyString => EmptyString
  | String c s' =>
      if Ascii.eqb c "Z" then "+00:00" ++ replace_Z s' else String c (replace_Z s')
  end.

Definition digit_val (c : ascii) : option Z :=
  let n := Z.of_N (N_of_ascii c) in
  if (48 <=? n) && (n <=? 57) then Some (n - 48) else None.

Fixpoint number (k : nat) (acc : Z) (s : string) : option (Z * string) :=
  match k with
  | O => Some (acc, s)
  | S k' =>
      match s with
      | EmptyString => None
      | String c s' =>
          match digit_val c with
          | Some d => number k' (acc * 10 + d) s'
          | None => None
          end
      end
  end.

Definition literal (lit s : string) : option string :=
  if String.prefix lit s
  then Some (String.substring (String.length lit) (String.length s - String.length lit) s)
  else None.

(** [datetime.fromisoformat] on the one layout the script feeds it,
    [YYYY-MM-DDTHH:MM:SS+00:00] with the fields of a date and a time of day;
    [None] says that the string is not of this layout.  What CPython does
    with such a string (a ValueError for most, another reading for the
    further ISO layouts it accepts) is not modelled. *)
Definition fromisoformat (s : string) : option datetime :=
  match number 4 0 s with
  | None => None
  | Some (y, s) =>
  match literal "-" s with None => None | Some s =>
  match number 2 0 s with None => None | Some (m, s) =>
  match literal "-" s with None => None | Some s =>
  match number 2 0 s with None => None | Some (d, s) =>
  match literal "T" s with None => None | Some s =>
  match number 2 0 s with None => None | Some (hh, s) =>
  match literal ":" s with None => None | Some s =>
  match number 2 0 s with None => None | Some (mi, s) =>
  match literal ":" s with None => None | Some s =>
  match number 2 0 s with None => None | Some (ss, s) =>
    if String.eqb s "+00:00"
       && (1 <=? y) && (1 <=? m) && (m <=? 12)
       && (1 <=? d) && (d <=? days_in_month y m)
       && (hh <? 24) && (mi <? 60) && (ss <? 60)
    then Some (make y m d hh mi ss)
    else None
  end end end end end end end end end end
  end.

End Calendar.

(** ** Python containers: [range], [Counter] *)

Module Py.

(** [range(start, stop, step)] for a positive step. *)
Definition range (start stop step : Z) : list Z :=
  map (fun k => start + step * Z.of_nat k)
      (seq 0 (Z.to_nat ((stop - start + step - 1) / step))).

(** [d.get(key, default)] on an optional field. *)
Definition get {A : Type} (field : option A) (default : A) : A :=
  match field with Some v => v | None => default end.

(** [len(xs)] *)
Definition len {A : Type} (xs : list A) : Z := Z.of_nat (List.length xs).

(** A [collections.Counter] with string keys: a dict, so the keys are kept
    in the order of their first insertion. *)
Definition Counter := list (string * Z).

(** [c[key] = c.get(key, 0) + n] *)
Fixpoint counter_add (key : string) (n : Z) (c : Counter) : Counter :=
  match c with
  | [] => [(key, n)]
  | (k, v) :: c' =>
      if String.eqb key k then (k, v + n) :: c' else (k, v) :: counter_add key n c'
  end.

(** [c.update(iterable)]: one more for each element. *)
Definition counter_update (c : Counter) (elems : list string) : Counter :=
  fold_left (fun acc key => counter_add key 1 acc) elems c.

(** [c.update(other)] for another Counter: the counts are added. *)
Definition counter_merge (c other : Counter) : Counter :=
  fold_left (fun acc kv => counter_add (fst kv) (snd kv) acc) other c.

(** [c[key]], zero for a missing key. *)
Fixpoint counter_get (c : Counter) (key : string) : Z :=
  match c with
  | [] => 0
  | (k, v) :: c' => if String.eqb key k then v else counter_get c' key
  end.

(** [sorted(items, key=itemgetter(1), reverse=True)]: stable, so that equal
    counts stay in insertion order. *)
Fixpoint insert_desc (x : string * Z) (l : list (string * Z)) : list (string * Z) :=
  match l with
  | [] => [x]
  | y :: l' => if snd y <? snd x then x :: l else y :: insert_desc x l'
  end.

Definition most_common (c : Counter) : list (string * Z) :=
  fold_left (fun acc x => insert_desc x acc) c [].

(** The count of [a] is not below the count of [b]. *)
Definition by_count_desc (a b : string * Z) : Prop := snd b <= snd a.

End Py.

(** ** The STAC API as the scripts see it *)

Module Http.

(** Response bodies are JSON objects; the scripts read these keys, each with
    [.get], so each may be missing. *)
Record Link := { rel : option string; href : option string }.

Record Feature := {
  hazard_codes : option (list string);   (* properties["monty:hazard_codes"] *)
  country_codes : option (list string)   (* properties["monty:country_codes"] *)
}.

(** Every collection entry has an id; roles are optional. *)
Record Collection := { id : string; roles : option (list string) }.

Record Body := {
  collections : option (list Collection);
  links : option (list Link);
  features : option (list Feature);
  numberMatched : option Z;
  monty_count : option Z                 (* summaries["monty:count"] *)
}.

(** [session.get(url); raise_for_status(); json()] either raises a
    [RequestException] (connection error, timeout, HTTP error status, body
    that is not JSON) or yields the body. *)
Inductive Response :=
| RequestException (reason : string)
| Json (data : Body).

(** The answer to the n-th request (from 0) of a session, given its URL. *)
Definition Server := nat -> string -> Response.

(** [next((link.get("href") for link in data.get("links", [])
          if link.get("rel") == "next"), None)] *)
Definition is_next (link : Link) : bool :=
  match rel link with Some r => String.eqb r "next" | None => false end.

Definition next_href (data : Body) : option string :=
  match find is_next (Py.get (links data) []) with
  | Some link => href link
  | None => None
  end.

(** Truth value of a URL in [while url:]: [None] and [""] are false. *)
Definition truthy (url : option string) : bool :=
  match url with
  | Some s => negb (String.eqb s "")
  | None => false
  end.

Definition url_text (url : option string) : string := Py.get url "".

End Http.

(** ** Effects *)

Module Effects.
Import Http.

(** One object of the error log of example_3_optimized. *)
Record ErrorEntry := {
  err_collection : string;
  err_time_chunk : string;
  err_page : option Z;
  err_reason : string
}.

(** A printed line, kept as the print statement it comes from and the values
    interpolated into it. *)
Inductive Line :=
| FetchingCollections
| FoundCollections (ids : list string)
| Fatal (reason : string)
| GeneratedBins (n : Z)
| Querying (collection bin : string)
| WarnNoNumberMatched (collection bin : string)
| Completed (collection bin : string) (items : Z)
| TaskError (collection bin reason : string)
| NoData
| WritingExcel (file : string)
| CreatingSheet (collection : string)
| CreatedExcel (sheets : Z)
| CollectionsPage (page : Z)
| RetrievedCollections (n total : Z)
| TotalCollections (n : Z)
| Checking (collection : string)
| Added
| NotAdded
| Starting (collection bin : string)
| TemporalExtent (start_date end_date : string)
| StartYearNote (year : Z)
| StartingFetch (collection : string)
| GeneratedChunks (n : Z)
| StartingChunk (chunk : string)
| RetryWarning (chunk : string) (page attempt wait_time : Z)
| ChunkFailed (chunk : string) (max_retries : Z)
| ChunkCompleted (chunk : string) (total_items page_count : Z)
| Progress (completed total : Z)
| CompletedChunks (completed total : Z)
| ErrorsLogged (n : Z)
| ResultsSaved (file : string) (countries events : Z)
| NoDataProcessed
| ExecutionTime
| ManualCountStart (collection : string)
| ManualCountProgress (collection : string) (items : Z)
| ManualCountError (collection reason : string)
| ManualCountFinished (collection : string) (items : Z)
| FetchedFromSummary (collection : string) (items : Z)
| NoSummary (collection : string)
| FetchedFromItems (collection : string) (items : Z)
| CollectionError (collection reason : string)
| NoCollections
| FoundCount (n : Z)
| NoCounts.

(** A cell of a written table. *)
Inductive Cell := Text (s : string) | Int (n : Z) | Num (q : Q).

Record Sheet := {
  sheet_name : string;
  index : option (list string);   (* row labels; [None] with [index=False] *)
  columns : list string;
  rows : list (list Q)
}.

Inductive Event :=
| Get (url : string) (resp : Response)
| Print (line : Line)
| Sleep (seconds : Z)
| AppendError (file : string) (entry : ErrorEntry)
| RemoveFile (file : string)
| PoolStart (max_workers : Z)
| Submit (collection task : string)
| WriteExcel (file : string) (sheets : list Sheet)
| WriteCsv (file : string) (rows : list (list Cell))
| PrintTable (index : list string) (rows : list (list Cell))
| Uncaught (exception : string)
| NotModelled (what : string).

(** The state of a session: what happened so far and how many requests
    were sent. *)
Record State := { trace : list Event; sent : nat }.

Definition start : State := {| trace := []; sent := 0 |}.

(** A computation either runs out of fuel ([None]: the loop is still
    going) or returns a value and the new state. *)
Definition M (A : Type) : Type := State -> option (A * State).

Definition ret {A : Type} (a : A) : M A := fun st => Some (a, st).

Definition bind {A B : Type} (m : M A) (k : A -> M B) : M B :=
  fun st => match m st with
            | Some (a, st') => k a st'
            | None => None
            end.

Definition diverge {A : Type} : M A := fun _ => None.

Definition emit (e : Event) : M unit :=
  fun st => Some (tt, {| trace := trace st ++ [e]; sent := sent st |}).

Definition print (line : Line) : M unit := emit (Print line).

(** [time.sleep(seconds)] *)
Definition sleep (seconds : Z) : M unit := emit (Sleep seconds).

(** [session.get(url, ...)], [raise_for_status()], [json()] *)
Definition session_get (srv : Server) (url : string) : M Response :=
  fun st =>
    let resp := srv (sent st) url in
    Some (resp, {| trace := trace st ++ [Get url resp]; sent := S (sent st) |}).

(** A task of the thread pool runs as a session of its own; what it did is
    appended to the trace when its future completes. *)
Definition in_worker {A : Type} (task : M A) : M A :=
  fun st => match task start with
            | Some (a, st') =>
                Some (a, {| trace := trace st ++ trace st'; sent := sent st |})
            | None => None
            end.

(** [for x in xs: body x], each step in the state the previous one left. *)
Fixpoint for_each {A : Type} (xs : list A) (body : A -> M unit) : M unit :=
  match xs with
  | [] => ret tt
  | x :: xs' => bind (body x) (fun _ => for_each xs' body)
  end.

(** What a trace holds of each kind. *)
Definition requests (t : list Event) : list string :=
  flat_map (fun e => match e with Get url _ => [url] | _ => [] end) t.

Definition responses (t : list Event) : list Response :=
  flat_map (fun e => match e with Get _ r => [r] | _ => [] end) t.

Definition sleeps (t : list Event) : list Z :=
  flat_map (fun e => match e with Sleep s => [s] | _ => [] end) t.

Definition error_log (t : list Event) : list ErrorEntry :=
  flat_map (fun e => match e with AppendError _ entry => [entry] | _ => [] end) t.

Definition printed (t : list Event) : list Line :=
  flat_map (fun e => match e with Print l => [l] | _ => [] end) t.

Definition submitted (t : list Event) : list (string * string) :=
  flat_map (fun e => match e with Submit c b => [(c, b)] | _ => [] end) t.

Definition pools (t : list Event) : list Z :=
  flat_map (fun e => match e with PoolStart n => [n] | _ => [] end) t.

Definition workbooks (t : list Event) : list (string * list Sheet) :=
  flat_map (fun e => match e with WriteExcel f sheets => [(f, sheets)] | _ => [] end) t.

Definition csv_files (t : list Event) : list (string * list (list Cell)) :=
  flat_map (fun e => match e with WriteCsv f rows => [(f, rows)] | _ => [] end) t.

Definition files_written (t : list Event) : list string :=
  flat_map (fun e => match e with
                     | WriteExcel f _ | WriteCsv f _ => [f]
                     | _ => [] end) t.

Definition uncaught (t : list Event) : list string :=
  flat_map (fun e => match e with Uncaught exception => [exception] | _ => [] end) t.

Definition not_modelled (t : list Event) : list string :=
  flat_map (fun e => match e with NotModelled what => [what] | _ => [] end) t.

(** How a function ends early: with an exception that it lets through, or
    at a step that is not modelled. *)
Inductive Stop := Raised (exception : string) | Unmodelled (what : string).

(** What [main] shows of it. *)
Definition stop (s : Stop) : M unit :=
  match s with
  | Raised exception => emit (Uncaught exception)
  | Unmodelled what => emit (NotModelled what)
  end.

End Effects.

Declare Scope effect_scope.
Delimit Scope effect_scope with effect.
Notation "x <- m ;; k" := (Effects.bind m (fun x => k))
  (at level 61, m at next level, right associativity) : effect_scope.
Notation "m ;;; k" := (Effects.bind m (fun _ => k))
  (at level 61, right associativity) : effect_scope.

(** ** Tables: what the scripts use of pandas *)

Module Frame.

Definition sum (vs : list Z) : Z := fold_right Z.add 0 vs.

(** The default aggregation of [pivot_table]: the mean of the values that
    fall in one cell.  pandas computes it in float64; the rational here is
    that number where [exact] holds, and the exports below go no further. *)
Definition mean (vs : list Z) : Q :=
  Qred (inject_Z (sum vs) / inject_Z (Py.len vs)).

(** The values of a cell whose mean float64 holds exactly: none, or one
    of at most 53 bits. *)
Definition exact (vs : list Z) : bool :=
  match vs with
  | [] => true
  | [v] => Z.abs v <=? 2 ^ 53
  | _ => false
  end.

(** A cell of a pivot after [fill_value=0] / [reindex(..., fill_value=0)]:
    zero when no row falls in it. *)
Definition cell (vs : list Z) : Q :=
  match vs with
  | [] => 0%Q
  | _ => mean vs
  end.

(** What leaving [with pd.ExcelWriter(..., engine='openpyxl')] raises when
    no sheet was written: openpyxl does not save a workbook without a
    visible sheet. *)
Definition no_sheet_error : string :=
  "IndexError: At least one sheet must be visible".

(** Sheet titles.  openpyxl refuses a title with one of these characters
    (ValueError), renames a title that another sheet has up to the case of
    its letters, and, depending on its version, refuses or accepts a title
    of more than 31 characters. *)
Definition forbidden_in_title (c : ascii) : bool :=
  existsb (Ascii.eqb c) (list_ascii_of_string "\/?*[]:").

Definition printable (c : ascii) : bool :=
  (32 <=? N_of_ascii c)%N && (N_of_ascii c <=? 126)%N.

Definition lower (c : ascii) : ascii :=
  if (65 <=? N_of_ascii c)%N && (N_of_ascii c <=? 90)%N
  then ascii_of_N (N_of_ascii c + 32)
  else c.

Fixpoint lower_case (s : string) : string :=
  match s with
  | EmptyString => EmptyString
  | String c s' => String (lower c) (lower_case s')
  end.

(** A text that is written to a cell or a title as it is: printable ASCII. *)
Definition plain_text (s : string) : bool :=
  forallb printable (list_ascii_of_string s).

(** A title that every version takes as it is. *)
Definition plain_title (s : string) : bool :=
  negb (String.eqb s "") && (String.length s <=? 31)%nat
  && plain_text s
  && forallb (fun c => negb (forbidden_in_title c)) (list_ascii_of_string s).

Fixpoint distinct_titles (titles : list string) : bool :=
  match titles with
  | [] => true
  | t :: rest =>
      negb (existsb (String.eqb (lower_case t)) (map lower_case rest))
      && distinct_titles rest
  end.

(** The titles of a workbook that is written with its sheets named as
    asked. *)
Definition plain_titles (titles : list string) : bool :=
  forallb plain_title titles && distinct_titles titles.

(** What the exports answer outside of that. *)
Definition beyond_to_excel : string :=
  "to_excel: a sheet title, a label or a mean outside the model".

End Frame.

(** ** count_events_by_year.py *)

Module CountEventsByYear.
Import Http Effects.
Local Open Scope effect_scope.

Definition BASE_URL : string := "https://montandon-eoapi-stage.ifrc.org/stac".
Definition OUTPUT_FILE : string := "event_counts_by_year.xlsx".
Definition MAX_WORKERS : Z := 10.

Record TimeBin := { label : string; start : Z; end_ : Z }.

Inductive Count := Counted (n : Z) | Error.

Record Row := { collection : string; time_period : string; event_count : Count }.

(** The URL of the listing. *)
Definition listing_url : string := BASE_URL ++ "/collections".

(** The ids of the collections of a listing that have the role "event". *)
Definition event_collections_of (data : Body) : list string :=
  map id (filter (fun collection =>
                    Text.mem "event" (Py.get (roles collection) []))
                 (Py.get (collections data) [])).

Definition get_event_collections (srv : Server) : M (list string) :=
  print FetchingCollections ;;;
  let url := listing_url in
  response <- session_get srv url ;;
  match response with
  | Json data =>
      let event_collections := event_collections_of data in
      print (FoundCollections event_collections) ;;;
      ret event_collections
  | RequestException e =>
      print (Fatal e) ;;;
      ret []
  end.

Definition make_bin (start_year end_year : Z) : TimeBin :=
  {| label := Text.str_of_Z start_year ++ "-" ++ Text.str_of_Z end_year;
     start := start_year;
     end_ := end_year |}.

(** The [while current_year <= end_year_limit] loop. *)
Fixpoint fifty_year_bins (fuel : nat) (end_year_limit current_year : Z)
    (bins : list TimeBin) : option (list TimeBin) :=
  match fuel with
  | O => None
  | S fuel' =>
      if current_year <=? end_year_limit then
        let start_year := current_year in
        let end_year := current_year + 49 in
        let end_year :=
          if end_year_limit <? end_year then end_year_limit else end_year in
        fifty_year_bins fuel' end_year_limit (current_year + 50)
          (bins ++ [make_bin start_year end_year])%list
      else Some bins
  end.

Definition generate_time_bins (fuel : nat) (now : Calendar.datetime)
    : option (list TimeBin) :=
  let bins :=
    fold_left (fun bins year => (bins ++ [make_bin year (year + 99)])%list)
              (Py.range 1600 1800 100) [] in
  let current_year := 1800 in
  let end_year_limit := Calendar.year now in
  fifty_year_bins fuel end_year_limit current_year bins.

(** The URL of the one request of [fetch_count_for_bin]. *)
Definition count_url (collection_id : string) (time_bin : TimeBin) : string :=
  let start_dt := Text.str_of_Z (start time_bin) ++ "-01-01T00:00:00Z" in
  let end_dt := Text.str_of_Z (end_ time_bin) ++ "-12-31T23:59:59Z" in
  let datetime_range := start_dt ++ "/" ++ end_dt in
  BASE_URL ++ "/collections/" ++ collection_id
  ++ "/items?limit=1&datetime=" ++ datetime_range.

Definition fetch_count_for_bin (srv : Server) (collection_id : string)
    (time_bin : TimeBin) : M Row :=
  let bin_label := label time_bin in
  print (Querying collection_id bin_label) ;;;
  let url := count_url collection_id time_bin in
  response <- session_get srv url ;;
  match response with
  | Json data =>
      count <- match numberMatched data with
               | None =>
                   print (WarnNoNumberMatched collection_id bin_label) ;;;
                   ret 0
               | Some count => ret count
               end ;;
      print (Completed collection_id bin_label count) ;;;
      ret {| collection := collection_id;
             time_period := bin_label;
             event_count := Counted count |}
  | RequestException e =>
      print (TaskError collection_id bin_label e) ;;;
      ret {| collection := collection_id;
             time_period := bin_label;
             event_count := Error |}
  end.

Definition Task : Type := string * TimeBin.

(** [tasks.append((collection_id, bin_info))] in the two nested loops. *)
Definition make_tasks (event_collections : list string) (time_bins : list TimeBin)
    : list Task :=
  flat_map (fun collection_id => map (fun bin_info => (collection_id, bin_info)) time_bins)
           event_collections.

Definition is_counted (row : Row) : bool :=
  match event_count row with Counted _ => true | Error => false end.

Definition count_value (row : Row) : list Z :=
  match event_count row with Counted n => [n] | Error => [] end.

(** The sheet of one collection: one row, indexed by the collection, with
    the mean count per period; [reindex] puts the periods of the whole frame
    in the columns, in their order, with zero where the collection has none. *)
Definition pivot (df_long : list Row) (all_time_periods : list string)
    (collection_name : string) : Sheet :=
  let df_collection :=
    filter (fun row => String.eqb (collection row) collection_name) df_long in
  {| sheet_name := collection_name;
     index := None;
     columns := all_time_periods;
     rows := [ map (fun period =>
                      Frame.cell
                        (flat_map count_value
                           (filter (fun row => String.eqb (time_period row) period)
                                   df_collection)))
                   all_time_periods ] |}.

(** The sheets written for the rows gathered: the rows with an error are
    dropped, then one sheet per collection, in sorted order. *)
Definition workbook (all_results : list Row) : list Sheet :=
  let df_long := filter is_counted all_results in
  let collections := Text.sorted (Text.unique (map collection df_long)) in
  let all_time_periods := Text.sorted (Text.unique (map time_period df_long)) in
  map (pivot df_long all_time_periods) collections.

(** The frames whose export is modelled: the titles of the sheets and the
    labels of the columns are plain, and no cell holds more than one count
    (a collection listed twice would have two), each of at most 53 bits. *)
Definition within_model (all_results : list Row) : bool :=
  let df_long := filter is_counted all_results in
  Frame.plain_titles (map sheet_name (workbook all_results))
  && forallb Frame.plain_text (map time_period df_long)
  && forallb (fun row =>
                Frame.exact
                  (flat_map count_value
                     (filter (fun r => String.eqb (time_period r) (time_period row))
                        (filter (fun r => String.eqb (collection r) (collection row))
                           df_long))))
             df_long.

(** The part of [main] after the pool.  When every row is an error row the
    frame is empty after the filter and no sheet is written; the writer then
    fails as the [with] block is left, and nothing in [main] catches it. *)
Definition export (all_results : list Row) : M unit :=
  match all_results with
  | [] => print NoData
  | _ =>
      print (WritingExcel OUTPUT_FILE) ;;;
      let sheets := workbook all_results in
      if within_model all_results then
        for_each sheets (fun sheet => print (CreatingSheet (sheet_name sheet))) ;;;
        match sheets with
        | [] => emit (Uncaught Frame.no_sheet_error)
        | _ =>
            emit (WriteExcel OUTPUT_FILE sheets) ;;;
            print (CreatedExcel (Py.len sheets))
        end
      else emit (NotModelled Frame.beyond_to_excel)
  end.

(** What the task [t] returns, run as a session of its own. *)
Definition task_row (task_srv : string -> string -> Server) (t : string * TimeBin)
    : option Row :=
  option_map fst
    (fetch_count_for_bin (task_srv (fst t) (label (snd t))) (fst t) (snd t)
       Effects.start).

(** The loop over [as_completed(future_to_task)]: each future yields the
    row of its task, in the order of completion. *)
Fixpoint gather (task_srv : string -> string -> Server) (done : list Task)
    : M (list Row) :=
  match done with
  | [] => ret []
  | (coll_id, t_bin) :: done' =>
      result <- in_worker
        (fetch_count_for_bin (task_srv coll_id (label t_bin)) coll_id t_bin) ;;
      others <- gather task_srv done' ;;
      ret (result :: others)
  end.

(** [main]: [srv] answers the listing, [task_srv c b] answers the task of
    collection [c] and bin [b], [completion] is the order in which the
    futures complete. *)
Definition main (fuel : nat) (now : Calendar.datetime) (srv : Server)
    (task_srv : string -> string -> Server)
    (completion : list Task -> list Task) : M unit :=
  event_collections <- get_event_collections srv ;;
  match event_collections with
  | [] => ret tt
  | _ =>
      match generate_time_bins fuel now with
      | None => diverge
      | Some time_bins =>
          print (GeneratedBins (Py.len time_bins)) ;;;
          let tasks := make_tasks event_collections time_bins in
          emit (PoolStart MAX_WORKERS) ;;;
          for_each tasks (fun t => emit (Submit (fst t) (label (snd t)))) ;;;
          all_results <- gather task_srv (completion tasks) ;;
          export all_results
      end
  end.

End CountEventsByYear.

(** ** example_5.py *)

Module Example5.
Import Http Effects.
Local Open Scope effect_scope.

Definition BASE_URL : string := "https://montandon-eoapi-stage.ifrc.org/stac".
Definition OUTPUT_FILE : string := "hazard_counts_by_year_and_type.xlsx".
Definition START_YEAR : Z := 1800.
Definition INTERVAL_YEARS : Z := 50.
Definition MAX_WORKERS : Z := 10.

Record TimeBin := { label : string; start_datetime : string; end_datetime : string }.

Record Row := {
  collection : string;
  time_period : string;
  hazard_code : string;
  event_count : Z
}.

(** The [while url] loop of the listing; [params] is the query string that
    [requests] adds to the URL, [None] is a caught [RequestException]. *)
Fixpoint listing_pages (fuel : nat) (srv : Server) (url : option string)
    (params : string) (all_collections : list Collection) (page : Z)
    : M (option (list Collection)) :=
  match fuel with
  | O => diverge
  | S fuel' =>
      if truthy url then
        print (CollectionsPage page) ;;;
        response <- session_get srv (url_text url ++ params) ;;
        match response with
        | Json data =>
            let collections := Py.get (collections data) [] in
            let all_collections := (all_collections ++ collections)%list in
            print (RetrievedCollections (Py.len collections) (Py.len all_collections)) ;;;
            let links := Py.get (links data) [] in
            let '(url, params) :=
              match find is_next links with
              | Some link => (href link, "")
              | None => (None, params)
              end in
            listing_pages fuel' srv url params all_collections (page + 1)
        | RequestException e =>
            print (Fatal e) ;;;
            ret None
        end
      else ret (Some all_collections)
  end.

(** The URL of the listing, and with the parameters of its first request. *)
Definition listing_url : string := BASE_URL ++ "/collections".
Definition first_listing_url : string := listing_url ++ "?limit=100".

(** The ids, among those of the collections listed, that contain
    "-events". *)
Definition hazard_collections_of (all_collections : list Collection) : list string :=
  filter (Text.contains "-events") (map id all_collections).

Definition get_hazard_collections (fuel : nat) (srv : Server) : M (list string) :=
  print FetchingCollections ;;;
  let url := listing_url in
  let params := "?limit=100" in
  fetched <- listing_pages fuel srv (Some url) params [] 1 ;;
  match fetched with
  | None => ret []
  | Some all_collections =>
      print (TotalCollections (Py.len all_collections)) ;;;
      for_each all_collections
        (fun collection =>
           let coll_id := id collection in
           print (Checking coll_id) ;;;
           if Text.contains "-events" coll_id then print Added else print NotAdded) ;;;
      let hazard_collections := hazard_collections_of all_collections in
      print (FoundCollections hazard_collections) ;;;
      ret hazard_collections
  end.

Definition make_bin (bin_start bin_end : Z) : TimeBin :=
  {| label := Text.str_of_Z bin_start ++ "-" ++ Text.str_of_Z bin_end;
     start_datetime := Text.str_of_Z bin_start ++ "-01-01T00:00:00Z";
     end_datetime := Text.str_of_Z bin_end ++ "-12-31T23:59:59Z" |}.

(** The [while current_year <= end_year] loop. *)
Fixpoint bins_from (fuel : nat) (interval end_year current_year : Z)
    (bins : list TimeBin) : option (list TimeBin) :=
  match fuel with
  | O => None
  | S fuel' =>
      if current_year <=? end_year then
        let bin_start := current_year in
        let bin_end := current_year + interval - 1 in
        let bin_end := if end_year <? bin_end then end_year else bin_end in
        bins_from fuel' interval end_year (current_year + interval)
          (bins ++ [make_bin bin_start bin_end])%list
      else Some bins
  end.

Definition generate_time_bins (fuel : nat) (now : Calendar.datetime)
    (start_year interval : Z) : option (list TimeBin) :=
  let current_year := start_year in
  let end_year := Calendar.year now in
  bins_from fuel interval end_year current_year [].

(** [for feature in features: hazard_counter.update(codes)] *)
Definition tally (hazard_counter : Py.Counter) (features : list Feature) : Py.Counter :=
  fold_left (fun counter feature =>
               Py.counter_update counter (Py.get (hazard_codes feature) []))
            features hazard_counter.

(** The [while url] loop of [fetch_counts_for_bin]. *)
Fixpoint count_pages (fuel : nat) (srv : Server) (collection_id bin_label : string)
    (url : option string) (items_fetched : Z) (hazard_counter : Py.Counter)
    : M (string * string * Py.Counter) :=
  match fuel with
  | O => diverge
  | S fuel' =>
      if truthy url then
        response <- session_get srv (url_text url) ;;
        match response with
        | Json data =>
            let features := Py.get (features data) [] in
            match features with
            | [] =>
                if items_fetched =? 0 then
                  print (Completed collection_id bin_label 0) ;;;
                  ret (collection_id, bin_label, [])
                else
                  count_pages fuel' srv collection_id bin_label (next_href data)
                    items_fetched hazard_counter
            | _ =>
                count_pages fuel' srv collection_id bin_label (next_href data)
                  (items_fetched + Py.len features)
                  (tally hazard_counter features)
            end
        | RequestException e =>
            print (TaskError collection_id bin_label e) ;;;
            ret (collection_id, bin_label, [])
        end
      else
        print (Completed collection_id bin_label items_fetched) ;;;
        ret (collection_id, bin_label, hazard_counter)
  end.

(** The URL of the first page of [fetch_counts_for_bin]. *)
Definition bin_url (collection_id : string) (time_bin : TimeBin) : string :=
  let datetime_range := start_datetime time_bin ++ "/" ++ end_datetime time_bin in
  BASE_URL ++ "/collections/" ++ collection_id ++ "/items"
  ++ "?limit=250&datetime=" ++ datetime_range
  ++ "&fields=properties.monty:hazard_codes".

Definition fetch_counts_for_bin (fuel : nat) (srv : Server) (collection_id : string)
    (time_bin : TimeBin) : M (string * string * Py.Counter) :=
  let bin_label := label time_bin in
  print (Starting collection_id bin_label) ;;;
  let url := bin_url collection_id time_bin in
  count_pages fuel srv collection_id bin_label (Some url) 0 [].

(** The tally of all the features of [pages], page after page. *)
Definition tally_pages (hazard_counter : Py.Counter) (pages : list Body) : Py.Counter :=
  fold_left (fun counter data => tally counter (Py.get (features data) []))
            pages hazard_counter.

Definition Task : Type := string * TimeBin.

Definition make_tasks (hazard_collections : list string) (time_bins : list TimeBin)
    : list Task :=
  flat_map (fun collection_id => map (fun bin_info => (collection_id, bin_info)) time_bins)
           hazard_collections.

(** The rows one finished task adds to [all_results]. *)
Definition rows_of (result : string * string * Py.Counter) : list Row :=
  let '(collection_id, bin_label, counts) := result in
  map (fun kv => {| collection := collection_id;
                    time_period := bin_label;
                    hazard_code := fst kv;
                    event_count := snd kv |})
      counts.

(** The loop over [as_completed(future_to_task)]. *)
Fixpoint gather (fuel : nat) (task_srv : string -> string -> Server)
    (done : list Task) : M (list Row) :=
  match done with
  | [] => ret []
  | (coll_id, t_bin) :: done' =>
      result <- in_worker
        (fetch_counts_for_bin fuel (task_srv coll_id (label t_bin)) coll_id t_bin) ;;
      others <- gather fuel task_srv done' ;;
      ret (rows_of result ++ others)%list
  end.

(** The sheet of one collection: a row per hazard code of the collection,
    sorted, a column per period of the whole frame. *)
Definition pivot (df_long : list Row) (time_period_order : list string)
    (collection_name : string) : Sheet :=
  let df_collection :=
    filter (fun row => String.eqb (collection row) collection_name) df_long in
  let codes := Text.sorted (Text.unique (map hazard_code df_collection)) in
  {| sheet_name := collection_name;
     index := Some codes;
     columns := time_period_order;
     rows := map (fun code =>
                    map (fun period =>
                           Frame.cell
                             (map event_count
                                (filter (fun row =>
                                           String.eqb (hazard_code row) code
                                           && String.eqb (time_period row) period)
                                        df_collection)))
                        time_period_order)
                 codes |}.

(** The sheets written for the rows gathered: one sheet per collection,
    in the order in which the collections first appear. *)
Definition workbook (all_results : list Row) : list Sheet :=
  let df_long := all_results in
  let time_period_order := Text.sorted (Text.unique (map time_period df_long)) in
  let collections := Text.unique (map collection df_long) in
  map (pivot df_long time_period_order) collections.

(** The frames whose export is modelled: the titles of the sheets, the
    labels of the columns and the hazard codes are plain, and no cell holds
    more than one count (a collection listed twice would have two), each of
    at most 53 bits. *)
Definition within_model (all_results : list Row) : bool :=
  Frame.plain_titles (map sheet_name (workbook all_results))
  && forallb Frame.plain_text (map time_period all_results)
  && forallb Frame.plain_text (map hazard_code all_results)
  && forallb (fun row =>
                Frame.exact
                  (map event_count
                     (filter (fun r =>
                                String.eqb (hazard_code r) (hazard_code row)
                                && String.eqb (time_period r) (time_period row))
                        (filter (fun r => String.eqb (collection r) (collection row))
                           all_results))))
             all_results.

(** The part of [main] after the pool. *)
Definition export (all_results : list Row) : M unit :=
  match all_results with
  | [] => print NoData
  | _ =>
      print (WritingExcel OUTPUT_FILE) ;;;
      let sheets := workbook all_results in
      if within_model all_results then
        for_each sheets (fun sheet => print (CreatingSheet (sheet_name sheet))) ;;;
        emit (WriteExcel OUTPUT_FILE sheets) ;;;
        print (CreatedExcel (Py.len sheets))
      else emit (NotModelled Frame.beyond_to_excel)
  end.


Definition main (fuel : nat) (now : Calendar.datetime) (srv : Server)
    (task_srv : string -> string -> Server)
    (completion : list Task -> list Task) : M unit :=
  hazard_collections <- get_hazard_collections fuel srv ;;
  match hazard_collections with
  | [] => ret tt
  | _ =>
      match generate_time_bins fuel now START_YEAR INTERVAL_YEARS with
      | None => diverge
      | Some time_bins =>
          print (GeneratedBins (Py.len time_bins)) ;;;
          let tasks := make_tasks hazard_collections time_bins in
          emit (PoolStart MAX_WORKERS) ;;;
          for_each tasks (fun t => emit (Submit (fst t) (label (snd t)))) ;;;
          all_results <- gather fuel task_srv (completion tasks) ;;
          export all_results
      end
  end.

End Example5.

(** ** example_3_optimized.py *)

Module Example3Optimized.
Import Http Effects.
Local Open Scope effect_scope.

Definition COLLECTION_ID : string := "usgs-events".
Definition BASE_URL : string := "https://montandon-eoapi-stage.ifrc.org/stac/collections".
Definition ERROR_FILE : string := "event_count_errors_usgs_optimized.json".
Definition OUTPUT_FILE : string := "event_counts_by_country_usgs_optimized.csv".
Definition PAGE_SIZE : Z := 500.
Definition MAX_WORKERS : Z := 10.
Definition YEARS_PER_CHUNK : Z := 5.
Definition START_YEAR : Z := 1934.

Record TimeChunk := { start : string; end_ : string; label : string }.

Definition write_error_entry (error_entry : ErrorEntry) : M unit :=
  emit (AppendError ERROR_FILE error_entry).

Definition get_collection_temporal_extent (now : Calendar.datetime)
    : M (string * string) :=
  let start_date := Text.str_of_Z START_YEAR ++ "-01-01T00:00:00Z" in
  let end_date := Calendar.strftime now in
  print (TemporalExtent start_date end_date) ;;;
  print (StartYearNote START_YEAR) ;;;
  ret (start_date, end_date).

Definition make_chunk (current_start current_end : Calendar.datetime) : TimeChunk :=
  {| start := Calendar.strftime current_start;
     end_ := Calendar.strftime current_end;
     label := Text.str_of_Z (Calendar.year current_start) ++ "-"
              ++ Text.str_of_Z (Calendar.year current_end) |}.

(** What a call gives: a value, an OverflowError of the date arithmetic,
    or nothing that is modelled, for a string that is not of the layout of
    [Calendar.fromisoformat]. *)
Inductive Parsed (A : Type) := Value (a : A) | OverflowError | OtherLayout.
Arguments Value {A} a.
Arguments OverflowError {A}.
Arguments OtherLayout {A}.

(** The [while current_start < end_date] loop. *)
Fixpoint chunks_from (fuel : nat) (years_per_chunk : Z)
    (end_date current_start : Calendar.datetime) (chunks : list TimeChunk)
    : option (Parsed (list TimeChunk)) :=
  match fuel with
  | O => None
  | S fuel' =>
      if current_start <? end_date then
        match Calendar.plus_days current_start (365 * years_per_chunk) with
        | None => Some OverflowError
        | Some later =>
            let current_end := Z.min later end_date in
            chunks_from fuel' years_per_chunk end_date current_end
              (chunks ++ [make_chunk current_start current_end])%list
        end
      else Some (Value chunks)
  end.

Definition generate_time_chunks (fuel : nat) (start_date_str end_date_str : string)
    (years_per_chunk : Z) : option (Parsed (list TimeChunk)) :=
  match Calendar.fromisoformat (Calendar.replace_Z start_date_str) with
  | None => Some OtherLayout
  | Some start_date =>
      match Calendar.fromisoformat (Calendar.replace_Z end_date_str) with
      | None => Some OtherLayout
      | Some end_date => chunks_from fuel years_per_chunk end_date start_date []
      end
  end.

Definition max_retries : Z := 3.

(** The entry written when page [page_count] of a chunk is given up after
    the exception [ex]. *)
Definition gave_up (collection_id chunk_label : string) (page_count : Z) (ex : string)
    : ErrorEntry :=
  {| err_collection := collection_id;
     err_time_chunk := chunk_label;
     err_page := Some page_count;
     err_reason := "Failed after " ++ Text.str_of_Z max_retries ++ " attempts: " ++ ex |}.

(** [for feature in features: chunk_counter.update(codes)] *)
Definition tally (chunk_counter : Py.Counter) (features : list Feature) : Py.Counter :=
  fold_left (fun counter feature =>
               Py.counter_update counter (Py.get (country_codes feature) []))
            features chunk_counter.

(** How the [for attempt in range(max_retries)] loop over one page ends:
    with the page ([break]), with the error entry ([return]), or by running
    out of attempts. *)
Inductive PageResult :=
| Fetched (data : Body)
| GaveUp (error_entry : ErrorEntry)
| OutOfAttempts.

Fixpoint try_page (srv : Server) (collection_id chunk_label url : string)
    (page_count : Z) (attempts : list Z) : M PageResult :=
  match attempts with
  | [] => ret OutOfAttempts
  | attempt :: attempts' =>
      response <- session_get srv url ;;
      match response with
      | Json data => ret (Fetched data)
      | RequestException ex =>
          let wait_time := 2 ^ attempt in
          print (RetryWarning chunk_label page_count (attempt + 1) wait_time) ;;;
          sleep wait_time ;;;
          if attempt =? max_retries - 1 then
            let error_entry := gave_up collection_id chunk_label page_count ex in
            write_error_entry error_entry ;;;
            print (ChunkFailed chunk_label max_retries) ;;;
            ret (GaveUp error_entry)
          else try_page srv collection_id chunk_label url page_count attempts'
      end
  end.

(** The [while url] loop of [fetch_time_chunk]. *)
Fixpoint fetch_pages (fuel : nat) (srv : Server) (collection_id chunk_label : string)
    (url : option string) (page_count total_items : Z) (chunk_counter : Py.Counter)
    : M (Py.Counter * option ErrorEntry) :=
  match fuel with
  | O => diverge
  | S fuel' =>
      if truthy url then
        let page_count := page_count + 1 in
        result <- try_page srv collection_id chunk_label (url_text url) page_count
                    (Py.range 0 max_retries 1) ;;
        match result with
        | Fetched data =>
            let features := Py.get (features data) [] in
            fetch_pages fuel' srv collection_id chunk_label (next_href data)
              page_count (total_items + Py.len features) (tally chunk_counter features)
        | GaveUp error_entry => ret (chunk_counter, Some error_entry)
        | OutOfAttempts =>
            fetch_pages fuel' srv collection_id chunk_label url
              page_count total_items chunk_counter
        end
      else
        print (ChunkCompleted chunk_label total_items page_count) ;;;
        ret (chunk_counter, None)
  end.

(** The URL of the first page of [fetch_time_chunk]. *)
Definition chunk_url (collection_id : string) (time_chunk : TimeChunk) : string :=
  let datetime_range := start time_chunk ++ "/" ++ end_ time_chunk in
  BASE_URL ++ "/" ++ collection_id ++ "/items?limit="
  ++ Text.str_of_Z PAGE_SIZE ++ "&datetime=" ++ datetime_range
  ++ "&fields=properties.monty:country_codes".

Definition fetch_time_chunk (fuel : nat) (srv : Server) (collection_id : string)
    (time_chunk : TimeChunk) : M (Py.Counter * option ErrorEntry) :=
  let chunk_label := label time_chunk in
  print (StartingChunk chunk_label) ;;;
  let url := chunk_url collection_id time_chunk in
  fetch_pages fuel srv collection_id chunk_label (Some url) 0 0 [].

(** The tally of all the features of [pages], page after page. *)
Definition tally_pages (chunk_counter : Py.Counter) (pages : list Body) : Py.Counter :=
  fold_left (fun counter data => tally counter (Py.get (features data) []))
            pages chunk_counter.

(** The loop over [as_completed(future_to_chunk)]. *)
Fixpoint gather (fuel : nat) (task_srv : TimeChunk -> Server) (collection_id : string)
    (total : Z) (done : list TimeChunk) (combined_counter : Py.Counter)
    (errors : list ErrorEntry) (completed_chunks : Z)
    : M (Py.Counter * list ErrorEntry * Z) :=
  match done with
  | [] => ret (combined_counter, errors, completed_chunks)
  | chunk :: done' =>
      result <- in_worker (fetch_time_chunk fuel (task_srv chunk) collection_id chunk) ;;
      let '(chunk_counter, error) := result in
      let combined_counter := Py.counter_merge combined_counter chunk_counter in
      let errors := match error with
                    | Some e => (errors ++ [e])%list
                    | None => errors
                    end in
      let completed_chunks := completed_chunks + 1 in
      print (Progress completed_chunks total) ;;;
      gather fuel task_srv collection_id total done' combined_counter errors
        completed_chunks
  end.

(** [inr] is how the function ends when it does not return.  Before the
    year 1000 the text that [strftime] gives for the clock depends on the
    platform, and with it what [fromisoformat] makes of it. *)
Definition fetch_country_counts_parallel (fuel : nat) (now : Calendar.datetime)
    (task_srv : TimeChunk -> Server)
    (completion : list TimeChunk -> list TimeChunk) (collection_id : string)
    : M (Py.Counter + Stop) :=
  print (StartingFetch collection_id) ;;;
  extent <- get_collection_temporal_extent now ;;
  let '(start_date, end_date) := extent in
  if Calendar.year now <? 1000 then ret (inr (Unmodelled "strftime")) else
  match generate_time_chunks fuel start_date end_date YEARS_PER_CHUNK with
  | None => diverge
  | Some OverflowError => ret (inr (Raised "OverflowError"))
  | Some OtherLayout => ret (inr (Unmodelled "fromisoformat"))
  | Some (Value time_chunks) =>
      print (GeneratedChunks (Py.len time_chunks)) ;;;
      emit (PoolStart MAX_WORKERS) ;;;
      for_each time_chunks (fun chunk => emit (Submit collection_id (label chunk))) ;;;
      gathered <- gather fuel task_srv collection_id (Py.len time_chunks)
                    (completion time_chunks) [] [] 0 ;;
      let '(combined_counter, errors, completed_chunks) := gathered in
      print (CompletedChunks completed_chunks (Py.len time_chunks)) ;;;
      match errors with
      | [] => ret tt
      | _ => print (ErrorsLogged (Py.len errors))
      end ;;;
      ret (inl combined_counter)
  end.

Definition csv_rows (country_counts : Py.Counter) : list (list Cell) :=
  [Text "country_code"; Text "event_count"]
  :: map (fun kv => [Text (fst kv); Int (snd kv)]) (Py.most_common country_counts).

Definition main (fuel : nat) (now : Calendar.datetime) (error_file_exists : bool)
    (task_srv : TimeChunk -> Server)
    (completion : list TimeChunk -> list TimeChunk) : M unit :=
  (if error_file_exists then emit (RemoveFile ERROR_FILE) else ret tt) ;;;
  fetched <- fetch_country_counts_parallel fuel now task_srv completion COLLECTION_ID ;;
  match fetched with
  | inr stopped => stop stopped
  | inl country_counts =>
      match country_counts with
      | [] => print NoDataProcessed
      | _ =>
          emit (WriteCsv OUTPUT_FILE (csv_rows country_counts)) ;;;
          print (ResultsSaved OUTPUT_FILE (Py.len country_counts)
                   (Frame.sum (map snd country_counts)))
      end ;;;
      print ExecutionTime
  end.

End Example3Optimized.

(** ** count_events_per_collection.py *)

Module CountEventsPerCollection.
Import Http Effects.
Local Open Scope effect_scope.

Definition BASE_URL : string := "https://montandon-eoapi-stage.ifrc.org/stac".

(** The value under ["total_events"]: a count or one of three texts. *)
Inductive Total :=
| Items (n : Z)
| ErrorDuringManualCount
| Error
| Exception.

Record Result := { collection_id : string; total_events : Total }.

(** The [while url] loop of [count_items_manually]. *)
Fixpoint count_pages (fuel : nat) (srv : Server) (collection_id : string)
    (url : option string) (item_count : Z) : M Total :=
  match fuel with
  | O => diverge
  | S fuel' =>
      if truthy url then
        response <- session_get srv (url_text url) ;;
        match response with
        | Json data =>
            let features := Py.get (features data) [] in
            let item_count := item_count + Py.len features in
            let url := next_href data in
            (if (0 <? item_count) && (item_count mod 5000 =? 0)
             then print (ManualCountProgress collection_id item_count)
             else ret tt) ;;;
            count_pages fuel' srv collection_id url item_count
        | RequestException e =>
            print (ManualCountError collection_id e) ;;;
            ret ErrorDuringManualCount
        end
      else
        print (ManualCountFinished collection_id item_count) ;;;
        ret (Items item_count)
  end.

(** The URL of the first page of [count_items_manually]. *)
Definition manual_url (collection_id : string) : string :=
  BASE_URL ++ "/collections/" ++ collection_id ++ "/items?limit=250".

Definition count_items_manually (fuel : nat) (srv : Server) (collection_id : string)
    : M Total :=
  print (ManualCountStart collection_id) ;;;
  let item_count := 0 in
  let url := manual_url collection_id in
  count_pages fuel srv collection_id (Some url) item_count.

(** The URLs of the two requests of [fetch_collection_count]. *)
Definition collection_url (collection_id : string) : string :=
  BASE_URL ++ "/collections/" ++ collection_id.

Definition items_url (collection_id : string) : string :=
  BASE_URL ++ "/collections/" ++ collection_id ++ "/items?limit=1".

Definition fetch_collection_count (fuel : nat) (srv : Server) (collection_id : string)
    : M Result :=
  let collection_url := collection_url collection_id in
  let failed e :=
    print (CollectionError collection_id e) ;;;
    ret {| collection_id := collection_id; total_events := Error |} in
  response <- session_get srv collection_url ;;
  match response with
  | RequestException e => failed e
  | Json data =>
      match monty_count data with
      | Some item_count =>
          print (FetchedFromSummary collection_id item_count) ;;;
          ret {| collection_id := collection_id; total_events := Items item_count |}
      | None =>
          print (NoSummary collection_id) ;;;
          let items_url := items_url collection_id in
          response <- session_get srv items_url ;;
          match response with
          | RequestException e => failed e
          | Json data =>
              match numberMatched data with
              | Some item_count =>
                  print (FetchedFromItems collection_id item_count) ;;;
                  ret {| collection_id := collection_id;
                         total_events := Items item_count |}
              | None =>
                  manual_count <- count_items_manually fuel srv collection_id ;;
                  ret {| collection_id := collection_id;
                         total_events := manual_count |}
              end
          end
      end
  end.

(** The URL of the listing. *)
Definition listing_url : string := BASE_URL ++ "/collections".

Definition get_all_collections (srv : Server) : M (list string) :=
  let url := listing_url in
  response <- session_get srv url ;;
  match response with
  | Json data => ret (map id (Py.get (collections data) []))
  | RequestException e =>
      print (Fatal e) ;;;
      ret []
  end.

(** The loop over [as_completed(future_to_id)]. *)
Fixpoint gather (fuel : nat) (task_srv : string -> Server) (done : list string)
    : M (list Result) :=
  match done with
  | [] => ret []
  | cid :: done' =>
      result <- in_worker (fetch_collection_count fuel (task_srv cid) cid) ;;
      others <- gather fuel task_srv done' ;;
      ret (result :: others)
  end.

Definition total_cell (t : Total) : Cell :=
  match t with
  | Items n => Int n
  | ErrorDuringManualCount => Text "Error during manual count"
  | Error => Text "Error"
  | Exception => Text "Exception"
  end.

Definition main (fuel : nat) (srv : Server) (task_srv : string -> Server)
    (completion : list string -> list string) : M unit :=
  print FetchingCollections ;;;
  collection_ids <- get_all_collections srv ;;
  match collection_ids with
  | [] => print NoCollections
  | _ =>
      print (FoundCount (Py.len collection_ids)) ;;;
      emit (PoolStart 10) ;;;
      for_each collection_ids (fun cid => emit (Submit cid "")) ;;;
      results <- gather fuel task_srv (completion collection_ids) ;;
      match results with
      | [] => print NoCounts
      | _ =>
          let results := Text.sorted_by collection_id results in
          emit (PrintTable (map collection_id results)
                           (map (fun r => [total_cell (total_events r)]) results))
      end
  end.

End CountEventsPerCollection.

(** ** Partitions of a range of integers (years, or seconds) *)

Module Partition.

(** A closed interval [fst r .. snd r]. *)
Definition inside (y : Z) (r : Z * Z) : bool := (fst r <=? y) && (y <=? snd r).

(** In how many of the intervals [y] lies. *)
Definition hits (y : Z) (rs : list (Z * Z)) : nat := List.length (filter (inside y) rs).

(** Each interval starts right after the one before it. *)
Fixpoint contiguous (rs : list (Z * Z)) : Prop :=
  match rs with
  | r1 :: ((r2 :: _) as rest) => fst r2 = snd r1 + 1 /\ contiguous rest
  | _ => True
  end.

(** [rs] is an ordered, contiguous sequence of non-empty intervals in which
    every point of [lo .. hi] lies exactly once and no other point lies at
    all; a non-empty [rs] starts at [lo] and ends at [hi]. *)
Definition partitions (lo hi : Z) (rs : list (Z * Z)) : Prop :=
  Forall (fun r => fst r <= snd r) rs
  /\ contiguous rs
  /\ (forall y, hits y rs = if (lo <=? y) && (y <=? hi) then 1%nat else 0%nat)
  /\ (rs <> [] -> fst (hd (0, 0) rs) = lo /\ snd (last rs (0, 0)) = hi).

(** A half-open interval of seconds [fst r, snd r) as a closed one. *)
Definition half_open (rs : list (Z * Z)) : list (Z * Z) :=
  map (fun r => (fst r, snd r - 1)) rs.

(** Built in order: the first interval starts at [lo], each next one right
    after, the last one ends at [hi]. *)
Inductive tiling : Z -> list (Z * Z) -> Z -> Prop :=
| tiling_last lo hi : lo <= hi -> tiling lo [(lo, hi)] hi
| tiling_more lo e rs hi :
    lo <= e -> tiling (e + 1) rs hi -> tiling lo ((lo, e) :: rs) hi.

(** The years of a bin of count_events_by_year. *)
Definition year_range (b : CountEventsByYear.TimeBin) : Z * Z :=
  (CountEventsByYear.start b, CountEventsByYear.end_ b).

(** The bin of example_5 for the years [fst r .. snd r]. *)
Definition bin_of (r : Z * Z) : Example5.TimeBin := Example5.make_bin (fst r) (snd r).

(** The chunk of example_3_optimized from [fst r] to [snd r]. *)
Definition chunk_of (r : Z * Z) : Example3Optimized.TimeChunk :=
  Example3Optimized.make_chunk (fst r) (snd r).

(** The label of the bin for the years [fst r .. snd r]. *)
Definition label_of (r : Z * Z) : string :=
  Text.str_of_Z (fst r) ++ "-" ++ Text.str_of_Z (snd r).

(** [l] is made of the numerals of the years [s <= e], four digits each,
    with a dash between them. *)
Definition year_label (l : string) (s e : Z) : Prop :=
  l = Text.str_of_Z s ++ "-" ++ Text.str_of_Z e
  /\ String.length (Text.str_of_Z s) = 4%nat
  /\ String.length (Text.str_of_Z e) = 4%nat
  /\ s <= e.

(** Whether the end of a bin of example_5 lies after the instant [now]. *)
Definition ends_after (now : Calendar.datetime) (bin : Example5.TimeBin) : bool :=
  match Calendar.fromisoformat (Calendar.replace_Z (Example5.end_datetime bin)) with
  | Some t => now <? t
  | None => false
  end.

(** The chunks example_3_optimized makes when the clock reads [now]: its
    [get_collection_temporal_extent] followed by [generate_time_chunks]. *)
Definition chunks_at (fuel : nat) (now : Calendar.datetime)
    : option (Example3Optimized.Parsed (list Example3Optimized.TimeChunk)) :=
  match Example3Optimized.get_collection_temporal_extent now Effects.start with
  | Some ((start_date, end_date), _) =>
      Example3Optimized.generate_time_chunks fuel start_date end_date
        Example3Optimized.YEARS_PER_CHUNK
  | None => None
  end.

End Partition.

(** ** Chains of pages *)

Module Pages.
Import Http.

(** From its request number [n] on, asked for [u], the server hands out
    [pages] one after the other, each on the first attempt and each with a
    link to the next; after them it is at request [n'], about to be asked
    for [u']. *)
Inductive run (srv : Server) : nat -> string -> list Body -> nat -> string -> Prop :=
| run_nil n u : run srv n u [] n u
| run_cons n u data u' pages n' u'' :
    srv n u = Json data ->
    next_href data = Some u' ->
    u' <> "" ->
    run srv (S n) u' pages n' u'' ->
    run srv n u (data :: pages) n' u''.

(** The page has no link whose [rel] is ["next"]. *)
Definition no_next (data : Body) : Prop :=
  find is_next (Py.get (links data) []) = None.

(** A finite chain of pages that starts at [u] with request [n] of a
    session: all pages but the last link to the next one, the last has no
    such link. *)
Definition chain_at (srv : Server) (n : nat) (u : string) (pages : list Body) : Prop :=
  exists init final n' u',
    pages = (init ++ [final])%list
    /\ run srv n u init n' u'
    /\ srv n' u' = Json final
    /\ no_next final.

(** A chain that starts with the first request of a session. *)
Definition chain (srv : Server) (u : string) (pages : list Body) : Prop :=
  chain_at srv 0 u pages.

(** The sum over the pages of the length of the features array. *)
Definition items (pages : list Body) : Z :=
  Frame.sum (map (fun data => Py.len (Py.get (features data) [])) pages).

(** The first page, if there is one, has features. *)
Definition starts_nonempty (pages : list Body) : Prop :=
  match pages with
  | [] => True
  | first :: _ => Py.get (features first) [] <> []
  end.

(** The early exit of example_5 does not cut the count short: the first
    page has features, or no page has. *)
Definition counted_from_first (pages : list Body) : Prop :=
  starts_nonempty pages \/ items pages = 0.

(** The pages a trace received, in order. *)
Definition received (t : list Effects.Event) : list Body :=
  flat_map (fun e => match e with
                     | Effects.Get _ (Json data) => [data]
                     | _ => []
                     end) t.

(** The reasons of the failed requests of a trace, in order. *)
Definition failures (t : list Effects.Event) : list string :=
  flat_map (fun e => match e with
                     | Effects.Get _ (RequestException reason) => [reason]
                     | _ => []
                     end) t.

End Pages.

(** ** Kinds of events *)

Module Kinds.
Import Http Effects.

(** A page received on request, or a printed line. *)
Definition quiet (e : Event) : bool :=
  match e with
  | Get _ (Json _) | Print _ => true
  | _ => false
  end.

(** What a task of the pool can do: requests, prints, sleeps, lines added
    to the error log. *)
Definition worker_event (e : Event) : bool :=
  match e with
  | Get _ _ | Print _ | Sleep _ | AppendError _ _ => true
  | _ => false
  end.

(** Anything but the writing of an output file. *)
Definition no_file_written (e : Event) : bool :=
  match e with
  | WriteExcel _ _ | WriteCsv _ _ => false
  | _ => true
  end.

(** The events of an export that writes the workbook [wb] to [file]. *)
Definition export_events (file : string) (wb : list Sheet) : list Event :=
  (Print (WritingExcel file)
   :: map (fun sheet => Print (CreatingSheet (sheet_name sheet))) wb)
  ++ [WriteExcel file wb; Print (CreatedExcel (Py.len wb))].

(** Every run of [m] only adds events that satisfy [P] to the trace. *)
Definition emits_only {A : Type} (P : Event -> bool) (m : M A) : Prop :=
  forall st a st',
    m st = Some (a, st') ->
    exists new, trace st' = (trace st ++ new)%list /\ forallb P new = true.

End Kinds.

(** ** Synthetic servers *)

Module Mock.
Import Http.

(** A page of features, each with the given codes (as hazard codes and as
    country codes), and a link to [next] if there is one. *)
Definition page (codes : list (list string)) (next : option string) : Body :=
  {| collections := None;
     links := Some match next with
                   | Some u => [{| rel := Some "self"; href := Some "here" |};
                                {| rel := Some "next"; href := Some u |}]
                   | None => [{| rel := Some "self"; href := Some "here" |}]
                   end;
     features := Some (map (fun c => {| hazard_codes := Some c;
                                        country_codes := Some c |}) codes);
     numberMatched := None;
     monty_count := None |}.

Definition first_page : Body := page [["US"]; ["US"; "CA"]] (Some "page2").
Definition second_page : Body := page [["MX"]] None.
Definition empty_page : Body := page [] (Some "page2").

(** Two pages, then nothing more. *)
Definition two_pages : Server :=
  fun n _ => match n with
             | O => Json first_page
             | 1%nat => Json second_page
             | _ => RequestException "gone"
             end.

(** One page, then the server is down. *)
Definition page_then_down : Server :=
  fun n _ => match n with
             | O => Json first_page
             | _ => RequestException "down"
             end.

(** An empty first page that links to a page with one feature. *)
Definition empty_then_one : Server :=
  fun n _ => match n with
             | O => Json empty_page
             | _ => Json second_page
             end.

(** A collection without a count in its summary, whose items endpoint
    reports no total, and whose items come in two pages. *)
Definition no_totals : Server :=
  fun n _ => match n with
             | O | 1%nat => Json (page [] None)
             | 2%nat => Json first_page
             | _ => Json second_page
             end.

(** A bin, a chunk and a collection for the examples. *)
Definition bin5 : Example5.TimeBin := Example5.make_bin 1800 1849.
Definition bin_years : CountEventsByYear.TimeBin := CountEventsByYear.make_bin 1800 1849.
Definition chunk3 : Example3Optimized.TimeChunk :=
  Example3Optimized.make_chunk (Calendar.make 1934 1 1 0 0 0)
                               (Calendar.make 1938 12 31 0 0 0).

(** Always the same answer. *)
Definition always (r : Response) : Server := fun _ _ => r.

(** A listing of two collections; the first has the role "event" and an
    id with "-events". *)
Definition listing : Body :=
  {| collections := Some [ {| id := "usgs-events"; roles := Some ["event"; "source"] |};
                           {| id := "reference"; roles := None |} ];
     links := None;
     features := None;
     numberMatched := None;
     monty_count := None |}.

(** A page that reports a total. *)
Definition total (n : Z) : Body :=
  {| collections := None; links := None; features := Some [];
     numberMatched := Some n; monty_count := None |}.


(** The tasks of example_5: the bin 1900-1949 fails, 1850-1899 has two
    pages of events, the others are empty. *)
Definition hazard_srv (collection bin : string) : Server :=
  if String.eqb bin "1900-1949" then always (RequestException "timeout")
  else if String.eqb bin "1850-1899" then two_pages
  else always (Json (page [] None)).

(** Every task fails. *)
Definition all_down (collection bin : string) : Server :=
  always (RequestException "timeout").

(** The bins on 4 November 2026. *)
Definition bins_y : list CountEventsByYear.TimeBin :=
  map (fun r => CountEventsByYear.make_bin (fst r) (snd r))
      [(1600, 1699); (1700, 1799); (1800, 1849); (1850, 1899); (1900, 1949);
       (1950, 1999); (2000, 2026)].

Definition bins_5 : list Example5.TimeBin :=
  map (fun r => Example5.make_bin (fst r) (snd r))
      [(1800, 1849); (1850, 1899); (1900, 1949); (1950, 1999); (2000, 2026)].

(** A run of example_3_optimized in which every chunk has the same two
    pages. *)
Definition csv_run : option (unit * Effects.State) :=
  Example3Optimized.main 30 (Calendar.make 2026 11 4 12 0 0) false
    (fun _ => two_pages) (fun chunks => chunks) Effects.start.

(** The trace of a run that returned. *)
Definition trace_of (r : option (unit * Effects.State)) : list Effects.Event :=
  match r with
  | Some (_, st) => Effects.trace st
  | None => []
  end.


End Mock.

(** ** Tables: what a written sheet holds *)

Module Tables.
Import Effects.

(** The periods of the rows that count_events_by_year keeps. *)
Definition counted_periods (all_results : list CountEventsByYear.Row) : list string :=
  map CountEventsByYear.time_period (filter CountEventsByYear.is_counted all_results).

(** The periods of the rows of example_5. *)
Definition hazard_periods (all_results : list Example5.Row) : list string :=
  map Example5.time_period all_results.

(** The labels of [labels] that occur in [observed], in the order of
    [labels]. *)
Definition observed_of (labels observed : list string) : list string :=
  filter (fun l => Text.mem l observed) labels.

(** Every row of the sheet has a cell for every column. *)
Definition rectangular (sheet : Sheet) : Prop :=
  Forall (fun cells => List.length cells = List.length (columns sheet)) (rows sheet).

(** The cell in row [i], column [k]. *)
Definition cell_at (sheet : Sheet) (i k : nat) : option Q :=
  match nth_error (rows sheet) i with
  | Some cells => nth_error cells k
  | None => None
  end.

(** The sheets of the workbooks written in a run. *)
Definition sheets_written (t : list Event) : list Sheet :=
  flat_map snd (workbooks t).

End Tables.

(** ** Rows and runs used in the examples on tables *)

Module MockTables.
Import Http.

Definition labels : list string :=
  ["1600-1699"; "1700-1799"; "1800-1849"; "1850-1899"; "1900-1949";
   "1950-1999"; "2000-2026"].

Definition rows_y : list CountEventsByYear.Row :=
  [ {| CountEventsByYear.collection := "usgs-events";
       CountEventsByYear.time_period := "1850-1899";
       CountEventsByYear.event_count := CountEventsByYear.Counted 7 |};
    {| CountEventsByYear.collection := "gdacs-events";
       CountEventsByYear.time_period := "1800-1849";
       CountEventsByYear.event_count := CountEventsByYear.Counted 0 |};
    {| CountEventsByYear.collection := "usgs-events";
       CountEventsByYear.time_period := "1900-1949";
       CountEventsByYear.event_count := CountEventsByYear.Error |} ].

Definition rows_5 : list Example5.Row :=
  [ {| Example5.collection := "usgs-events";
       Example5.time_period := "1850-1899";
       Example5.hazard_code := "US";
       Example5.event_count := 2 |};
    {| Example5.collection := "gdacs-events";
       Example5.time_period := "1800-1849";
       Example5.hazard_code := "MX";
       Example5.event_count := 1 |} ].

(** A run of example_5 on 4 November 2026 in which only the bin 1850-1899
    has events. *)
Definition hazard_run : option (unit * Effects.State) :=
  Example5.main 12 (Calendar.make 2026 11 4 12 0 0)
    (Mock.always (Json Mock.listing)) Mock.hazard_srv (fun tasks => tasks)
    Effects.start.

End MockTables.

(** ** Tallies: what a counter holds *)

Module Tally.
Import Http.

(** How often [key] occurs in [elems]. *)
Definition occurrences (key : string) (elems : list string) : Z :=
  Py.len (filter (String.eqb key) elems).

(** The keys of a counter, in insertion order. *)
Definition keys (c : Py.Counter) : list string := map fst c.

(** A counter as [update] builds it from an empty one: every key once,
    every count at least one. *)
Definition well_formed (c : Py.Counter) : Prop :=
  NoDup (keys c) /\ Forall (fun kv => 1 <= snd kv) c.

(** The country codes, and the hazard codes, of all the features of the
    pages, in order. *)
Definition country_codes_of (pages : list Body) : list string :=
  flat_map (fun data =>
              flat_map (fun feature => Py.get (country_codes feature) [])
                       (Py.get (features data) []))
           pages.

Definition hazard_codes_of (pages : list Body) : list string :=
  flat_map (fun data =>
              flat_map (fun feature => Py.get (hazard_codes feature) [])
                       (Py.get (features data) []))
           pages.

(** The entries of a counter with the count [n], in their order. *)
Definition with_count (n : Z) (c : list (string * Z)) : list (string * Z) :=
  filter (fun kv => snd kv =? n) c.

End Tally.

(** ** Tasks run as sessions of their own *)

Module Tasks.
Import Http Effects.

(** What the task of a chunk returns. *)
Definition chunk_result (fuel : nat) (task_srv : Example3Optimized.TimeChunk -> Server)
    (collection_id : string) (chunk : Example3Optimized.TimeChunk)
    : option (Py.Counter * option ErrorEntry) :=
  option_map fst
    (Example3Optimized.fetch_time_chunk fuel (task_srv chunk) collection_id chunk
       Effects.start).

(** What the task of a collection returns. *)
Definition collection_result (fuel : nat) (task_srv : string -> Server)
    (collection_id : string) : option CountEventsPerCollection.Result :=
  option_map fst
    (CountEventsPerCollection.fetch_collection_count fuel (task_srv collection_id)
       collection_id Effects.start).

(** The errors of the results, in order. *)
Definition errors_of (results : list (Py.Counter * option ErrorEntry)) : list ErrorEntry :=
  flat_map (fun r => match snd r with Some e => [e] | None => [] end) results.

(** The counters of the results merged into [combined_counter], in order. *)
Definition merged (combined_counter : Py.Counter)
    (results : list (Py.Counter * option ErrorEntry)) : Py.Counter :=
  fold_left (fun acc r => Py.counter_merge acc (fst r)) results combined_counter.

End Tasks.

(** ** Pages that arrive after failed attempts *)

Module Retries.
Import Http Pages.

(** The requests [n], ..., [n + k - 1] of the session, for [u], fail. *)
Definition fails (srv : Server) (n : nat) (u : string) (k : nat) : Prop :=
  forall i, (i < k)%nat -> exists reason, srv (n + i)%nat u = RequestException reason.

(** A finite chain of pages that starts at [u] with request [n]: each page
    arrives after fewer than three failed attempts, all pages but the last
    link to the next one; [n'] requests were sent when the last arrives. *)
Inductive retried_chain (srv : Server) : nat -> string -> list Body -> nat -> Prop :=
| retried_last n u k data :
    (k < 3)%nat -> fails srv n u k -> srv (n + k)%nat u = Json data ->
    no_next data ->
    retried_chain srv n u [data] (S (n + k))
| retried_more n u k data u' pages n' :
    (k < 3)%nat -> fails srv n u k -> srv (n + k)%nat u = Json data ->
    next_href data = Some u' -> u' <> "" ->
    retried_chain srv (S (n + k)) u' pages n' ->
    retried_chain srv n u (data :: pages) n'.

End Retries.

(** ** Listings in several pages *)

Module Listings.
Import Http.

(** The collections of all the pages of a listing, in order. *)
Definition collections_of (pages : list Body) : list Collection :=
  flat_map (fun data => Py.get (collections data) []) pages.

End Listings.

(** ** Tables printed *)

Module Printed.
Import Effects.

(** The tables a trace printed: index and rows. *)
Definition tables (t : list Event) : list (list string * list (list Cell)) :=
  flat_map (fun e => match e with PrintTable index rows => [(index, rows)] | _ => [] end) t.

End Printed.

(** ** Kinds of events of the tasks and of the error log *)

Module TaskKinds.
Import Http Effects.


(** Anything but the removal of a file. *)
Definition no_removal (e : Event) : bool :=
  match e with
  | RemoveFile _ => false
  | _ => true
  end.

(** The files of the lines appended to an error log. *)
Definition appended_to (t : list Event) : list string :=
  flat_map (fun e => match e with AppendError file _ => [file] | _ => [] end) t.

(** The files removed. *)
Definition removed (t : list Event) : list string :=
  flat_map (fun e => match e with RemoveFile file => [file] | _ => [] end) t.

(** Neither a file written nor the end of a run that stops early. *)
Definition before_output (e : Event) : bool :=
  match e with
  | WriteExcel _ _ | WriteCsv _ _ | Uncaught _ | NotModelled _ => false
  | _ => true
  end.

(** Lines are appended to [ERROR_FILE] only, nothing is removed, and the
    one file written, if any, is the CSV. *)
Definition after_reset (e : Event) : bool :=
  match e with
  | RemoveFile _ | WriteExcel _ _ | PrintTable _ _ => false
  | AppendError file _ => String.eqb file Example3Optimized.ERROR_FILE
  | WriteCsv file _ => String.eqb file Example3Optimized.OUTPUT_FILE
  | _ => true
  end.

End TaskKinds.

(** ** Concrete inputs used in the examples below *)

Module Scenario.
Import Http.

(** Midnight and noon of 4 November 2026. *)
Definition midnight : Calendar.datetime := Calendar.make 2026 11 4 0 0 0.
Definition noon : Calendar.datetime := Calendar.make 2026 11 4 12 0 0.

End Scenario.

(** ** Servers and results used in the examples on listings and counts *)

Module Examples.
Import Http.

(** The first request fails and the second gives the first page; the next
    page arrives on the third attempt. *)
Definition flaky : Server :=
  fun n _ => match n with
             | 1%nat => Json Mock.first_page
             | 4%nat => Json Mock.second_page
             | _ => RequestException "timeout"
             end.

(** A listing in two pages. *)
Definition listing_first : Body :=
  {| collections := Some [ {| id := "usgs-events"; roles := None |};
                           {| id := "reference"; roles := None |} ];
     links := Some [ {| rel := Some "next"; href := Some "listing2" |} ];
     features := None;
     numberMatched := None;
     monty_count := None |}.

Definition listing_second : Body :=
  {| collections := Some [ {| id := "gdacs-events"; roles := None |} ];
     links := None;
     features := None;
     numberMatched := None;
     monty_count := None |}.

Definition listing_server : Server :=
  fun n _ => match n with
             | O => Json listing_first
             | 1%nat => Json listing_second
             | _ => RequestException "gone"
             end.

(** The second page of the listing does not arrive. *)
Definition listing_breaks : Server :=
  fun n _ => match n with
             | O => Json listing_first
             | _ => RequestException "timeout"
             end.

(** A collection whose summary has a count. *)
Definition with_summary (n : Z) : Body :=
  {| collections := None; links := None; features := None;
     numberMatched := None; monty_count := Some n |}.

Definition summary_server : Server := Mock.always (Json (with_summary 12)).

(** A collection without a count in its summary, whose items endpoint
    reports a total. *)
Definition total_server : Server :=
  fun n _ => match n with
             | O => Json (Mock.page [] None)
             | _ => Json (Mock.total 7)
             end.

(** A collection without a count in its summary, whose items endpoint
    reports no total, and whose second page of items does not arrive. *)
Definition manual_breaks : Server :=
  fun n _ => match n with
             | O | 1%nat => Json (Mock.page [] None)
             | 2%nat => Json Mock.first_page
             | _ => RequestException "timeout"
             end.

(** The tasks of count_events_per_collection. *)
Definition collection_srv (collection_id : string) : Server :=
  if String.eqb collection_id "reference" then summary_server else total_server.

(** The two chunks at midnight of 1 June 1941, and what their tasks give
    when each chunk has the two pages of [Mock.two_pages]. *)
Definition june_1941 : Calendar.datetime := Calendar.make 1941 6 1 0 0 0.

Definition chunks_1941 : list Example3Optimized.TimeChunk :=
  [ Mock.chunk3;
    Example3Optimized.make_chunk (Calendar.make 1938 12 31 0 0 0) june_1941 ].

Definition results_1941 : list (Py.Counter * option Effects.ErrorEntry) :=
  [ ([("US", 2); ("CA", 1); ("MX", 1)], None);
    ([("US", 2); ("CA", 1); ("MX", 1)], None) ].

End Examples.

(** * Properties *)

(** ** Partitions *)

Section PartitionFacts.
Import Partition.

Lemma tiling_bounds lo rs hi : tiling lo rs hi -> lo <= hi.
Proof. induction 1; lia. Qed.

Lemma tiling_nonempty lo rs hi : tiling lo rs hi -> rs <> [].
Proof. destruct 1; discriminate. Qed.

Lemma tiling_widths lo rs hi :
  tiling lo rs hi -> Forall (fun r => fst r <= snd r) rs.
Proof. induction 1; constructor; simpl; auto. Qed.

Lemma tiling_head lo rs hi : tiling lo rs hi -> fst (hd (0, 0) rs) = lo.
Proof. destruct 1; reflexivity. Qed.

Lemma tiling_last_end lo rs hi : tiling lo rs hi -> snd (last rs (0, 0)) = hi.
Proof.
  induction 1 as [lo hi _ | lo e rs hi _ T IH]; [reflexivity |].
  destruct rs as [| r rs']; [inversion T | exact IH].
Qed.

Lemma tiling_contiguous lo rs hi : tiling lo rs hi -> contiguous rs.
Proof.
  induction 1 as [lo hi _ | lo e rs hi _ T IH]; simpl; [exact I |].
  destruct rs as [| r rs']; [exact I |].
  split; [| exact IH].
  apply tiling_head in T. simpl in T. simpl. lia.
Qed.

Lemma tiling_hits lo rs hi :
  tiling lo rs hi ->
  forall y, hits y rs = if (lo <=? y) && (y <=? hi) then 1%nat else 0%nat.
Proof.
  induction 1 as [lo hi Hle | lo e rs hi Hle T IH]; intro y.
  - unfold hits, inside; simpl. destruct ((lo <=? y) && (y <=? hi)); reflexivity.
  - pose proof (tiling_bounds _ _ _ T) as Hb.
    specialize (IH y). unfold hits in *. simpl.
    unfold inside at 1; simpl.
    destruct (lo <=? y) eqn:E1, (y <=? e) eqn:E2, (y <=? hi) eqn:E3,
             (e + 1 <=? y) eqn:E4; simpl in *; rewrite IH; try reflexivity;
      rewrite ?Z.leb_le, ?Z.leb_gt in *; lia.
Qed.

Lemma tiling_partitions lo rs hi : tiling lo rs hi -> partitions lo hi rs.
Proof.
  intro T. split; [| split; [| split]].
  - exact (tiling_widths _ _ _ T).
  - exact (tiling_contiguous _ _ _ T).
  - exact (tiling_hits _ _ _ T).
  - intros _. split; [exact (tiling_head _ _ _ T) | exact (tiling_last_end _ _ _ T)].
Qed.

Lemma partitions_nil lo hi : hi < lo -> partitions lo hi [].
Proof.
  intro H. split; [constructor | split; [exact I | split]].
  - intro y. unfold hits; simpl.
    destruct (lo <=? y) eqn:E1, (y <=? hi) eqn:E2; simpl; try reflexivity.
    rewrite Z.leb_le in *. lia.
  - intro C. now elim C.
Qed.

(** The starts of a tiling increase strictly and stay within the range. *)
Lemma tiling_starts lo rs hi :
  tiling lo rs hi ->
  StronglySorted (fun r1 r2 => fst r1 < fst r2) rs
  /\ Forall (fun r => lo <= fst r /\ fst r <= snd r /\ snd r <= hi) rs.
Proof.
  induction 1 as [lo hi Hle | lo e rs hi Hle T [IHs IHf]].
  - split; repeat constructor; simpl; lia.
  - pose proof (tiling_bounds _ _ _ T) as Hb. split.
    + constructor; [exact IHs |].
      eapply Forall_impl; [| exact IHf]. simpl. intros r Hr. lia.
    + constructor; [simpl; lia |].
      eapply Forall_impl; [| exact IHf]. simpl. intros r Hr. lia.
Qed.

End PartitionFacts.

(** ** The order of strings *)

Section StringOrder.

Lemma ascii_compare_refl a : Ascii.compare a a = Eq.
Proof. unfold Ascii.compare. apply N.compare_refl. Qed.

Lemma ascii_compare_lt_trans a b c :
  Ascii.compare a b = Lt -> Ascii.compare b c = Lt -> Ascii.compare a c = Lt.
Proof.
  unfold Ascii.compare. rewrite !N.compare_lt_iff. apply N.lt_trans.
Qed.

Lemma compare_refl s : String.compare s s = Eq.
Proof. induction s as [| a s IH]; simpl; [reflexivity |]. now rewrite ascii_compare_refl. Qed.

Lemma compare_lt_trans s1 : forall s2 s3,
  String.compare s1 s2 = Lt -> String.compare s2 s3 = Lt -> String.compare s1 s3 = Lt.
Proof.
  induction s1 as [| a s1 IH]; intros [| b s2] [| c s3]; simpl; try congruence.
  destruct (Ascii.compare a b) eqn:Eab; try discriminate;
  destruct (Ascii.compare b c) eqn:Ebc; try discriminate; intros H1 H2.
  - apply Ascii.compare_eq_iff in Eab, Ebc. subst.
    rewrite ascii_compare_refl. eauto.
  - apply Ascii.compare_eq_iff in Eab. subst. now rewrite Ebc.
  - apply Ascii.compare_eq_iff in Ebc. subst. now rewrite Eab.
  - now rewrite (ascii_compare_lt_trans _ _ _ Eab Ebc).
Qed.

Lemma ltb_irrefl s : String.ltb s s = false.
Proof. unfold String.ltb. now rewrite compare_refl. Qed.

Lemma ltb_trans s1 s2 s3 :
  String.ltb s1 s2 = true -> String.ltb s2 s3 = true -> String.ltb s1 s3 = true.
Proof.
  unfold String.ltb.
  destruct (String.compare s1 s2) eqn:E1; try discriminate.
  destruct (String.compare s2 s3) eqn:E2; try discriminate.
  now rewrite (compare_lt_trans _ _ _ E1 E2).
Qed.

Lemma leb_ltb s1 s2 : String.leb s1 s2 = true -> s1 <> s2 -> String.ltb s1 s2 = true.
Proof.
  unfold String.leb, String.ltb.
  destruct (String.compare s1 s2) eqn:E; try discriminate; auto.
  apply String.compare_eq_iff in E. congruence.
Qed.

Lemma ltb_leb s1 s2 : String.ltb s1 s2 = true -> String.leb s1 s2 = true.
Proof.
  unfold String.leb, String.ltb. destruct (String.compare s1 s2); congruence.
Qed.

Lemma ltb_asym s1 s2 : String.ltb s1 s2 = true -> String.ltb s2 s1 = false.
Proof.
  unfold String.ltb. rewrite (String.compare_antisym s2 s1).
  destruct (String.compare s1 s2); simpl; congruence.
Qed.

(** A string that is smaller stays smaller when both are extended, if the
    two have the same length. *)
Lemma compare_lt_append a : forall b x y,
  String.length a = String.length b ->
  String.compare a b = Lt -> String.compare (a ++ x) (b ++ y) = Lt.
Proof.
  induction a as [| c a IH]; intros [| d b] x y; simpl; try discriminate.
  intros Hlen. injection Hlen as Hlen.
  destruct (Ascii.compare c d); auto.
Qed.

End StringOrder.

Section Numerals.

Lemma ascii_compare_digit a b :
  0 <= a <= 9 -> 0 <= b <= 9 ->
  Ascii.compare (Text.digit_char a) (Text.digit_char b) = (a ?= b).
Proof.
  intros Ha Hb. unfold Ascii.compare, Text.digit_char.
  rewrite !N_ascii_embedding by lia.
  rewrite Z2N.inj_compare by lia. apply Z.add_compare_mono_l.
Qed.

Lemma str_of_Z_four y : 1000 <= y <= 9999 -> Text.str_of_Z y = Text.four y.
Proof.
  intro Hy. unfold Text.str_of_Z.
  replace (y <? 0) with false by (symmetry; apply Z.ltb_ge; lia).
  assert (Hlog : 9 <= Z.log2 y).
  { change 9 with (Z.log2 1000). apply Z.log2_le_mono. lia. }
  destruct (Z.to_nat (Z.log2 y)) as [| [| [| n]]] eqn:E; try lia.
  unfold Text.four. cbn [Text.digits_of].
  replace (y / 10 =? 0) with false by (symmetry; apply Z.eqb_neq; Z.div_mod_to_equations; lia).
  replace (y / 10 / 10 =? 0) with false by (symmetry; apply Z.eqb_neq; Z.div_mod_to_equations; lia).
  replace (y / 10 / 10 / 10 =? 0) with false by (symmetry; apply Z.eqb_neq; Z.div_mod_to_equations; lia).
  replace (y / 10 / 10 / 10 / 10 =? 0) with true by (symmetry; apply Z.eqb_eq; Z.div_mod_to_equations; lia).
  reflexivity.
Qed.

Lemma four_lt x y a b :
  1000 <= x -> x < y -> y <= 9999 ->
  String.compare (Text.four x ++ a) (Text.four y ++ b) = Lt.
Proof.
  intros Hx Hxy Hy. unfold Text.four. cbn [append String.compare].
  rewrite !ascii_compare_digit by (Z.div_mod_to_equations; lia).
  destruct (Z.compare_spec (x / 10 / 10 / 10 mod 10) (y / 10 / 10 / 10 mod 10)) as [E3 | E3 | E3];
    [| reflexivity | exfalso; Z.div_mod_to_equations; lia].
  destruct (Z.compare_spec (x / 10 / 10 mod 10) (y / 10 / 10 mod 10)) as [E2 | E2 | E2];
    [| reflexivity | exfalso; Z.div_mod_to_equations; lia].
  destruct (Z.compare_spec (x / 10 mod 10) (y / 10 mod 10)) as [E1 | E1 | E1];
    [| reflexivity | exfalso; Z.div_mod_to_equations; lia].
  destruct (Z.compare_spec (x mod 10) (y mod 10)) as [E0 | E0 | E0];
    [| reflexivity | exfalso; Z.div_mod_to_equations; lia].
  exfalso; Z.div_mod_to_equations; lia.
Qed.

End Numerals.

(** ** Sorting *)

Section Sorting.

Lemma leb_trans s1 s2 s3 :
  String.leb s1 s2 = true -> String.leb s2 s3 = true -> String.leb s1 s3 = true.
Proof.
  intros H1 H2.
  destruct (string_dec s1 s2) as [-> | N1]; [exact H2 |].
  destruct (string_dec s2 s3) as [-> | N2]; [exact H1 |].
  apply ltb_leb. eapply ltb_trans; eauto using leb_ltb.
Qed.

Lemma leb_false_ltb s1 s2 : String.leb s1 s2 = false -> String.leb s2 s1 = true.
Proof. intro H. destruct (String.leb_total s1 s2); congruence. Qed.

Variable A : Type.
Variable key : A -> string.

Lemma insert_by_perm x l : Permutation (Text.insert_by key x l) (x :: l).
Proof.
  induction l as [| y l IH]; simpl; [reflexivity |].
  destruct (String.leb (key x) (key y)); [reflexivity |].
  rewrite IH. apply perm_swap.
Qed.

Lemma sorted_by_perm l : Permutation (Text.sorted_by key l) l.
Proof.
  induction l as [| x l IH]; simpl; [reflexivity |].
  rewrite insert_by_perm. now constructor.
Qed.

Lemma insert_by_sorted x l :
  StronglySorted (Text.le_key key) l -> StronglySorted (Text.le_key key) (Text.insert_by key x l).
Proof.
  induction 1 as [| y l Hs IH Hy]; simpl; [repeat constructor |].
  destruct (String.leb (key x) (key y)) eqn:E.
  - constructor; [now constructor |].
    constructor; [exact E |].
    eapply Forall_impl; [| exact Hy]. intros z Hz. unfold Text.le_key in *.
    eapply leb_trans; eauto.
  - constructor; [exact IH |].
    eapply Permutation_Forall; [symmetry; apply insert_by_perm |].
    constructor; [now apply leb_false_ltb | exact Hy].
Qed.

Lemma sorted_by_sorted l : StronglySorted (Text.le_key key) (Text.sorted_by key l).
Proof.
  induction l as [| x l IH]; simpl; [constructor | now apply insert_by_sorted].
Qed.

End Sorting.

Section Unique.

Lemma mem_In x l : Text.mem x l = true <-> In x l.
Proof.
  unfold Text.mem. rewrite existsb_exists. split.
  - intros (y & Hy & E). apply String.eqb_eq in E. now subst.
  - intro H. exists x. split; [exact H | apply String.eqb_refl].
Qed.

Lemma unique_acc_spec l : forall seen x,
  In x (Text.unique_acc seen l) <-> In x l /\ ~ In x seen.
Proof.
  induction l as [| y l IH]; intros seen x; simpl; [tauto |].
  destruct (existsb (String.eqb y) seen) eqn:E.
  - apply mem_In in E. rewrite IH. split; [tauto |].
    intros [[-> | H] N]; tauto.
  - assert (N : ~ In y seen) by (rewrite <- mem_In; unfold Text.mem; congruence).
    simpl. rewrite IH. simpl. split.
    + intros [-> | [H1 H2]]; [tauto |]. tauto.
    + intros [[-> | H1] H2]; [tauto |].
      destruct (string_dec y x) as [-> | D]; [tauto |]. right. tauto.
Qed.

Lemma unique_acc_NoDup l : forall seen, NoDup (Text.unique_acc seen l).
Proof.
  induction l as [| y l IH]; intro seen; simpl; [constructor |].
  destruct (existsb (String.eqb y) seen); [apply IH |].
  constructor; [| apply IH].
  rewrite unique_acc_spec. simpl. tauto.
Qed.

Lemma unique_In l x : In x (Text.unique l) <-> In x l.
Proof. unfold Text.unique. rewrite unique_acc_spec. simpl. tauto. Qed.

Lemma unique_NoDup l : NoDup (Text.unique l).
Proof. apply unique_acc_NoDup. Qed.

End Unique.

Section SortedLists.

Lemma strict_of_NoDup l :
  StronglySorted (Text.le_key (fun s : string => s)) l -> NoDup l -> StronglySorted Text.str_lt l.
Proof.
  induction 1 as [| x l Hs IH Hx]; intro Hn; [constructor |].
  inversion Hn as [| ? ? Hnot Hn']; subst.
  constructor; [now apply IH |].
  rewrite Forall_forall in *. intros y Hy. apply leb_ltb; [now apply Hx |].
  intros ->. contradiction.
Qed.

Lemma strict_filter f l : StronglySorted Text.str_lt l -> StronglySorted Text.str_lt (filter f l).
Proof.
  induction 1 as [| x l Hs IH Hx]; simpl; [constructor |].
  destruct (f x); [| exact IH].
  constructor; [exact IH |].
  rewrite Forall_forall in *. intros y Hy. apply filter_In in Hy. now apply Hx.
Qed.

Lemma strict_head_not_in x l : StronglySorted Text.str_lt (x :: l) -> ~ In x l.
Proof.
  intros H Hin. inversion H as [| ? ? _ Hx]; subst.
  rewrite Forall_forall in Hx. specialize (Hx x Hin).
  unfold Text.str_lt in Hx. now rewrite ltb_irrefl in Hx.
Qed.

Lemma strict_unique l1 : forall l2,
  StronglySorted Text.str_lt l1 -> StronglySorted Text.str_lt l2 ->
  (forall x, In x l1 <-> In x l2) -> l1 = l2.
Proof.
  induction l1 as [| x l1 IH]; intros [| y l2] H1 H2 Hin.
  - reflexivity.
  - exfalso. apply (proj2 (Hin y)). now left.
  - exfalso. apply (proj1 (Hin x)). now left.
  - pose proof (strict_head_not_in _ _ H1) as N1.
    pose proof (strict_head_not_in _ _ H2) as N2.
    inversion H1 as [| ? ? S1 F1]; inversion H2 as [| ? ? S2 F2]; subst.
    rewrite Forall_forall in F1, F2.
    assert (x = y) as ->.
    { destruct (proj1 (Hin x) (or_introl eq_refl)) as [E | Hx]; [now subst |].
      destruct (proj2 (Hin y) (or_introl eq_refl)) as [E | Hy]; [now subst |].
      pose proof (F2 _ Hx) as L1. pose proof (F1 _ Hy) as L2.
      unfold Text.str_lt in *. apply ltb_asym in L1. congruence. }
    f_equal. apply IH; auto. intro z. split; intro Hz.
    + destruct (proj1 (Hin z) (or_intror Hz)) as [E | ?]; [subst; contradiction | assumption].
    + destruct (proj2 (Hin z) (or_intror Hz)) as [E | ?]; [subst; contradiction | assumption].
Qed.

(** Sorting observed labels gives the labels in the order of a strictly
    increasing list that holds them all. *)
Lemma sorted_unique_filter (labels obs : list string) :
  StronglySorted Text.str_lt labels -> incl obs labels ->
  Text.sorted (Text.unique obs) = filter (fun l => Text.mem l obs) labels.
Proof.
  intros Hs Hincl. apply strict_unique.
  - apply strict_of_NoDup; [apply sorted_by_sorted |].
    eapply Permutation_NoDup; [symmetry; apply sorted_by_perm | apply unique_NoDup].
  - now apply strict_filter.
  - intro x. rewrite filter_In, mem_In. unfold Text.sorted.
    split.
    + intro H.
      apply (Permutation_in _ (sorted_by_perm string (fun s => s) (Text.unique obs))) in H.
      rewrite unique_In in H. split; [now apply Hincl | exact H].
    + intros [_ H].
      apply (Permutation_in _
               (Permutation_sym (sorted_by_perm string (fun s => s) (Text.unique obs)))).
      now rewrite unique_In.
Qed.

Lemma filter_nil A (f : A -> bool) l :
  (forall x, In x l -> f x = false) -> filter f l = [].
Proof.
  induction l as [| x l IH]; intro H; simpl; [reflexivity |].
  rewrite (H x (or_introl eq_refl)). apply IH. intros y Hy. apply H. now right.
Qed.

Lemma sorted_unique_In l x : In x (Text.sorted (Text.unique l)) <-> In x l.
Proof.
  unfold Text.sorted. rewrite <- (unique_In l x). split; apply Permutation_in.
  - apply (sorted_by_perm string (fun s => s)).
  - symmetry. apply (sorted_by_perm string (fun s => s)).
Qed.

Lemma nth_error_map_some A B (f : A -> B) l k x :
  nth_error l k = Some x -> nth_error (map f l) k = Some (f x).
Proof. intro H. now rewrite nth_error_map, H. Qed.

Lemma nil_iff_no_element A (l : list A) : l = [] <-> forall x, ~ In x l.
Proof.
  split; [intros -> x [] |]. destruct l as [| a l]; [reflexivity |].
  intro H. destruct (H a). now left.
Qed.

(** The workbook of count_events_by_year has a sheet exactly when some row
    was counted. *)
Lemma workbook_empty rows :
  CountEventsByYear.workbook rows = []
  <-> existsb CountEventsByYear.is_counted rows = false.
Proof.
  unfold CountEventsByYear.workbook. split.
  - intro H. apply map_eq_nil in H.
    destruct (existsb CountEventsByYear.is_counted rows) eqn:E; [| reflexivity].
    apply existsb_exists in E. destruct E as (row & Hin & Hc).
    exfalso. apply (proj1 (nil_iff_no_element _ _) H (CountEventsByYear.collection row)).
    apply sorted_unique_In. apply in_map. apply filter_In. now split.
  - intro H. rewrite filter_nil; [reflexivity |].
    intros row Hin. destruct (CountEventsByYear.is_counted row) eqn:E; [| reflexivity].
    rewrite <- H. symmetry. apply existsb_exists. now exists row.
Qed.

End SortedLists.

(** ** The time partitioners *)

Section TimePartitioners.
Import Partition.

Lemma fifty_year_bins_acc fuel lim c acc :
  CountEventsByYear.fifty_year_bins fuel lim c acc
  = option_map (app acc) (CountEventsByYear.fifty_year_bins fuel lim c []).
Proof.
  revert c acc. induction fuel as [| fuel IH]; intros c acc; simpl; [reflexivity |].
  destruct (c <=? lim).
  - rewrite IH. rewrite (IH _ [_]).
    destruct (CountEventsByYear.fifty_year_bins fuel lim (c + 50) []); simpl;
      [now rewrite <- app_assoc | reflexivity].
  - simpl. now rewrite app_nil_r.
Qed.

Lemma fifty_year_bins_tiling lim k :
  forall c, c <= lim -> lim - c < Z.of_nat k ->
  exists bins,
    tiling c (map year_range bins) lim
    /\ Forall (fun b => CountEventsByYear.label b
                        = Text.str_of_Z (CountEventsByYear.start b) ++ "-"
                          ++ Text.str_of_Z (CountEventsByYear.end_ b)) bins
    /\ forall fuel, (S k < fuel)%nat ->
         CountEventsByYear.fifty_year_bins fuel lim c [] = Some bins.
Proof.
  induction k as [| k IH]; intros c Hc Hk; [lia |].
  destruct (Z_le_gt_dec (c + 50) lim) as [Hnext | Hnext].
  - destruct (IH (c + 50)) as (bins & T & L & Run); [lia | lia |].
    exists (CountEventsByYear.make_bin c (c + 49) :: bins). split; [| split].
    + change (tiling c ((c, c + 49) :: map year_range bins) lim).
      apply tiling_more; [lia |].
      replace (c + 49 + 1) with (c + 50) by lia. exact T.
    + constructor; [reflexivity | exact L].
    + intros [| fuel] Hf; [lia |]. simpl.
      replace (c <=? lim) with true by (symmetry; apply Z.leb_le; lia).
      replace (lim <? c + 49) with false by (symmetry; apply Z.ltb_ge; lia).
      rewrite fifty_year_bins_acc, Run by lia. reflexivity.
  - exists [CountEventsByYear.make_bin c lim]. split; [| split].
    + change (tiling c [(c, lim)] lim). apply tiling_last. lia.
    + repeat constructor.
    + intros [| [| fuel]] Hf; try lia. simpl.
      replace (c <=? lim) with true by (symmetry; apply Z.leb_le; lia).
      replace (c + 50 <=? lim) with false by (symmetry; apply Z.leb_gt; lia).
      destruct (lim <? c + 49) eqn:E; [reflexivity |].
      apply Z.ltb_ge in E. replace (c + 49) with lim by lia. reflexivity.
Qed.

Lemma bins_from_acc fuel i lim c acc :
  Example5.bins_from fuel i lim c acc
  = option_map (app acc) (Example5.bins_from fuel i lim c []).
Proof.
  revert c acc. induction fuel as [| fuel IH]; intros c acc; simpl; [reflexivity |].
  destruct (c <=? lim).
  - rewrite IH. rewrite (IH _ [_]).
    destruct (Example5.bins_from fuel i lim (c + i) []); simpl;
      [now rewrite <- app_assoc | reflexivity].
  - simpl. now rewrite app_nil_r.
Qed.

Lemma bins_from_tiling i lim k :
  1 <= i ->
  forall c, c <= lim -> lim - c < Z.of_nat k ->
  exists rs,
    tiling c rs lim
    /\ forall fuel, (S k < fuel)%nat ->
         Example5.bins_from fuel i lim c [] = Some (map bin_of rs).
Proof.
  intro Hi. induction k as [| k IH]; intros c Hc Hk; [lia |].
  destruct (Z_le_gt_dec (c + i) lim) as [Hnext | Hnext].
  - destruct (IH (c + i)) as (rs & T & Run); [lia | lia |].
    exists ((c, c + i - 1) :: rs). split.
    + apply tiling_more; [lia |].
      replace (c + i - 1 + 1) with (c + i) by lia. exact T.
    + intros [| fuel] Hf; [lia |]. simpl.
      replace (c <=? lim) with true by (symmetry; apply Z.leb_le; lia).
      replace (lim <? c + i - 1) with false by (symmetry; apply Z.ltb_ge; lia).
      rewrite bins_from_acc, Run by lia. reflexivity.
  - exists [(c, lim)]. split.
    + apply tiling_last. lia.
    + intros [| [| fuel]] Hf; try lia. simpl.
      replace (c <=? lim) with true by (symmetry; apply Z.leb_le; lia).
      replace (c + i <=? lim) with false by (symmetry; apply Z.leb_gt; lia).
      destruct (lim <? c + i - 1) eqn:E; [reflexivity |].
      apply Z.ltb_ge in E. replace (c + i - 1) with lim by lia. reflexivity.
Qed.

(** An addition within the range of [datetime] raises nothing. *)
Lemma plus_days_within c t1 y :
  1 <= y -> Calendar.in_range c = true -> c < t1 ->
  Calendar.in_range (t1 + Calendar.timedelta_days (365 * y)) = true ->
  Calendar.plus_days c (365 * y) = Some (c + Calendar.timedelta_days (365 * y))
  /\ Calendar.in_range (c + Calendar.timedelta_days (365 * y)) = true.
Proof.
  intros Hy Hc Hlt Hend.
  unfold Calendar.plus_days, Calendar.in_range, Calendar.timedelta_days,
    Calendar.SECONDS_PER_DAY, Calendar.MAXORDINAL in *.
  apply andb_true_iff in Hc. destruct Hc as [Hc1 Hc2].
  apply andb_true_iff in Hend. destruct Hend as [He1 He2].
  apply Z.leb_le in Hc1, Hc2, He1, He2.
  assert (H1 : 1 <= (c + 365 * y * 86400) / 86400)
    by (Z.div_mod_to_equations; lia).
  assert (H2 : (c + 365 * y * 86400) / 86400 <= 3652059)
    by (Z.div_mod_to_equations; lia).
  assert (H3 : Z.abs (365 * y) <= 999999999)
    by (Z.div_mod_to_equations; lia).
  apply Z.leb_le in H1, H2, H3. rewrite H1, H2, H3. auto.
Qed.

Lemma chunks_from_tiling y t1 k :
  1 <= y ->
  Calendar.in_range (t1 + Calendar.timedelta_days (365 * y)) = true ->
  forall c, Calendar.in_range c = true -> c < t1 ->
  t1 - c <= Z.of_nat k * Calendar.timedelta_days (365 * y) ->
  exists rs,
    tiling c (half_open rs) (t1 - 1)
    /\ forall fuel acc, (k < fuel)%nat ->
         Example3Optimized.chunks_from fuel y t1 c acc
         = Some (Example3Optimized.Value (acc ++ map chunk_of rs)%list).
Proof.
  intros Hy Hend.
  assert (Hd : 1 <= Calendar.timedelta_days (365 * y))
    by (unfold Calendar.timedelta_days, Calendar.SECONDS_PER_DAY; lia).
  induction k as [| k IH]; intros c Hin Hc Hk; [simpl in Hk; lia |].
  destruct (plus_days_within c t1 y Hy Hin Hc Hend) as [Hplus Hin'].
  set (d := Calendar.timedelta_days (365 * y)) in *.
  rewrite Nat2Z.inj_succ, Z.mul_succ_l in Hk.
  destruct (Z_lt_ge_dec (c + d) t1) as [Hnext | Hnext].
  - destruct (IH (c + d)) as (rs & T & Run); [exact Hin' | lia | lia |].
    exists ((c, c + d) :: rs). split.
    + change (tiling c ((c, c + d - 1) :: half_open rs) (t1 - 1)).
      apply tiling_more; [lia |].
      replace (c + d - 1 + 1) with (c + d) by lia. exact T.
    + intros [| fuel] acc Hf; [lia |].
      cbn [Example3Optimized.chunks_from]. rewrite Hplus.
      replace (c <? t1) with true by (symmetry; apply Z.ltb_lt; lia).
      rewrite Z.min_l by lia.
      rewrite Run by lia. rewrite <- app_assoc. reflexivity.
  - exists [(c, t1)]. split.
    + change (tiling c [(c, t1 - 1)] (t1 - 1)). apply tiling_last. lia.
    + intros [| [| fuel]] acc Hf; try lia.
      cbn [Example3Optimized.chunks_from]. rewrite Hplus.
      replace (c <? t1) with true by (symmetry; apply Z.ltb_lt; lia).
      rewrite Z.min_r by lia.
      replace (t1 <? t1) with false by (symmetry; apply Z.ltb_irrefl).
      reflexivity.
Qed.

Lemma generate_time_bins_tiling now :
  1799 <= Calendar.year now ->
  exists fuel0 bins,
    (forall fuel, (fuel0 <= fuel)%nat ->
       CountEventsByYear.generate_time_bins fuel now = Some bins)
    /\ tiling 1600 (map year_range bins) (Calendar.year now)
    /\ Forall (fun b => CountEventsByYear.label b
                        = Text.str_of_Z (CountEventsByYear.start b) ++ "-"
                          ++ Text.str_of_Z (CountEventsByYear.end_ b)) bins.
Proof.
  intro Hnow. set (lim := Calendar.year now) in *.
  unfold CountEventsByYear.generate_time_bins. fold lim.
  change (fold_left _ (Py.range 1600 1800 100) [])
    with [CountEventsByYear.make_bin 1600 1699; CountEventsByYear.make_bin 1700 1799].
  destruct (Z_le_gt_dec 1800 lim) as [Hl | Hl].
  - destruct (fifty_year_bins_tiling lim (Z.to_nat (lim - 1800 + 1)) 1800)
      as (bins & T & L & Run); [lia | lia |].
    exists (S (S (Z.to_nat (lim - 1800 + 1)))),
      (CountEventsByYear.make_bin 1600 1699 :: CountEventsByYear.make_bin 1700 1799 :: bins).
    split; [| split].
    + intros fuel Hf. rewrite fifty_year_bins_acc, Run by lia. reflexivity.
    + change (tiling 1600 ((1600, 1699) :: (1700, 1799) :: map year_range bins) lim).
      apply tiling_more; [lia |]. apply tiling_more; [lia |]. exact T.
    + repeat constructor. exact L.
  - exists 1%nat,
      [CountEventsByYear.make_bin 1600 1699; CountEventsByYear.make_bin 1700 1799].
    split; [| split].
    + intros [| fuel] Hf; [lia |]. simpl.
      replace (1800 <=? lim) with false by (symmetry; apply Z.leb_gt; lia).
      reflexivity.
    + change (tiling 1600 [(1600, 1699); (1700, 1799)] lim).
      apply tiling_more; [lia |]. replace lim with 1799 by lia.
      apply tiling_last. lia.
    + repeat constructor.
Qed.

Lemma example5_bins_tiling now start_year interval :
  1 <= interval ->
  start_year <= Calendar.year now ->
  exists fuel0 rs,
    (forall fuel, (fuel0 <= fuel)%nat ->
       Example5.generate_time_bins fuel now start_year interval = Some (map bin_of rs))
    /\ tiling start_year rs (Calendar.year now).
Proof.
  intros Hi Hs. set (lim := Calendar.year now) in *.
  destruct (bins_from_tiling interval lim (Z.to_nat (lim - start_year + 1)) Hi start_year)
    as (rs & T & Run); [lia | lia |].
  exists (S (S (Z.to_nat (lim - start_year + 1)))), rs. split; [| exact T].
  intros fuel Hf. unfold Example5.generate_time_bins. fold lim. apply Run. lia.
Qed.

Lemma example5_bins_none now start_year interval :
  Calendar.year now < start_year ->
  forall fuel, (1 <= fuel)%nat ->
    Example5.generate_time_bins fuel now start_year interval = Some [].
Proof.
  intros Hs [| fuel] Hf; [lia |]. unfold Example5.generate_time_bins. simpl.
  replace (start_year <=? Calendar.year now) with false
    by (symmetry; apply Z.leb_gt; lia).
  reflexivity.
Qed.

(** The bins of count_events_by_year when the clock reads a year before
    1799: the two centuries, whatever the year. *)
Lemma generate_time_bins_early now :
  Calendar.year now < 1799 ->
  forall fuel, (1 <= fuel)%nat ->
    CountEventsByYear.generate_time_bins fuel now
    = Some [CountEventsByYear.make_bin 1600 1699; CountEventsByYear.make_bin 1700 1799].
Proof.
  intros Hnow [| fuel] Hf; [lia |].
  unfold CountEventsByYear.generate_time_bins.
  change (fold_left _ (Py.range 1600 1800 100) [])
    with [CountEventsByYear.make_bin 1600 1699; CountEventsByYear.make_bin 1700 1799].
  cbn [CountEventsByYear.fifty_year_bins].
  replace (1800 <=? Calendar.year now) with false by (symmetry; apply Z.leb_gt; lia).
  reflexivity.
Qed.

(** The time partitioners cut their range into an ordered, contiguous
    sequence of bins in which every point of the range lies exactly once.
    [generate_time_bins] of count_events_by_year cuts the years from 1600
    to the current year (to 1799 when the clock reads an earlier year: the
    two centuries are always there), [generate_time_bins] of example_5,
    with an interval of a year or more, the years from its start year to
    the current year, and the last bin ends with the current year;
    [generate_time_chunks], with a year or more per chunk and no overflow
    of the dates, cuts the seconds from its start up to, not including, its
    end, each chunk starting at the instant at which the one before it ends
    and the last one ending at the end. *)
Theorem time_bins_partition
    (now : Calendar.datetime) (start_year interval : Z)
    (start_date_str end_date_str : string)
    (start_date end_date : Calendar.datetime) (years_per_chunk : Z) :
  1 <= interval ->
  Calendar.fromisoformat (Calendar.replace_Z start_date_str) = Some start_date ->
  Calendar.fromisoformat (Calendar.replace_Z end_date_str) = Some end_date ->
  1 <= years_per_chunk ->
  Calendar.in_range start_date = true ->
  Calendar.in_range (end_date + Calendar.timedelta_days (365 * years_per_chunk)) = true ->
  (exists fuel0 bins,
     (forall fuel, (fuel0 <= fuel)%nat ->
        CountEventsByYear.generate_time_bins fuel now = Some bins)
     /\ partitions 1600 (Z.max 1799 (Calendar.year now)) (map year_range bins))
  /\ (exists fuel0 rs,
       (forall fuel, (fuel0 <= fuel)%nat ->
          Example5.generate_time_bins fuel now start_year interval
          = Some (map bin_of rs))
       /\ partitions start_year (Calendar.year now) rs)
  /\ (exists fuel0 rs,
       (forall fuel, (fuel0 <= fuel)%nat ->
          Example3Optimized.generate_time_chunks fuel start_date_str end_date_str
            years_per_chunk
          = Some (Example3Optimized.Value (map chunk_of rs)))
       /\ partitions start_date (end_date - 1) (half_open rs)).
Proof.
  intros Hi Hs He Hy Hin Hend. split; [| split].
  - destruct (Z_le_gt_dec 1799 (Calendar.year now)) as [Hnow | Hnow].
    + destruct (generate_time_bins_tiling now Hnow) as (fuel0 & bins & Run & T & _).
      exists fuel0, bins. split; [exact Run |].
      rewrite Z.max_r by lia. now apply tiling_partitions.
    + exists 1%nat,
        [CountEventsByYear.make_bin 1600 1699; CountEventsByYear.make_bin 1700 1799].
      split; [apply generate_time_bins_early; lia |].
      rewrite Z.max_l by lia. apply tiling_partitions.
      change (tiling 1600 [(1600, 1699); (1700, 1799)] 1799).
      apply tiling_more; [lia |]. apply tiling_last. lia.
  - destruct (Z_le_gt_dec start_year (Calendar.year now)) as [Hl | Hl].
    + destruct (example5_bins_tiling now start_year interval Hi Hl)
        as (fuel0 & rs & Run & T).
      exists fuel0, rs. split; [exact Run | now apply tiling_partitions].
    + exists 1%nat, []. split.
      * intros fuel Hf. now apply example5_bins_none; [lia |].
      * apply partitions_nil. lia.
  - unfold Example3Optimized.generate_time_chunks. rewrite Hs, He.
    destruct (Z_lt_ge_dec start_date end_date) as [Hl | Hl].
    + destruct (chunks_from_tiling years_per_chunk end_date
                  (Z.to_nat (end_date - start_date)) Hy Hend start_date Hin)
        as (rs & T & Run); [lia | |].
      { unfold Calendar.timedelta_days, Calendar.SECONDS_PER_DAY. nia. }
      exists (S (S (Z.to_nat (end_date - start_date)))), rs. split.
      * intros fuel Hf. rewrite Run by lia. reflexivity.
      * now apply tiling_partitions.
    + exists 1%nat, []. split.
      * intros [| fuel] Hf; [lia |]. simpl.
        replace (start_date <? end_date) with false
          by (symmetry; apply Z.ltb_ge; lia).
        reflexivity.
      * apply partitions_nil. lia.
Qed.

(** C6, as amended: two runs of a year-based partitioner on the same
    calendar day give the same bins (number, boundaries, labels); the chunks
    of example_3_optimized are a function of the clock formatted to the
    second. *)
Theorem same_day_same_bins
    (fuel : nat) (now1 now2 : Calendar.datetime) (start_year interval : Z) :
  Calendar.day_of now1 = Calendar.day_of now2 ->
  CountEventsByYear.generate_time_bins fuel now1
  = CountEventsByYear.generate_time_bins fuel now2
  /\ Example5.generate_time_bins fuel now1 start_year interval
     = Example5.generate_time_bins fuel now2 start_year interval
  /\ exists chunks_of_text,
       forall now, chunks_at fuel now = chunks_of_text (Calendar.strftime now).
Proof.
  intro Hday.
  assert (Hyear : Calendar.year now1 = Calendar.year now2).
  { unfold Calendar.year. unfold Calendar.day_of in Hday. now rewrite Hday. }
  split; [| split].
  - unfold CountEventsByYear.generate_time_bins. now rewrite Hyear.
  - unfold Example5.generate_time_bins. now rewrite Hyear.
  - exists (fun text =>
              Example3Optimized.generate_time_chunks fuel
                (Text.str_of_Z Example3Optimized.START_YEAR ++ "-01-01T00:00:00Z")
                text Example3Optimized.YEARS_PER_CHUNK).
    intro now. reflexivity.
Qed.

End TimePartitioners.

Section TimePartitionerRuns.
Import Partition Scenario.

Lemma time_bins_partition_witness :
  (exists fuel0 bins,
     (forall fuel, (fuel0 <= fuel)%nat ->
        CountEventsByYear.generate_time_bins fuel (Calendar.make 2026 11 4 12 0 0)
        = Some bins)
     /\ partitions 1600 (Z.max 1799 (Calendar.year (Calendar.make 2026 11 4 12 0 0)))
          (map year_range bins))
  /\ (exists fuel0 rs,
       (forall fuel, (fuel0 <= fuel)%nat ->
          Example5.generate_time_bins fuel (Calendar.make 2026 11 4 12 0 0) 1800 50
          = Some (map bin_of rs))
       /\ partitions 1800 (Calendar.year (Calendar.make 2026 11 4 12 0 0)) rs)
  /\ (exists fuel0 rs,
       (forall fuel, (fuel0 <= fuel)%nat ->
          Example3Optimized.generate_time_chunks fuel
            "1934-01-01T00:00:00Z" "2026-11-04T12:00:00Z" 5
          = Some (Example3Optimized.Value (map chunk_of rs)))
       /\ partitions (Calendar.make 1934 1 1 0 0 0)
            (Calendar.make 2026 11 4 12 0 0 - 1) (half_open rs)).
Proof.
  apply (time_bins_partition (Calendar.make 2026 11 4 12 0 0) 1800 50
           "1934-01-01T00:00:00Z" "2026-11-04T12:00:00Z"
           (Calendar.make 1934 1 1 0 0 0) (Calendar.make 2026 11 4 12 0 0) 5).
  - vm_compute. discriminate.
  - vm_compute. reflexivity.
  - vm_compute. reflexivity.
  - vm_compute. discriminate.
  - vm_compute. reflexivity.
  - vm_compute. reflexivity.
Defined.

(** C1, on an input where the code departs from it: at noon of 4 November
    2026 the last bin that [generate_time_bins] of example_5 makes ends at
    2026-12-31T23:59:59Z, after the current date.  The loop caps the end of
    a bin (its comment: so that the last bin does not go into the future),
    but the cap is the current year, and the end is written as the last
    second of that year. *)
Lemma final_bin_extends_past_today :
  option_map (fun bins => (map Example5.end_datetime bins,
                           forallb (fun bin => negb (ends_after noon bin)) bins))
             (Example5.generate_time_bins 10 noon 1800 50)
  = Some (["1849-12-31T23:59:59Z"; "1899-12-31T23:59:59Z"; "1949-12-31T23:59:59Z";
           "1999-12-31T23:59:59Z"; "2026-12-31T23:59:59Z"], false).
Proof. vm_compute. reflexivity. Qed.

Lemma same_day_same_bins_witness :
  CountEventsByYear.generate_time_bins 10 midnight
  = CountEventsByYear.generate_time_bins 10 (Calendar.make 2026 11 4 23 59 59)
  /\ Example5.generate_time_bins 10 midnight 1800 50
     = Example5.generate_time_bins 10 (Calendar.make 2026 11 4 23 59 59) 1800 50
  /\ exists chunks_of_text,
       forall now, chunks_at 10 now = chunks_of_text (Calendar.strftime now).
Proof.
  apply (same_day_same_bins 10 midnight
           (Calendar.make 2026 11 4 23 59 59) 1800 50).
  vm_compute. reflexivity.
Defined.

(** C6 as stated fails: two runs of example_3_optimized on 4 November 2026,
    at midnight and at noon, end their last chunk at different instants. *)
Lemma same_day_different_chunks :
  Calendar.day_of midnight = Calendar.day_of noon
  /\ chunks_at 30 midnight <> chunks_at 30 noon
  /\ option_map (fun r => match r with
                          | Example3Optimized.Value chunks =>
                              map Example3Optimized.end_ (skipn 18 chunks)
                          | _ => []
                          end)
                (chunks_at 30 midnight)
     = Some ["2026-11-04T00:00:00Z"]
  /\ option_map (fun r => match r with
                          | Example3Optimized.Value chunks =>
                              map Example3Optimized.end_ (skipn 18 chunks)
                          | _ => []
                          end)
                (chunks_at 30 noon)
     = Some ["2026-11-04T12:00:00Z"].
Proof.
  split; [vm_compute; reflexivity |].
  split; [vm_compute; discriminate |].
  split; vm_compute; reflexivity.
Qed.

End TimePartitionerRuns.

(** ** Labels of the year bins *)

Section Labels.
Import Partition.

Lemma four_length y : String.length (Text.four y) = 4%nat.
Proof. reflexivity. Qed.

Lemma label_of_year_label r :
  1000 <= fst r -> fst r <= snd r -> snd r <= 9999 ->
  year_label (label_of r) (fst r) (snd r).
Proof.
  intros H1 H2 H3. unfold year_label, label_of.
  rewrite !str_of_Z_four by lia. rewrite !four_length. auto.
Qed.

Lemma labels_strict rs :
  StronglySorted (fun r1 r2 => fst r1 < fst r2) rs ->
  Forall (fun r => 1000 <= fst r /\ fst r <= snd r /\ snd r <= 9999) rs ->
  StronglySorted Text.str_lt (map label_of rs).
Proof.
  induction 1 as [| r rs Hs IH Hr]; intro Hb; simpl; [constructor |].
  inversion Hb as [| ? ? Hbr Hbrs]; subst.
  constructor; [now apply IH |].
  rewrite Forall_forall in *. intros l Hl.
  apply in_map_iff in Hl. destruct Hl as (r' & <- & Hin).
  specialize (Hr _ Hin). specialize (Hbrs _ Hin).
  unfold Text.str_lt, String.ltb, label_of.
  rewrite (str_of_Z_four (fst r)), (str_of_Z_four (fst r')) by lia.
  rewrite four_lt by lia. reflexivity.
Qed.

Lemma sorted_strict_id l : StronglySorted Text.str_lt l -> Text.sorted l = l.
Proof.
  intro Hs. apply strict_unique; [| exact Hs |].
  - apply strict_of_NoDup; [apply sorted_by_sorted |].
    eapply Permutation_NoDup; [symmetry; apply sorted_by_perm |].
    clear -Hs. induction Hs as [| x l Hs IH Hx]; constructor; [| exact IH].
    intro Hin. rewrite Forall_forall in Hx. specialize (Hx _ Hin).
    unfold Text.str_lt in Hx. now rewrite ltb_irrefl in Hx.
  - intro x. unfold Text.sorted. split; apply Permutation_in.
    + apply sorted_by_perm.
    + symmetry. apply sorted_by_perm.
Qed.

(** What the tiling of a range of four-digit years gives for labels. *)
Lemma tiling_labels lo rs hi :
  tiling lo rs hi -> 1000 <= lo -> hi <= 9999 ->
  Forall (fun r => year_label (label_of r) (fst r) (snd r)) rs
  /\ StronglySorted Text.str_lt (map label_of rs).
Proof.
  intros T Hlo Hhi. destruct (tiling_starts _ _ _ T) as [Hs Hb].
  assert (Hb' : Forall (fun r => 1000 <= fst r /\ fst r <= snd r /\ snd r <= 9999) rs).
  { eapply Forall_impl; [| exact Hb]. simpl. intros r Hr. lia. }
  split.
  - eapply Forall_impl; [| exact Hb']. simpl. intros r Hr.
    apply label_of_year_label; lia.
  - now apply labels_strict.
Qed.

Lemma count_events_by_year_labels now :
  Calendar.year now <= 9999 ->
  exists fuel0 bins,
    (forall fuel, (fuel0 <= fuel)%nat ->
       CountEventsByYear.generate_time_bins fuel now = Some bins)
    /\ Forall (fun b => CountEventsByYear.label b = label_of (year_range b)) bins
    /\ Forall (fun r => year_label (label_of r) (fst r) (snd r)) (map year_range bins)
    /\ StronglySorted Text.str_lt (map label_of (map year_range bins)).
Proof.
  intro Hmax.
  destruct (Z_le_gt_dec 1799 (Calendar.year now)) as [Hl | Hl].
  - destruct (generate_time_bins_tiling now Hl) as (fuel0 & bins & Run & T & L).
    exists fuel0, bins. split; [exact Run |]. split.
    + exact L.
    + apply (tiling_labels _ _ _ T); lia.
  - exists 1%nat,
      [CountEventsByYear.make_bin 1600 1699; CountEventsByYear.make_bin 1700 1799].
    split; [| split; [repeat constructor |]].
    + intros [| fuel] Hf; [lia |].
      unfold CountEventsByYear.generate_time_bins.
      change (fold_left _ (Py.range 1600 1800 100) [])
        with [CountEventsByYear.make_bin 1600 1699; CountEventsByYear.make_bin 1700 1799].
      cbn [CountEventsByYear.fifty_year_bins].
      replace (1800 <=? Calendar.year now) with false
        by (symmetry; apply Z.leb_gt; lia).
      reflexivity.
    + apply (tiling_labels 1600 _ 1799); try lia.
      change (tiling 1600 [(1600, 1699); (1700, 1799)] 1799).
      apply tiling_more; [lia |]. apply tiling_last. lia.
Qed.

(** C10: the labels of the year bins are two four-digit years, start before
    end, joined by a dash; sorted as strings they come in the order of the
    bins, and so does every selection of them, which is how the exporters
    order the columns. *)
Theorem labels_sort_chronologically
    (now : Calendar.datetime) (start_year interval : Z) :
  Calendar.year now <= 9999 ->
  1000 <= start_year ->
  1 <= interval ->
  (exists fuel0 bins,
     (forall fuel, (fuel0 <= fuel)%nat ->
        CountEventsByYear.generate_time_bins fuel now = Some bins)
     /\ Forall (fun b => year_label (CountEventsByYear.label b)
                           (CountEventsByYear.start b) (CountEventsByYear.end_ b)) bins
     /\ Text.sorted (map CountEventsByYear.label bins) = map CountEventsByYear.label bins
     /\ forall observed, incl observed (map CountEventsByYear.label bins) ->
          Text.sorted (Text.unique observed)
          = filter (fun l => Text.mem l observed) (map CountEventsByYear.label bins))
  /\ (exists fuel0 rs,
       (forall fuel, (fuel0 <= fuel)%nat ->
          Example5.generate_time_bins fuel now start_year interval
          = Some (map bin_of rs))
       /\ Forall (fun r => year_label (Example5.label (bin_of r)) (fst r) (snd r)) rs
       /\ Text.sorted (map Example5.label (map bin_of rs))
          = map Example5.label (map bin_of rs)
       /\ forall observed, incl observed (map Example5.label (map bin_of rs)) ->
            Text.sorted (Text.unique observed)
            = filter (fun l => Text.mem l observed) (map Example5.label (map bin_of rs))).
Proof.
  intros Hmax Hstart Hi. split.
  - destruct (count_events_by_year_labels now Hmax) as (fuel0 & bins & Run & E & L & S).
    assert (E' : map CountEventsByYear.label bins = map label_of (map year_range bins)).
    { rewrite map_map. apply map_ext_in. intros b Hb.
      rewrite Forall_forall in E. now apply E. }
    exists fuel0, bins. split; [exact Run |]. rewrite E'. split; [| split].
    + rewrite Forall_forall in *. intros b Hb.
      rewrite (E b Hb). apply (L (year_range b)). now apply in_map.
    + now apply sorted_strict_id.
    + intros observed Hobs. now apply sorted_unique_filter.
  - destruct (Z_le_gt_dec start_year (Calendar.year now)) as [Hl | Hl].
    + destruct (example5_bins_tiling now start_year interval Hi Hl)
        as (fuel0 & rs & Run & T).
      destruct (tiling_labels _ _ _ T Hstart Hmax) as [L S].
      exists fuel0, rs. split; [exact Run |].
      rewrite map_map. change (map (fun r => Example5.label (bin_of r)) rs)
        with (map label_of rs).
      split; [exact L | split].
      * now apply sorted_strict_id.
      * intros observed Hobs. now apply sorted_unique_filter.
    + exists 1%nat, []. split; [| split; [constructor | split]].
      * intros fuel Hf. now apply example5_bins_none; [lia |].
      * reflexivity.
      * intros observed Hobs. destruct observed as [| l observed]; [reflexivity |].
        exfalso. apply (Hobs l). now left.
Qed.

End Labels.

(** ** Sessions *)

Section Sessions.
Import Http Effects Pages Kinds.

Lemma truthy_some u : u <> "" -> truthy (Some u) = true.
Proof. intro H. simpl. apply negb_true_iff. now apply String.eqb_neq. Qed.

Lemma no_next_href data : no_next data -> next_href data = None.
Proof. unfold no_next, next_href. now intros ->. Qed.

Lemma items_cons data pages :
  items (data :: pages) = Py.len (Py.get (features data) []) + items pages.
Proof. reflexivity. Qed.

Lemma items_app p1 p2 : items (p1 ++ p2) = items p1 + items p2.
Proof.
  induction p1 as [| d p1 IH]; [reflexivity |].
  rewrite <- app_comm_cons, !items_cons, IH. lia.
Qed.

Lemma items_nonneg pages : 0 <= items pages.
Proof.
  induction pages as [| d pages IH]; [unfold items; simpl; lia |].
  rewrite items_cons. unfold Py.len. lia.
Qed.

Lemma received_app t1 t2 : received (t1 ++ t2) = (received t1 ++ received t2)%list.
Proof. apply flat_map_app. Qed.

Lemma failures_app t1 t2 : failures (t1 ++ t2) = (failures t1 ++ failures t2)%list.
Proof. apply flat_map_app. Qed.

Lemma sleeps_app t1 t2 : sleeps (t1 ++ t2) = (sleeps t1 ++ sleeps t2)%list.
Proof. apply flat_map_app. Qed.

Lemma error_log_app t1 t2 : error_log (t1 ++ t2) = (error_log t1 ++ error_log t2)%list.
Proof. apply flat_map_app. Qed.

Lemma submitted_app t1 t2 : submitted (t1 ++ t2) = (submitted t1 ++ submitted t2)%list.
Proof. apply flat_map_app. Qed.

Lemma pools_app t1 t2 : pools (t1 ++ t2) = (pools t1 ++ pools t2)%list.
Proof. apply flat_map_app. Qed.

Lemma files_written_app t1 t2 :
  files_written (t1 ++ t2) = (files_written t1 ++ files_written t2)%list.
Proof. apply flat_map_app. Qed.

(** Pages received and lines printed are no failures, sleeps or log lines. *)
Lemma quiet_silent t :
  forallb quiet t = true ->
  failures t = [] /\ sleeps t = [] /\ error_log t = [].
Proof.
  induction t as [| e t IH]; [auto |]. simpl. intro H.
  apply andb_true_iff in H. destruct H as [He Ht].
  destruct (IH Ht) as (F & S & L).
  destruct e; simpl in He; try discriminate;
    try (match goal with r : Response |- _ => destruct r; try discriminate end);
    simpl; auto.
Qed.

Lemma quiet_worker t : forallb quiet t = true -> forallb worker_event t = true.
Proof.
  induction t as [| e t IH]; [auto |]. simpl. intro H.
  apply andb_true_iff in H. destruct H as [He Ht]. rewrite (IH Ht).
  destruct e; simpl in He; try discriminate;
    try (match goal with r : Response |- _ => destruct r; try discriminate end);
    reflexivity.
Qed.

(** The tasks of a pool start no pool, submit nothing and write no file. *)
Lemma worker_no_pool t :
  forallb worker_event t = true ->
  pools t = [] /\ submitted t = [] /\ files_written t = [].
Proof.
  induction t as [| e t IH]; [auto |]. simpl. intro H.
  apply andb_true_iff in H. destruct H as [He Ht].
  destruct (IH Ht) as (P & S & F).
  destruct e; try discriminate; simpl; auto.
Qed.

End Sessions.

Ltac run_effects :=
  cbn [Effects.bind Effects.ret Effects.print Effects.emit Effects.sleep
       Effects.session_get Effects.trace Effects.sent
       Example3Optimized.write_error_entry].

(** ** count_items_manually *)

Section ManualCount.
Import Http Effects Pages Kinds CountEventsPerCollection.
Variable srv : Server.
Variable cid : string.

Lemma manual_pages_run pages : forall n u n' u',
  run srv n u pages n' u' -> u <> "" ->
  forall st item_count, sent st = n ->
  exists st' new,
    sent st' = n' /\ u' <> ""
    /\ trace st' = (trace st ++ new)%list
    /\ forallb quiet new = true
    /\ received new = pages
    /\ forall fuel,
         count_pages (List.length pages + fuel) srv cid (Some u) item_count st
         = count_pages fuel srv cid (Some u') (item_count + items pages) st'.
Proof.
  induction 1 as [n u | n u data u' pages n' u'' Hsrv Hnext Hu' Hrun IH];
    intros Hu st item_count Hsent.
  - exists st, []. rewrite app_nil_r. repeat split; auto.
    intro fuel. simpl. f_equal. unfold items; simpl; lia.
  - set (ic := item_count + Py.len (Py.get (features data) [])).
    set (progress := if (0 <? ic) && (ic mod 5000 =? 0)
                     then [Print (ManualCountProgress cid ic)] else []).
    destruct (IH Hu' {| trace := (trace st ++ [Get u (Json data)]) ++ progress;
                        sent := S (sent st) |} ic)
      as (st' & new & Hs' & Hne & Htr & Hq & Hrec & Hrun');
      [simpl; congruence |].
    exists st', ((Get u (Json data) :: progress) ++ new)%list.
    split; [exact Hs' |]. split; [exact Hne |]. split; [| split; [| split]].
    + rewrite Htr. cbn [trace]. now rewrite <- !app_assoc.
    + rewrite forallb_app, Hq. subst progress.
      destruct ((0 <? ic) && (ic mod 5000 =? 0)); reflexivity.
    + rewrite received_app, Hrec. subst progress.
      destruct ((0 <? ic) && (ic mod 5000 =? 0)); reflexivity.
    + intro fuel. rewrite items_cons, Z.add_assoc. fold ic. rewrite <- Hrun'.
      cbn [List.length Nat.add count_pages].
      rewrite (truthy_some u Hu). run_effects.
      change (url_text (Some u)) with u. rewrite Hsent, Hsrv.
      rewrite Hnext. fold ic. subst progress.
      destruct ((0 <? ic) && (ic mod 5000 =? 0)); run_effects.
      * reflexivity.
      * now rewrite app_nil_r.
Qed.

Lemma manual_pages_last u final st item_count fuel :
  u <> "" -> srv (sent st) u = Json final -> no_next final ->
  exists st' new,
    sent st' = S (sent st)
    /\ trace st' = (trace st ++ new)%list
    /\ forallb quiet new = true
    /\ received new = [final]
    /\ count_pages (S (S fuel)) srv cid (Some u) item_count st
       = Some (Items (item_count + Py.len (Py.get (features final) [])), st').
Proof.
  intros Hu Hsrv Hno.
  set (ic := item_count + Py.len (Py.get (features final) [])).
  set (progress := if (0 <? ic) && (ic mod 5000 =? 0)
                   then [Print (ManualCountProgress cid ic)] else []).
  exists {| trace := ((trace st ++ [Get u (Json final)]) ++ progress)
                     ++ [Print (ManualCountFinished cid ic)];
            sent := S (sent st) |},
         ((Get u (Json final) :: progress) ++ [Print (ManualCountFinished cid ic)])%list.
  split; [reflexivity |]. split; [| split; [| split]].
  - cbn [trace]. now rewrite <- !app_assoc.
  - subst progress. destruct ((0 <? ic) && (ic mod 5000 =? 0)); reflexivity.
  - subst progress. destruct ((0 <? ic) && (ic mod 5000 =? 0)); reflexivity.
  - cbn [count_pages]. rewrite (truthy_some u Hu). run_effects.
    change (url_text (Some u)) with u. rewrite Hsrv.
    rewrite (no_next_href _ Hno). fold ic. subst progress.
    destruct ((0 <? ic) && (ic mod 5000 =? 0)); run_effects; cbn [truthy]; run_effects.
    + reflexivity.
    + now rewrite app_nil_r.
Qed.

Lemma manual_url_nonempty : manual_url cid <> "".
Proof. discriminate. Qed.

Lemma count_items_manually_chain pages st :
  chain_at srv (sent st) (manual_url cid) pages ->
  forall fuel, (List.length pages < fuel)%nat ->
  exists st' new,
    count_items_manually fuel srv cid st = Some (Items (items pages), st')
    /\ sent st' = (sent st + List.length pages)%nat
    /\ trace st' = (trace st ++ new)%list
    /\ forallb quiet new = true
    /\ received new = pages.
Proof.
  intros (init & final & n' & u' & -> & Hrun & Hfinal & Hno) fuel Hfuel.
  rewrite length_app in *. cbn [List.length] in *.
  set (st0 := {| trace := trace st ++ [Print (ManualCountStart cid)]; sent := sent st |}).
  destruct (manual_pages_run init (sent st) _ n' u' Hrun manual_url_nonempty st0 0 eq_refl)
    as (st1 & new1 & Hs1 & Hu' & Htr1 & Hq1 & Hrec1 & Hrun1).
  destruct fuel as [| [| fuel]]; try lia.
  destruct (manual_pages_last u' final st1 (0 + items init) (fuel - List.length init) Hu')
    as (st2 & new2 & Hs2 & Htr2 & Hq2 & Hrec2 & Hrun2);
    [now rewrite Hs1 | exact Hno |].
  exists st2, ((Print (ManualCountStart cid) :: new1) ++ new2)%list.
  split; [| split; [| split; [| split]]].
  - unfold count_items_manually. run_effects. fold st0.
    replace (S (S fuel)) with (List.length init + S (S (fuel - List.length init)))%nat
      by lia.
    rewrite Hrun1, Hrun2. rewrite items_app. do 3 f_equal.
    unfold items at 3. simpl. lia.
  - rewrite Hs2, Hs1.
    assert (H : forall k n u, run srv k u init n u' -> n = (k + List.length init)%nat).
    { clear. intros k n u H. induction H; simpl; lia. }
    rewrite (H _ _ _ Hrun). lia.
  - rewrite Htr2, Htr1. subst st0. cbn [trace]. now rewrite <- !app_assoc.
  - rewrite forallb_app. cbn [forallb quiet]. now rewrite Hq1, Hq2.
  - rewrite received_app. cbn [received flat_map app]. fold (received new1).
    now rewrite Hrec1, Hrec2.
Qed.

End ManualCount.

(** ** fetch_time_chunk *)

Section TimeChunk.
Import Http Effects Pages Kinds Example3Optimized.
Variable srv : Server.
Variable cid : string.
Variable chunk_label : string.

Lemma run_length pages : forall k u n u',
  run srv k u pages n u' -> n = (k + List.length pages)%nat.
Proof. intros k u n u' H. induction H; simpl; lia. Qed.

Lemma try_page_first u pc st data :
  srv (sent st) u = Json data ->
  try_page srv cid chunk_label u pc (Py.range 0 max_retries 1) st
  = Some (Fetched data,
          {| trace := trace st ++ [Get u (Json data)]; sent := S (sent st) |}).
Proof.
  intros Hsrv. change (Py.range 0 max_retries 1) with [0; 1; 2].
  cbn [try_page]. run_effects. now rewrite Hsrv.
Qed.


Lemma fetch_pages_run pages : forall n u n' u',
  run srv n u pages n' u' -> u <> "" ->
  forall st pc ti c, sent st = n ->
  exists st' new,
    sent st' = n' /\ u' <> ""
    /\ trace st' = (trace st ++ new)%list
    /\ forallb quiet new = true
    /\ received new = pages
    /\ forall fuel,
         fetch_pages (List.length pages + fuel) srv cid chunk_label (Some u) pc ti c st
         = fetch_pages fuel srv cid chunk_label (Some u') (pc + Py.len pages)
             (ti + items pages) (tally_pages c pages) st'.
Proof.
  induction 1 as [n u | n u data u' pages n' u'' Hsrv Hnext Hu' Hrun IH];
    intros Hu st pc ti c Hsent.
  - exists st, []. rewrite app_nil_r. repeat split; auto.
    intro fuel. simpl. f_equal; unfold items, Py.len; simpl; lia.
  - destruct (IH Hu' {| trace := trace st ++ [Get u (Json data)]; sent := S (sent st) |}
                (pc + 1) (ti + Py.len (Py.get (features data) []))
                (tally c (Py.get (features data) [])))
      as (st' & new & Hs' & Hne & Htr & Hq & Hrec & Hrun');
      [simpl; congruence |].
    exists st', (Get u (Json data) :: new).
    split; [exact Hs' |]. split; [exact Hne |]. split; [| split; [| split]].
    + rewrite Htr. cbn [trace]. now rewrite <- app_assoc.
    + simpl. exact Hq.
    + simpl. now rewrite Hrec.
    + intro fuel. cbn [List.length Nat.add fetch_pages].
      rewrite (truthy_some u Hu). unfold Effects.bind.
      change (url_text (Some u)) with u.
      rewrite (try_page_first u _ st data) by (now rewrite Hsent).
      rewrite Hnext, Hrun'. f_equal.
      * unfold Py.len. cbn [List.length]. lia.
      * rewrite items_cons. lia.
Qed.

Lemma chunk_url_nonempty chunk : chunk_url cid chunk <> "".
Proof. discriminate. Qed.

End TimeChunk.

Section TimeChunkTasks.
Import Http Effects Pages Kinds Example3Optimized.

(** A chunk whose pages all arrive is tallied whole. *)
Lemma fetch_time_chunk_chain srv cid chunk pages :
  chain srv (chunk_url cid chunk) pages ->
  forall fuel, (List.length pages < fuel)%nat ->
  exists st,
    fetch_time_chunk fuel srv cid chunk Effects.start
    = Some ((tally_pages [] pages, None), st)
    /\ sent st = List.length pages
    /\ received (trace st) = pages
    /\ error_log (trace st) = []
    /\ In (Print (ChunkCompleted (label chunk) (items pages) (Py.len pages))) (trace st).
Proof.
  intros (init & final & n' & u' & -> & Hrun & Hfinal & Hno) fuel Hfuel.
  rewrite length_app in *. cbn [List.length] in *.
  set (st0 := {| trace := [Print (StartingChunk (label chunk))]; sent := 0 |}).
  destruct (fetch_pages_run srv cid (label chunk) init 0 _ n' u' Hrun
              (chunk_url_nonempty cid chunk) st0 0 0 [] eq_refl)
    as (st1 & new1 & Hs1 & Hu' & Htr1 & Hq1 & Hrec1 & Hrun1).
  pose proof (run_length _ _ _ _ _ _ Hrun) as Hn'. simpl in Hn'.
  destruct fuel as [| [| fuel]]; try lia.
  set (total := items (init ++ [final])).
  set (st2 := {| trace := (trace st1 ++ [Get u' (Json final)])
                          ++ [Print (ChunkCompleted (label chunk) total
                                       (Py.len (init ++ [final])%list))];
                 sent := S (sent st1) |}).
  exists st2. split; [| split; [| split; [| split]]].
  - unfold fetch_time_chunk. run_effects. fold st0.
    replace (S (S fuel)) with (List.length init + S (S (fuel - List.length init)))%nat
      by lia.
    rewrite Hrun1. cbn [fetch_pages]. rewrite (truthy_some u' Hu'). unfold Effects.bind.
    change (url_text (Some u')) with u'.
    rewrite (try_page_first srv cid (label chunk) u' _ st1 final) by (now rewrite Hs1).
    rewrite (no_next_href _ Hno). cbn [truthy]. run_effects.
    unfold tally_pages. rewrite fold_left_app. cbn [fold_left].
    subst st2 total. rewrite items_app. unfold Py.len. rewrite length_app.
    cbn [List.length]. unfold items at 3. cbn [map Frame.sum fold_right].
    unfold Effects.ret, Py.len.
    replace (0 + items init + Z.of_nat (List.length (Py.get (features final) [])))
      with (items init + (Z.of_nat (List.length (Py.get (features final) [])) + 0))
      by lia.
    replace (0 + Z.of_nat (List.length init) + 1)
      with (Z.of_nat (List.length init + 1)) by lia.
    reflexivity.
  - subst st2. cbn [sent]. lia.
  - subst st2. cbn [trace]. rewrite Htr1. subst st0. cbn [trace].
    rewrite !received_app, Hrec1. simpl. now rewrite app_nil_r.
  - subst st2. cbn [trace]. rewrite Htr1. subst st0. cbn [trace].
    rewrite !error_log_app. destruct (quiet_silent _ Hq1) as (_ & _ & ->). reflexivity.
  - subst st2. cbn [trace]. apply in_or_app. right. now left.
Qed.


End TimeChunkTasks.

(** ** fetch_counts_for_bin *)

Section HazardCounts.
Import Http Effects Pages Kinds Example5.
Variable srv : Server.
Variable cid : string.
Variable bin_label : string.

Lemma hazard_pages_step u st data items_fetched counter fuel :
  u <> "" -> srv (sent st) u = Json data ->
  Py.get (features data) [] <> [] \/ items_fetched <> 0 ->
  count_pages (S fuel) srv cid bin_label (Some u) items_fetched counter st
  = count_pages fuel srv cid bin_label (next_href data)
      (items_fetched + Py.len (Py.get (features data) []))
      (tally counter (Py.get (features data) []))
      {| trace := trace st ++ [Get u (Json data)]; sent := S (sent st) |}.
Proof.
  intros Hu Hsrv Hne. cbn [count_pages]. rewrite (truthy_some u Hu). run_effects.
  change (url_text (Some u)) with u. rewrite Hsrv.
  destruct (Py.get (features data) []) as [| f fs] eqn:E.
  - destruct Hne as [Hne | Hne]; [congruence |].
    replace (items_fetched =? 0) with false by (symmetry; now apply Z.eqb_neq).
    unfold Py.len. cbn [List.length tally fold_left]. now rewrite Z.add_0_r.
  - reflexivity.
Qed.

Lemma hazard_pages_run pages : forall n u n' u',
  run srv n u pages n' u' -> u <> "" ->
  forall st items_fetched counter, sent st = n ->
  0 <= items_fetched ->
  starts_nonempty pages \/ items_fetched <> 0 ->
  exists st' new,
    sent st' = n' /\ u' <> ""
    /\ trace st' = (trace st ++ new)%list
    /\ forallb quiet new = true
    /\ received new = pages
    /\ forall fuel,
         count_pages (List.length pages + fuel) srv cid bin_label (Some u)
           items_fetched counter st
         = count_pages fuel srv cid bin_label (Some u') (items_fetched + items pages)
             (tally_pages counter pages) st'.
Proof.
  induction 1 as [n u | n u data u' pages n' u'' Hsrv Hnext Hu' Hrun IH];
    intros Hu st items_fetched counter Hsent Hpos Hne.
  - exists st, []. rewrite app_nil_r. repeat split; auto.
    intro fuel. simpl. f_equal. unfold items; simpl; lia.
  - assert (Hstep : Py.get (features data) [] <> [] \/ items_fetched <> 0)
      by (destruct Hne; auto).
    destruct (IH Hu' {| trace := trace st ++ [Get u (Json data)]; sent := S (sent st) |}
                (items_fetched + Py.len (Py.get (features data) []))
                (tally counter (Py.get (features data) [])))
      as (st' & new & Hs' & Hne' & Htr & Hq & Hrec & Hrun');
      [simpl; congruence | unfold Py.len; lia | |].
    { right. destruct Hstep as [Hf | Hi].
      - destruct (Py.get (features data) []); [congruence |].
        unfold Py.len. cbn [List.length]. lia.
      - unfold Py.len. lia. }
    exists st', (Get u (Json data) :: new).
    split; [exact Hs' |]. split; [exact Hne' |]. split; [| split; [| split]].
    + rewrite Htr. cbn [trace]. now rewrite <- app_assoc.
    + simpl. exact Hq.
    + simpl. now rewrite Hrec.
    + intro fuel. cbn [List.length Nat.add].
      rewrite (hazard_pages_step u st data) by (auto; now rewrite Hsent).
      rewrite Hnext, Hrun'. f_equal. rewrite items_cons. lia.
Qed.

(** The early exit: an empty page while nothing was fetched ends the task. *)
Lemma hazard_pages_early_exit u st data counter fuel :
  u <> "" -> srv (sent st) u = Json data -> Py.get (features data) [] = [] ->
  count_pages (S fuel) srv cid bin_label (Some u) 0 counter st
  = Some ((cid, bin_label, []),
          {| trace := trace st ++ [Get u (Json data); Print (Completed cid bin_label 0)];
             sent := S (sent st) |}).
Proof.
  intros Hu Hsrv He. cbn [count_pages]. rewrite (truthy_some u Hu). run_effects.
  change (url_text (Some u)) with u. rewrite Hsrv, He. cbn [Z.eqb]. run_effects.
  now rewrite <- app_assoc.
Qed.

(** A failed request ends the task with an empty counter. *)
Lemma hazard_pages_error u st reason items_fetched counter fuel :
  u <> "" -> srv (sent st) u = RequestException reason ->
  count_pages (S fuel) srv cid bin_label (Some u) items_fetched counter st
  = Some ((cid, bin_label, []),
          {| trace := trace st ++ [Get u (RequestException reason);
                                   Print (TaskError cid bin_label reason)];
             sent := S (sent st) |}).
Proof.
  intros Hu Hsrv. cbn [count_pages]. rewrite (truthy_some u Hu). run_effects.
  change (url_text (Some u)) with u. rewrite Hsrv. run_effects.
  now rewrite <- app_assoc.
Qed.

(** Whatever the server does, a task that returns has logged no error and
    slept never, and its counter is empty or the tally of all the pages it
    received, none of its requests having failed. *)
Lemma hazard_pages_all_or_nothing fuel : forall url items_fetched counter st r st',
  count_pages fuel srv cid bin_label url items_fetched counter st = Some (r, st') ->
  exists new,
    trace st' = (trace st ++ new)%list
    /\ error_log new = [] /\ sleeps new = []
    /\ fst r = (cid, bin_label)
    /\ (snd r = []
        \/ (failures new = [] /\ snd r = tally_pages counter (received new))).
Proof.
  induction fuel as [| fuel IH]; intros url items_fetched counter st r st' Hrun;
    [discriminate |].
  cbn [count_pages] in Hrun. destruct (truthy url) eqn:Ht.
  - revert Hrun. run_effects.
    destruct (srv (sent st) (url_text url)) as [reason | data] eqn:Hsrv.
    + run_effects. intro Hrun. injection Hrun as <- <-.
      exists [Get (url_text url) (RequestException reason);
              Print (TaskError cid bin_label reason)].
      split; [cbn [trace]; now rewrite <- app_assoc |]. simpl. auto.
    + assert (Hgo : forall it c,
                count_pages fuel srv cid bin_label (next_href data) it c
                  {| trace := trace st ++ [Get (url_text url) (Json data)];
                     sent := S (sent st) |} = Some (r, st') ->
                c = tally counter (Py.get (features data) []) ->
                exists new,
                  trace st' = (trace st ++ new)%list
                  /\ error_log new = [] /\ sleeps new = []
                  /\ fst r = (cid, bin_label)
                  /\ (snd r = []
                      \/ (failures new = []
                          /\ snd r = tally_pages counter (received new)))).
      { intros it c Hrun ->. apply IH in Hrun.
        destruct Hrun as (new & Htr & L & S & Hf & Hr). cbn [trace] in Htr.
        exists (Get (url_text url) (Json data) :: new).
        split; [now rewrite Htr, <- app_assoc |].
        split; [exact L |]. split; [exact S |]. split; [exact Hf |].
        destruct Hr as [Hr | [F Hr]]; [now left | right].
        split; [exact F | exact Hr]. }
      destruct (Py.get (features data) []) as [| f fs] eqn:E.
      * destruct (items_fetched =? 0).
        -- run_effects. intro Hrun. injection Hrun as <- <-.
           exists [Get (url_text url) (Json data); Print (Completed cid bin_label 0)].
           split; [cbn [trace]; now rewrite <- app_assoc |]. simpl. auto.
        -- intro Hrun. now apply (Hgo _ _ Hrun).
      * intro Hrun. now apply (Hgo _ _ Hrun).
  - revert Hrun. run_effects. intro Hrun. injection Hrun as <- <-.
    exists [Print (Completed cid bin_label items_fetched)].
    split; [reflexivity |]. simpl. repeat split. right. now split.
Qed.

End HazardCounts.

Section HazardTasks.
Import Http Effects Pages Kinds Example5.

Lemma bin_url_nonempty cid bin : bin_url cid bin <> "".
Proof. discriminate. Qed.

Lemma starts_nonempty_items first rest :
  starts_nonempty (first :: rest) -> items (first :: rest) <> 0.
Proof.
  simpl. intro H. rewrite items_cons. pose proof (items_nonneg rest).
  destruct (Py.get (features first) []); [congruence |].
  unfold Py.len. cbn [List.length]. lia.
Qed.

(** The last page of a chain, reached with the pages before it tallied. *)
Lemma hazard_pages_last srv cid bin_label u final st items_fetched counter fuel :
  u <> "" -> srv (sent st) u = Json final -> no_next final ->
  Py.get (features final) [] <> [] \/ items_fetched <> 0 ->
  count_pages (S (S fuel)) srv cid bin_label (Some u) items_fetched counter st
  = Some ((cid, bin_label, tally counter (Py.get (features final) [])),
          {| trace := trace st ++
               [Get u (Json final);
                Print (Completed cid bin_label
                         (items_fetched + Py.len (Py.get (features final) [])))];
             sent := S (sent st) |}).
Proof.
  intros Hu Hsrv Hno Hne.
  rewrite (hazard_pages_step srv cid bin_label u st final) by auto.
  rewrite (no_next_href _ Hno). cbn [count_pages truthy]. run_effects.
  now rewrite <- app_assoc.
Qed.

(** A task whose pages all arrive counts them all, unless the first page is
    empty: then it stops there with a count of zero. *)
Lemma fetch_counts_chain srv cid bin pages :
  chain srv (bin_url cid bin) pages ->
  forall fuel, (List.length pages < fuel)%nat ->
  exists counter st,
    fetch_counts_for_bin fuel srv cid bin Effects.start
    = Some ((cid, label bin, counter), st)
    /\ error_log (trace st) = []
    /\ (starts_nonempty pages ->
        counter = tally_pages [] pages
        /\ sent st = List.length pages
        /\ received (trace st) = pages
        /\ In (Print (Completed cid (label bin) (items pages))) (trace st))
    /\ (~ starts_nonempty pages ->
        counter = [] /\ sent st = 1%nat
        /\ In (Print (Completed cid (label bin) 0)) (trace st)).
Proof.
  intros (init & final & n' & u' & -> & Hrun & Hfinal & Hno) fuel Hfuel.
  rewrite length_app in *. cbn [List.length] in *.
  set (st0 := {| trace := [Print (Starting cid (label bin))]; sent := 0 |}).
  assert (Hfirst : exists first rest, (init ++ [final])%list = first :: rest
                                      /\ srv 0%nat (bin_url cid bin) = Json first).
  { destruct init as [| d init'].
    - inversion Hrun; subst. now exists final, [].
    - inversion Hrun; subst. now exists d, (init' ++ [final])%list. }
  destruct Hfirst as (first & rest & Hpages & Hsrv0).
  destruct (Py.get (features first) []) as [| f fs] eqn:Efirst.
  - (* the early exit *)
    destruct fuel as [| fuel]; [lia |].
    eexists _, _. split; [| split; [| split]].
    + unfold fetch_counts_for_bin. run_effects. fold st0.
      now rewrite (hazard_pages_early_exit srv cid (label bin) _ st0 first)
        by (auto using bin_url_nonempty).
    + reflexivity.
    + rewrite Hpages. simpl. congruence.
    + intros _. split; [reflexivity |]. split; [reflexivity |].
      cbn [trace]. simpl. auto.
  - assert (Hstart : starts_nonempty (init ++ [final])%list).
    { rewrite Hpages. simpl. congruence. }
    assert (Hinit : starts_nonempty init \/ (0 : Z) <> 0).
    { left. destruct init as [| d init']; [exact I |].
      simpl in *. injection Hpages as <- _. congruence. }
    destruct (hazard_pages_run srv cid (label bin) init 0 _ n' u' Hrun
                (bin_url_nonempty cid bin) st0 0 [] eq_refl (Z.le_refl 0) Hinit)
      as (st1 & new1 & Hs1 & Hu' & Htr1 & Hq1 & Hrec1 & Hrun1).
    pose proof (run_length _ _ _ _ _ _ Hrun) as Hn'. simpl in Hn'.
    destruct fuel as [| [| fuel]]; try lia.
    destruct (quiet_silent _ Hq1) as (F1 & S1 & L1).
    eexists _, _. split; [| split; [| split]].
    + unfold fetch_counts_for_bin. run_effects. fold st0.
      replace (S (S fuel)) with (List.length init + S (S (fuel - List.length init)))%nat
        by lia.
      rewrite Hrun1.
      rewrite (hazard_pages_last srv cid (label bin) u' final st1);
        [reflexivity | exact Hu' | now rewrite Hs1 | exact Hno |].
      destruct init as [| d init'].
      * left. simpl in Hpages. injection Hpages as -> _. congruence.
      * right. pose proof (starts_nonempty_items d init').
        destruct Hinit as [Hi | Hi]; [| congruence]. specialize (H Hi). lia.
    + cbn [trace]. rewrite Htr1. subst st0. cbn [trace].
      rewrite !error_log_app, L1. reflexivity.
    + intros _. split; [| split; [| split]].
      * unfold tally_pages. rewrite fold_left_app. reflexivity.
      * cbn [sent]. lia.
      * cbn [trace]. rewrite Htr1. subst st0. cbn [trace].
        rewrite !received_app, Hrec1. simpl. rewrite ?app_nil_r. reflexivity.
      * cbn [trace]. apply in_or_app. right. right. left.
        rewrite items_app. unfold items at 3. simpl.
        do 2 f_equal. lia.
    + intro Hn. contradiction.
Qed.

(** A task one of whose requests fails returns an empty counter, whatever
    it tallied before; it asks once, does not sleep and logs nothing. *)
Lemma fetch_counts_error srv cid bin pages n' u' reason :
  run srv 0 (bin_url cid bin) pages n' u' ->
  starts_nonempty pages ->
  srv n' u' = RequestException reason ->
  forall fuel, (List.length pages < fuel)%nat ->
  exists st,
    fetch_counts_for_bin fuel srv cid bin Effects.start
    = Some ((cid, label bin, []), st)
    /\ received (trace st) = pages
    /\ failures (trace st) = [reason]
    /\ error_log (trace st) = []
    /\ sleeps (trace st) = []
    /\ sent st = S (List.length pages).
Proof.
  intros Hrun Hstart Herr fuel Hfuel.
  set (st0 := {| trace := [Print (Starting cid (label bin))]; sent := 0 |}).
  destruct (hazard_pages_run srv cid (label bin) pages 0 _ n' u' Hrun
              (bin_url_nonempty cid bin) st0 0 [] eq_refl (Z.le_refl 0)
              (or_introl Hstart))
    as (st1 & new1 & Hs1 & Hu' & Htr1 & Hq1 & Hrec1 & Hrun1).
  pose proof (run_length _ _ _ _ _ _ Hrun) as Hn'. simpl in Hn'.
  destruct fuel as [| fuel]; try lia.
  destruct (quiet_silent _ Hq1) as (F1 & S1 & L1).
  eexists. split; [| split; [| split; [| split; [| split]]]].
  - unfold fetch_counts_for_bin. run_effects. fold st0.
    replace (S fuel) with (List.length pages + S (fuel - List.length pages))%nat by lia.
    rewrite Hrun1.
    now rewrite (hazard_pages_error srv cid (label bin) u' st1 reason)
      by (auto; now rewrite Hs1).
  - cbn [trace]. rewrite Htr1. subst st0. cbn [trace].
    rewrite !received_app, Hrec1. simpl. rewrite ?app_nil_r. reflexivity.
  - cbn [trace]. rewrite Htr1. subst st0. cbn [trace].
    rewrite !failures_app, F1. reflexivity.
  - cbn [trace]. rewrite Htr1. subst st0. cbn [trace].
    rewrite !error_log_app, L1. reflexivity.
  - cbn [trace]. rewrite Htr1. subst st0. cbn [trace].
    rewrite !sleeps_app, S1. reflexivity.
  - cbn [sent]. lia.
Qed.

End HazardTasks.

(** ** The fetchers: pagination, failures, counts *)

Section Fetchers.
Import Http Effects Pages Kinds.

Lemma starts_nonempty_dec pages : starts_nonempty pages \/ ~ starts_nonempty pages.
Proof.
  destruct pages as [| first rest]; [now left |]. simpl.
  destruct (Py.get (features first) []); [right; congruence | left; congruence].
Qed.

(** C4, as amended: over a finite chain of pages the pagination loops end
    and count every item, where [fetch_counts_for_bin] needs the first page
    of the chain to have features (or no page to have any): it stops at an
    empty first page. *)
Theorem pagination_counts_all_items
    (srv_manual srv_chunk srv_bin : Server) (cid_manual cid_chunk cid_bin : string)
    (chunk : Example3Optimized.TimeChunk) (bin : Example5.TimeBin)
    (pages_manual pages_chunk pages_bin : list Body) :
  chain srv_manual (CountEventsPerCollection.manual_url cid_manual) pages_manual ->
  chain srv_chunk (Example3Optimized.chunk_url cid_chunk chunk) pages_chunk ->
  chain srv_bin (Example5.bin_url cid_bin bin) pages_bin ->
  counted_from_first pages_bin ->
  (forall fuel, (List.length pages_manual < fuel)%nat ->
     exists st,
       CountEventsPerCollection.count_items_manually fuel srv_manual cid_manual
         Effects.start
       = Some (CountEventsPerCollection.Items (items pages_manual), st)
       /\ sent st = List.length pages_manual)
  /\ (forall fuel, (List.length pages_chunk < fuel)%nat ->
       exists counter st,
         Example3Optimized.fetch_time_chunk fuel srv_chunk cid_chunk chunk Effects.start
         = Some ((counter, None), st)
         /\ sent st = List.length pages_chunk
         /\ In (Print (ChunkCompleted (Example3Optimized.label chunk)
                         (items pages_chunk) (Py.len pages_chunk)))
               (trace st))
  /\ (forall fuel, (List.length pages_bin < fuel)%nat ->
       exists counter st,
         Example5.fetch_counts_for_bin fuel srv_bin cid_bin bin Effects.start
         = Some ((cid_bin, Example5.label bin, counter), st)
         /\ In (Print (Completed cid_bin (Example5.label bin) (items pages_bin)))
               (trace st)).
Proof.
  intros Hm Hc Hb Hfirst. split; [| split]; intros fuel Hfuel.
  - destruct (count_items_manually_chain srv_manual cid_manual pages_manual
                Effects.start Hm fuel Hfuel)
      as (st & new & Hrun & Hsent & _).
    exists st. split; [exact Hrun | exact Hsent].
  - destruct (fetch_time_chunk_chain srv_chunk cid_chunk chunk pages_chunk Hc fuel Hfuel)
      as (st & Hrun & Hsent & _ & _ & Hin).
    exists (Example3Optimized.tally_pages [] pages_chunk), st. auto.
  - destruct (fetch_counts_chain srv_bin cid_bin bin pages_bin Hb fuel Hfuel)
      as (counter & st & Hrun & _ & Hyes & Hno).
    exists counter, st. split; [exact Hrun |].
    destruct (starts_nonempty_dec pages_bin) as [Hs | Hs].
    + now apply Hyes.
    + destruct Hfirst as [Hf | Hf]; [contradiction |].
      rewrite Hf. now apply Hno.
Qed.

(** C9: in example_5 a failed request, on whatever page, makes the task
    return an empty counter: what earlier pages tallied is dropped, nothing
    is retried and nothing is written to an error log.  For every run that
    returns, the counter is empty or the tally of all the pages, none of the
    requests having failed. *)
Theorem hazard_task_all_or_nothing
    (srv : Server) (cid : string) (bin : Example5.TimeBin)
    (pages : list Body) (n' : nat) (u' reason : string) :
  run srv 0 (Example5.bin_url cid bin) pages n' u' ->
  starts_nonempty pages ->
  srv n' u' = RequestException reason ->
  (forall fuel, (List.length pages < fuel)%nat ->
     exists st,
       Example5.fetch_counts_for_bin fuel srv cid bin Effects.start
       = Some ((cid, Example5.label bin, []), st)
       /\ received (trace st) = pages
       /\ failures (trace st) = [reason]
       /\ error_log (trace st) = []
       /\ sleeps (trace st) = []
       /\ sent st = S (List.length pages))
  /\ (forall fuel any_srv result st,
       Example5.fetch_counts_for_bin fuel any_srv cid bin Effects.start
       = Some (result, st) ->
       error_log (trace st) = []
       /\ (snd result = []
           \/ (failures (trace st) = []
               /\ snd result = Example5.tally_pages [] (received (trace st))))).
Proof.
  intros Hrun Hstart Herr. split.
  - intros fuel Hfuel.
    exact (fetch_counts_error srv cid bin pages n' u' reason Hrun Hstart Herr fuel Hfuel).
  - intros fuel any_srv result st Hres.
    unfold Example5.fetch_counts_for_bin in Hres. revert Hres. run_effects. intro Hres.
    apply hazard_pages_all_or_nothing in Hres.
    destruct Hres as (new & Htr & L & S & _ & Hr). cbn [trace] in Htr.
    rewrite Htr. split.
    + rewrite error_log_app, L. reflexivity.
    + destruct Hr as [Hr | [F Hr]]; [now left | right].
      rewrite failures_app, received_app, F. simpl. auto.
Qed.


(** C5, as amended: [fetch_count_for_bin] sends one request, with limit=1,
    and no more; when the answer has no numberMatched it prints a warning
    and returns a count of zero.  [fetch_collection_count] sends its limit=1
    request second, and when that answer has no numberMatched it pages
    through all the items and returns their number. *)
Theorem count_mode_missing_total
    (srv : Server) (cid : string) (bin : CountEventsByYear.TimeBin) (data : Body)
    (srv' : Server) (cid' : string) (summary listing : Body) (pages : list Body) :
  srv 0%nat (CountEventsByYear.count_url cid bin) = Json data ->
  numberMatched data = None ->
  srv' 0%nat (CountEventsPerCollection.collection_url cid') = Json summary ->
  monty_count summary = None ->
  srv' 1%nat (CountEventsPerCollection.items_url cid') = Json listing ->
  numberMatched listing = None ->
  chain_at srv' 2 (CountEventsPerCollection.manual_url cid') pages ->
  CountEventsByYear.fetch_count_for_bin srv cid bin Effects.start
  = Some ({| CountEventsByYear.collection := cid;
             CountEventsByYear.time_period := CountEventsByYear.label bin;
             CountEventsByYear.event_count := CountEventsByYear.Counted 0 |},
          {| trace := [Print (Querying cid (CountEventsByYear.label bin));
                       Get (CountEventsByYear.count_url cid bin) (Json data);
                       Print (WarnNoNumberMatched cid (CountEventsByYear.label bin));
                       Print (Completed cid (CountEventsByYear.label bin) 0)];
             sent := 1 |})
  /\ (forall any_srv, exists row st,
        CountEventsByYear.fetch_count_for_bin any_srv cid bin Effects.start
        = Some (row, st)
        /\ requests (trace st) = [CountEventsByYear.count_url cid bin])
  /\ (forall fuel, (List.length pages < fuel)%nat ->
        exists st,
          CountEventsPerCollection.fetch_collection_count fuel srv' cid' Effects.start
          = Some ({| CountEventsPerCollection.collection_id := cid';
                     CountEventsPerCollection.total_events :=
                       CountEventsPerCollection.Items (items pages) |}, st)
          /\ sent st = (2 + List.length pages)%nat
          /\ received (trace st) = (summary :: listing :: pages)%list).
Proof.
  intros Hsrv Hnone Hsum Hcount Hlist Hmatched Hchain. split; [| split].
  - unfold CountEventsByYear.fetch_count_for_bin, Effects.start. run_effects.
    rewrite Hsrv. run_effects. rewrite Hnone. run_effects. reflexivity.
  - intro any_srv. unfold CountEventsByYear.fetch_count_for_bin, Effects.start.
    run_effects.
    destruct (any_srv 0%nat (CountEventsByYear.count_url cid bin)) as [e | d];
      [| destruct (numberMatched d)]; run_effects; eexists _, _;
      (split; [reflexivity | reflexivity]).
  - intros fuel Hfuel.
    set (st2 := {| trace := [Get (CountEventsPerCollection.collection_url cid')
                               (Json summary);
                             Print (NoSummary cid');
                             Get (CountEventsPerCollection.items_url cid') (Json listing)];
                   sent := 2 |}).
    destruct (count_items_manually_chain srv' cid' pages st2 Hchain fuel Hfuel)
      as (st & new & Hrun & Hsent & Htr & Hq & Hrec).
    exists st. split; [| split].
    + unfold CountEventsPerCollection.fetch_collection_count, Effects.start.
      run_effects.
      rewrite Hsum, Hcount. run_effects. rewrite Hlist, Hmatched.
      cbn [app]. fold st2. unfold bind. rewrite Hrun. reflexivity.
    + exact Hsent.
    + rewrite Htr, received_app, Hrec. reflexivity.
Qed.

End Fetchers.

(** ** The fetchers on synthetic servers *)

Section FetcherRuns.
Import Http Effects Pages Kinds Mock.

Lemma two_pages_chain u : chain two_pages u [first_page; second_page].
Proof.
  exists [first_page], second_page, 1%nat, "page2".
  split; [reflexivity |]. split; [| split; reflexivity].
  eapply run_cons; [reflexivity | reflexivity | discriminate | apply run_nil].
Defined.

Lemma page_then_down_run u : run page_then_down 0 u [first_page] 1 "page2".
Proof.
  eapply run_cons; [reflexivity | reflexivity | discriminate | apply run_nil].
Defined.

Lemma first_page_nonempty : starts_nonempty [first_page].
Proof. simpl. discriminate. Defined.

Lemma pagination_counts_all_items_witness :
  (forall fuel, (2 < fuel)%nat ->
     exists st,
       CountEventsPerCollection.count_items_manually fuel two_pages "usgs-events"
         Effects.start
       = Some (CountEventsPerCollection.Items (items [first_page; second_page]), st)
       /\ sent st = 2%nat)
  /\ (forall fuel, (2 < fuel)%nat ->
       exists counter st,
         Example3Optimized.fetch_time_chunk fuel two_pages "usgs-events" chunk3
           Effects.start
         = Some ((counter, None), st)
         /\ sent st = 2%nat
         /\ In (Print (ChunkCompleted (Example3Optimized.label chunk3)
                         (items [first_page; second_page]) 2))
               (trace st))
  /\ (forall fuel, (2 < fuel)%nat ->
       exists counter st,
         Example5.fetch_counts_for_bin fuel two_pages "usgs-events" bin5 Effects.start
         = Some (("usgs-events", Example5.label bin5, counter), st)
         /\ In (Print (Completed "usgs-events" (Example5.label bin5)
                         (items [first_page; second_page])))
               (trace st)).
Proof.
  apply (pagination_counts_all_items two_pages two_pages two_pages
           "usgs-events" "usgs-events" "usgs-events" chunk3 bin5
           [first_page; second_page] [first_page; second_page]
           [first_page; second_page]).
  - apply two_pages_chain.
  - apply two_pages_chain.
  - apply two_pages_chain.
  - left. simpl. discriminate.
Defined.

(** C4 as stated fails for example_5: the chain has one item, on its
    second page, and the task stops at the empty first page with zero. *)
Lemma empty_first_page_ends_count :
  chain empty_then_one (Example5.bin_url "usgs-events" bin5) [empty_page; second_page]
  /\ items [empty_page; second_page] = 1
  /\ option_map (fun r => (fst r, sent (snd r), printed (trace (snd r))))
       (Example5.fetch_counts_for_bin 5 empty_then_one "usgs-events" bin5 Effects.start)
     = Some (("usgs-events", "1800-1849", []), 1%nat,
             [Starting "usgs-events" "1800-1849";
              Completed "usgs-events" "1800-1849" 0]).
Proof.
  split; [| split; [reflexivity | vm_compute; reflexivity]].
  exists [empty_page], second_page, 1%nat, "page2".
  split; [reflexivity |]. split; [| split; reflexivity].
  eapply run_cons; [reflexivity | reflexivity | discriminate | apply run_nil].
Qed.

Lemma hazard_task_all_or_nothing_witness :
  (forall fuel, (1 < fuel)%nat ->
     exists st,
       Example5.fetch_counts_for_bin fuel page_then_down "usgs-events" bin5 Effects.start
       = Some (("usgs-events", Example5.label bin5, []), st)
       /\ received (trace st) = [first_page]
       /\ failures (trace st) = ["down"]
       /\ error_log (trace st) = []
       /\ sleeps (trace st) = []
       /\ sent st = 2%nat)
  /\ (forall fuel any_srv result st,
       Example5.fetch_counts_for_bin fuel any_srv "usgs-events" bin5 Effects.start
       = Some (result, st) ->
       error_log (trace st) = []
       /\ (snd result = []
           \/ (failures (trace st) = []
               /\ snd result = Example5.tally_pages [] (received (trace st))))).
Proof.
  apply (hazard_task_all_or_nothing page_then_down "usgs-events" bin5
           [first_page] 1 "page2" "down").
  - apply page_then_down_run.
  - apply first_page_nonempty.
  - reflexivity.
Defined.



Lemma no_totals_chain u : chain_at no_totals 2 u [first_page; second_page].
Proof.
  exists [first_page], second_page, 3%nat, "page2".
  split; [reflexivity |]. split; [| split; reflexivity].
  eapply run_cons; [reflexivity | reflexivity | discriminate | apply run_nil].
Defined.

Lemma count_mode_missing_total_witness :
  CountEventsByYear.fetch_count_for_bin (always (Json (page [] None)))
    "usgs-events" bin_years Effects.start
  = Some ({| CountEventsByYear.collection := "usgs-events";
             CountEventsByYear.time_period := CountEventsByYear.label bin_years;
             CountEventsByYear.event_count := CountEventsByYear.Counted 0 |},
          {| trace := [Print (Querying "usgs-events" (CountEventsByYear.label bin_years));
                       Get (CountEventsByYear.count_url "usgs-events" bin_years)
                           (Json (page [] None));
                       Print (WarnNoNumberMatched "usgs-events"
                                (CountEventsByYear.label bin_years));
                       Print (Completed "usgs-events"
                                (CountEventsByYear.label bin_years) 0)];
             sent := 1 |})
  /\ (forall any_srv, exists row st,
        CountEventsByYear.fetch_count_for_bin any_srv "usgs-events" bin_years
          Effects.start
        = Some (row, st)
        /\ requests (trace st) = [CountEventsByYear.count_url "usgs-events" bin_years])
  /\ (forall fuel, (2 < fuel)%nat ->
        exists st,
          CountEventsPerCollection.fetch_collection_count fuel no_totals "usgs-events"
            Effects.start
          = Some ({| CountEventsPerCollection.collection_id := "usgs-events";
                     CountEventsPerCollection.total_events :=
                       CountEventsPerCollection.Items
                         (items [first_page; second_page]) |}, st)
          /\ sent st = 4%nat
          /\ received (trace st)
             = [page [] None; page [] None; first_page; second_page]).
Proof.
  apply (count_mode_missing_total (always (Json (page [] None))) "usgs-events"
           bin_years (page [] None)
           no_totals "usgs-events" (page [] None) (page [] None)
           [first_page; second_page]).
  - reflexivity.
  - reflexivity.
  - reflexivity.
  - reflexivity.
  - reflexivity.
  - reflexivity.
  - apply no_totals_chain.
Defined.

(** C5 as stated fails for [fetch_collection_count]: without numberMatched
    it sends two more requests, pages through the items and returns their
    number, three, not zero. *)
Lemma missing_total_is_counted_manually :
  option_map (fun r => (CountEventsPerCollection.total_events (fst r),
                        requests (trace (snd r)), printed (trace (snd r))))
    (CountEventsPerCollection.fetch_collection_count 5 no_totals "usgs-events"
       Effects.start)
  = Some (CountEventsPerCollection.Items 3,
          [CountEventsPerCollection.collection_url "usgs-events";
           CountEventsPerCollection.items_url "usgs-events";
           CountEventsPerCollection.manual_url "usgs-events";
           "page2"],
          [NoSummary "usgs-events"; ManualCountStart "usgs-events";
           ManualCountFinished "usgs-events" 3]).
Proof. vm_compute. reflexivity. Qed.

Lemma labels_sort_chronologically_witness :
  (exists fuel0 bins,
     (forall fuel, (fuel0 <= fuel)%nat ->
        CountEventsByYear.generate_time_bins fuel Scenario.noon = Some bins)
     /\ Forall (fun b => Partition.year_label (CountEventsByYear.label b)
                           (CountEventsByYear.start b) (CountEventsByYear.end_ b)) bins
     /\ Text.sorted (map CountEventsByYear.label bins) = map CountEventsByYear.label bins
     /\ forall observed, incl observed (map CountEventsByYear.label bins) ->
          Text.sorted (Text.unique observed)
          = filter (fun l => Text.mem l observed) (map CountEventsByYear.label bins))
  /\ (exists fuel0 rs,
       (forall fuel, (fuel0 <= fuel)%nat ->
          Example5.generate_time_bins fuel Scenario.noon 1800 50
          = Some (map Partition.bin_of rs))
       /\ Forall (fun r => Partition.year_label (Example5.label (Partition.bin_of r))
                             (fst r) (snd r)) rs
       /\ Text.sorted (map Example5.label (map Partition.bin_of rs))
          = map Example5.label (map Partition.bin_of rs)
       /\ forall observed,
            incl observed (map Example5.label (map Partition.bin_of rs)) ->
            Text.sorted (Text.unique observed)
            = filter (fun l => Text.mem l observed)
                     (map Example5.label (map Partition.bin_of rs))).
Proof.
  apply (labels_sort_chronologically Scenario.noon 1800 50).
  - vm_compute. discriminate.
  - vm_compute. discriminate.
  - vm_compute. discriminate.
Defined.

End FetcherRuns.

(** ** What a computation adds to the trace *)

Section Emits.
Import Http Effects Kinds.

Variable P : Event -> bool.

Lemma emits_only_ret A (a : A) : emits_only P (ret a).
Proof.
  intros st a' st' H. injection H as <- <-. exists []. now rewrite app_nil_r.
Qed.

Lemma emits_only_diverge A : emits_only P (@diverge A).
Proof. intros st a st' H. discriminate. Qed.

Lemma emits_only_bind A B (m : M A) (k : A -> M B) :
  emits_only P m -> (forall a, emits_only P (k a)) -> emits_only P (bind m k).
Proof.
  intros Hm Hk st b st' H. unfold bind in H.
  destruct (m st) as [[a st1] |] eqn:E; [| discriminate].
  destruct (Hm _ _ _ E) as (new1 & T1 & F1).
  destruct (Hk a _ _ _ H) as (new2 & T2 & F2).
  exists (new1 ++ new2)%list. split.
  - now rewrite T2, T1, app_assoc.
  - now rewrite forallb_app, F1, F2.
Qed.

Lemma emits_only_emit e : P e = true -> emits_only P (emit e).
Proof.
  intros He st a st' H. injection H as <- <-. exists [e]. split; [reflexivity |].
  simpl. now rewrite He.
Qed.

Lemma emits_only_session_get srv url :
  (forall r, P (Get url r) = true) -> emits_only P (session_get srv url).
Proof.
  intros He st a st' H. injection H as <- <-. eexists. split; [reflexivity |].
  simpl. now rewrite He.
Qed.

Lemma emits_only_in_worker A (task : M A) :
  emits_only P task -> emits_only P (in_worker task).
Proof.
  intros Ht st a st' H. unfold in_worker in H.
  destruct (task start) as [[a' st1] |] eqn:E; [| discriminate].
  injection H as <- <-. destruct (Ht _ _ _ E) as (new & T & F).
  exists new. split; [| exact F]. cbn [trace] in *. now rewrite T.
Qed.

Lemma emits_only_for_each A (xs : list A) (body : A -> M unit) :
  (forall x, emits_only P (body x)) -> emits_only P (for_each xs body).
Proof.
  intro Hb. induction xs as [| x xs IH]; simpl.
  - apply emits_only_ret.
  - apply emits_only_bind; auto.
Qed.

End Emits.

Lemma emits_only_weaken (P Q : Effects.Event -> bool) A (m : Effects.M A) :
  (forall e, P e = true -> Q e = true) ->
  Kinds.emits_only P m -> Kinds.emits_only Q m.
Proof.
  intros HPQ Hm st a st' H. destruct (Hm _ _ _ H) as (new & T & F).
  exists new. split; [exact T |].
  rewrite forallb_forall in *. auto.
Qed.

(** A step of the proofs below: split a computation along its binds. *)
Ltac emits :=
  repeat match goal with
    | |- Kinds.emits_only _ (Effects.ret _) => apply emits_only_ret
    | |- Kinds.emits_only _ Effects.diverge => apply emits_only_diverge
    | |- Kinds.emits_only _ (Effects.emit _) => apply emits_only_emit; reflexivity
    | |- Kinds.emits_only _ (Effects.print _) => unfold Effects.print
    | |- Kinds.emits_only _ (Effects.sleep _) => unfold Effects.sleep
    | |- Kinds.emits_only _ (Effects.stop _) => unfold Effects.stop
    | |- Kinds.emits_only _ (Effects.session_get _ _) =>
        apply emits_only_session_get; intro; reflexivity
    | |- Kinds.emits_only _ (Effects.bind _ _) => apply emits_only_bind; [| intro]
    | |- Kinds.emits_only _ (Effects.for_each _ _) => apply emits_only_for_each; intro
    | |- Kinds.emits_only _ (Effects.in_worker _) => apply emits_only_in_worker
    | |- Kinds.emits_only _ (match ?x with _ => _ end) => destruct x
    | |- Kinds.emits_only _ (if ?b then _ else _) => destruct b
    end.

Section WorkerEvents.
Import Http Effects Kinds.

Lemma count_events_by_year_worker srv cid bin :
  emits_only worker_event (CountEventsByYear.fetch_count_for_bin srv cid bin).
Proof. unfold CountEventsByYear.fetch_count_for_bin. emits. Qed.



Lemma try_page_worker srv cid chunk_label url pc attempts :
  emits_only worker_event
    (Example3Optimized.try_page srv cid chunk_label url pc attempts).
Proof.
  induction attempts as [| a attempts IH]; cbn [Example3Optimized.try_page];
    unfold Example3Optimized.write_error_entry; emits. apply IH.
Qed.

Lemma fetch_pages_worker srv cid chunk_label fuel : forall url pc ti counter,
  emits_only worker_event
    (Example3Optimized.fetch_pages fuel srv cid chunk_label url pc ti counter).
Proof.
  induction fuel as [| fuel IH]; intros; cbn [Example3Optimized.fetch_pages].
  - emits.
  - destruct (truthy url); [| emits].
    apply emits_only_bind; [apply try_page_worker |].
    intros [data | entry |]; [apply IH | emits | apply IH].
Qed.

Lemma example3_worker fuel srv cid chunk :
  emits_only worker_event (Example3Optimized.fetch_time_chunk fuel srv cid chunk).
Proof.
  unfold Example3Optimized.fetch_time_chunk. emits. apply fetch_pages_worker.
Qed.

Lemma manual_pages_worker srv cid fuel : forall url item_count,
  emits_only worker_event
    (CountEventsPerCollection.count_pages fuel srv cid url item_count).
Proof.
  induction fuel as [| fuel IH]; intros; cbn [CountEventsPerCollection.count_pages];
    emits; apply IH.
Qed.

Lemma count_events_per_collection_worker fuel srv cid :
  emits_only worker_event
    (CountEventsPerCollection.fetch_collection_count fuel srv cid).
Proof.
  unfold CountEventsPerCollection.fetch_collection_count,
    CountEventsPerCollection.count_items_manually.
  emits; apply manual_pages_worker.
Qed.

End WorkerEvents.

(** ** The CSV of example_3_optimized *)

Section Csv.
Import Http Effects Kinds.

Lemma insert_desc_perm x l : Permutation (Py.insert_desc x l) (x :: l).
Proof.
  induction l as [| y l IH]; simpl; [reflexivity |].
  destruct (snd y <? snd x); [reflexivity |].
  rewrite IH. apply perm_swap.
Qed.

Lemma insert_desc_sorted x l :
  StronglySorted Py.by_count_desc l -> StronglySorted Py.by_count_desc (Py.insert_desc x l).
Proof.
  induction 1 as [| y l Hs IH Hy]; simpl; [repeat constructor |].
  destruct (snd y <? snd x) eqn:E.
  - apply Z.ltb_lt in E. constructor; [now constructor |].
    constructor; [unfold Py.by_count_desc; lia |].
    eapply Forall_impl; [| exact Hy]. unfold Py.by_count_desc. intros z Hz. lia.
  - apply Z.ltb_ge in E. constructor; [exact IH |].
    eapply Permutation_Forall; [symmetry; apply insert_desc_perm |].
    constructor; [exact E | exact Hy].
Qed.

Lemma most_common_from acc c :
  StronglySorted Py.by_count_desc acc ->
  StronglySorted Py.by_count_desc (fold_left (fun acc x => Py.insert_desc x acc) c acc)
  /\ Permutation (fold_left (fun acc x => Py.insert_desc x acc) c acc) (acc ++ c).
Proof.
  revert acc. induction c as [| x c IH]; intros acc Hs; simpl.
  - rewrite app_nil_r. auto.
  - destruct (IH (Py.insert_desc x acc) (insert_desc_sorted x acc Hs)) as [S Pm].
    split; [exact S |]. rewrite Pm, insert_desc_perm.
    change (x :: acc ++ c)%list with ((x :: acc) ++ c)%list.
    rewrite (Permutation_middle acc c x). reflexivity.
Qed.

(** [most_common] lists every entry of the counter once, counts falling. *)
Lemma most_common_sorted c :
  Sorted Py.by_count_desc (Py.most_common c) /\ Permutation (Py.most_common c) c.
Proof.
  destruct (most_common_from [] c (SSorted_nil _)) as [S Pm].
  split; [now apply StronglySorted_Sorted | exact Pm].
Qed.

Lemma forallb_In {A} (f : A -> bool) l x : forallb f l = true -> In x l -> f x = true.
Proof. rewrite forallb_forall. auto. Qed.

Lemma example3_gather_no_file fuel task_srv cid total done :
  forall counter errors completed,
    emits_only no_file_written
      (Example3Optimized.gather fuel task_srv cid total done counter errors completed).
Proof.
  induction done as [| chunk done IH]; intros; cbn [Example3Optimized.gather].
  - emits.
  - apply emits_only_bind.
    + apply emits_only_in_worker.
      apply (emits_only_weaken worker_event); [| apply example3_worker].
      intros e He. destruct e; try discriminate; reflexivity.
    + intros [chunk_counter error]. emits; apply IH.
Qed.

Lemma fetch_country_counts_no_file fuel now task_srv completion cid :
  emits_only no_file_written
    (Example3Optimized.fetch_country_counts_parallel fuel now task_srv completion cid).
Proof.
  unfold Example3Optimized.fetch_country_counts_parallel,
    Example3Optimized.get_collection_temporal_extent.
  emits; apply example3_gather_no_file.
Qed.

End Csv.

(** ** The pools *)

Section Pools.
Import Http Effects Pages Kinds.

Lemma for_each_emit A (xs : list A) (body : A -> M unit) (f : A -> Event) st :
  (forall x, body x = emit (f x)) ->
  for_each xs body st
  = Some (tt, {| trace := trace st ++ map f xs; sent := sent st |}).
Proof.
  intro Hb. revert st. induction xs as [| x xs IH]; intro st; simpl.
  - rewrite app_nil_r. now destruct st.
  - unfold bind. rewrite Hb. cbn [emit]. rewrite IH. cbn [trace sent].
    now rewrite <- app_assoc.
Qed.

Lemma in_worker_run A (task : M A) a st_task st :
  task Effects.start = Some (a, st_task) ->
  in_worker task st
  = Some (a, {| trace := trace st ++ trace st_task; sent := sent st |}).
Proof. intro H. unfold in_worker. now rewrite H. Qed.

Lemma emits_from_start P A (m : M A) a st :
  emits_only P m -> m Effects.start = Some (a, st) -> forallb P (trace st) = true.
Proof.
  intros Hm H. destruct (Hm _ _ _ H) as (new & T & F). now rewrite T.
Qed.

Lemma flat_map_all_nil A B (f : A -> list B) l :
  (forall x, In x l -> f x = []) -> flat_map f l = [].
Proof.
  induction l as [| x l IH]; intro H; simpl; [reflexivity |].
  rewrite (H x (or_introl eq_refl)), IH; [reflexivity |].
  intros y Hy. apply H. now right.
Qed.

Lemma flat_map_map A B C (g : A -> B) (f : B -> list C) l :
  flat_map f (map g l) = flat_map (fun x => f (g x)) l.
Proof. induction l as [| x l IH]; simpl; [reflexivity | now rewrite IH]. Qed.

Lemma flat_map_singletons A B (g : A -> B) l :
  flat_map (fun x => [g x]) l = map g l.
Proof. induction l as [| x l IH]; simpl; [reflexivity | now rewrite IH]. Qed.

Lemma worker_no_workbook t : forallb worker_event t = true -> workbooks t = [].
Proof.
  intro H. apply flat_map_all_nil. intros e He.
  rewrite forallb_forall in H. apply H in He.
  destruct e; try discriminate; reflexivity.
Qed.

(** The trace of a batch: the listing, the pool with its tasks, and what
    comes after the pool. *)
Lemma pool_projections (head : list Event) A (tasks : list A)
    (task_id : A -> string * string) (work post : list Event) (w : Z) :
  forallb quiet head = true ->
  forallb worker_event work = true ->
  pools post = [] -> submitted post = [] ->
  let t := (((head ++ PoolStart w
                      :: map (fun x => Submit (fst (task_id x)) (snd (task_id x))) tasks)
             ++ work) ++ post)%list in
  pools t = [w]
  /\ submitted t = map task_id tasks
  /\ workbooks t = workbooks post.
Proof.
  intros Hh Hw Pp Sp t. subst t.
  destruct (worker_no_pool _ Hw) as (Pw & Sw & _).
  pose proof (worker_no_workbook _ Hw) as Ww.
  destruct (worker_no_pool _ (quiet_worker _ Hh)) as (Ph & Sh & _).
  pose proof (worker_no_workbook _ (quiet_worker _ Hh)) as Wh.
  unfold pools, submitted, workbooks in *.
  rewrite !flat_map_app. cbn [flat_map].
  rewrite !flat_map_map. cbn [app].
  rewrite Pw, Sw, Ww, Ph, Sh, Wh, Pp, Sp.
  rewrite ?(flat_map_all_nil _ _ (fun _ : A => []) tasks) by reflexivity.
  cbn [app]. rewrite ?app_nil_r. cbn [app].
  split; [reflexivity |]. split; [| reflexivity].
  rewrite (flat_map_singletons _ _ (fun x => (fst (task_id x), snd (task_id x)))).
  apply map_ext. intro x. now destruct (task_id x).
Qed.

Lemma worker_no_uncaught t : forallb worker_event t = true -> uncaught t = [].
Proof.
  intro H. apply flat_map_all_nil. intros e He.
  rewrite forallb_forall in H. apply H in He.
  destruct e; try discriminate; reflexivity.
Qed.

(** Nothing before the end of the pool is left uncaught. *)
Lemma pool_uncaught (head : list Event) A (tasks : list A)
    (task_id : A -> string * string) (work post : list Event) (w : Z) :
  forallb quiet head = true ->
  forallb worker_event work = true ->
  uncaught ((((head ++ PoolStart w
                       :: map (fun x => Submit (fst (task_id x)) (snd (task_id x))) tasks)
              ++ work) ++ post)%list)
  = uncaught post.
Proof.
  intros Hh Hw. unfold uncaught. rewrite !flat_map_app. cbn [flat_map].
  rewrite flat_map_map.
  rewrite (flat_map_all_nil _ _ _ tasks) by reflexivity.
  fold (uncaught head) (uncaught work).
  rewrite (worker_no_uncaught _ Hw), (worker_no_uncaught _ (quiet_worker _ Hh)).
  reflexivity.
Qed.

Lemma export_uncaught file wb : uncaught (export_events file wb) = [].
Proof.
  unfold export_events, uncaught. rewrite flat_map_app. cbn [flat_map].
  rewrite flat_map_map. now rewrite (flat_map_all_nil _ _ _ wb) by reflexivity.
Qed.

Lemma worker_nothing_beyond t : forallb worker_event t = true -> not_modelled t = [].
Proof.
  intro H. apply flat_map_all_nil. intros e He.
  rewrite forallb_forall in H. apply H in He.
  destruct e; try discriminate; reflexivity.
Qed.

(** Nothing before the end of the pool is outside the model. *)
Lemma pool_nothing_beyond (head : list Event) A (tasks : list A)
    (task_id : A -> string * string) (work post : list Event) (w : Z) :
  forallb quiet head = true ->
  forallb worker_event work = true ->
  not_modelled ((((head ++ PoolStart w
                       :: map (fun x => Submit (fst (task_id x)) (snd (task_id x))) tasks)
                  ++ work) ++ post)%list)
  = not_modelled post.
Proof.
  intros Hh Hw. unfold not_modelled. rewrite !flat_map_app. cbn [flat_map].
  rewrite flat_map_map.
  rewrite (flat_map_all_nil _ _ _ tasks) by reflexivity.
  fold (not_modelled head) (not_modelled work).
  rewrite (worker_nothing_beyond _ Hw), (worker_nothing_beyond _ (quiet_worker _ Hh)).
  reflexivity.
Qed.

Lemma export_nothing_beyond file wb : not_modelled (export_events file wb) = [].
Proof.
  unfold export_events, not_modelled. rewrite flat_map_app. cbn [flat_map].
  rewrite flat_map_map. now rewrite (flat_map_all_nil _ _ _ wb) by reflexivity.
Qed.

Lemma export_projections file wb :
  pools (export_events file wb) = []
  /\ submitted (export_events file wb) = []
  /\ workbooks (export_events file wb) = [(file, wb)].
Proof.
  unfold export_events, pools, submitted, workbooks.
  rewrite !flat_map_app. cbn [flat_map]. rewrite !flat_map_map.
  rewrite ?(flat_map_all_nil _ _ (fun _ : Sheet => []) wb) by reflexivity.
  auto.
Qed.

(** *** count_events_by_year *)

Lemma fetch_count_returns srv cid bin :
  exists row st,
    CountEventsByYear.fetch_count_for_bin srv cid bin Effects.start = Some (row, st).
Proof.
  unfold CountEventsByYear.fetch_count_for_bin, Effects.start. run_effects.
  destruct (srv 0%nat (CountEventsByYear.count_url cid bin)) as [e | d];
    [| destruct (numberMatched d)]; run_effects; eexists _, _; reflexivity.
Qed.

Lemma count_events_by_year_gather task_srv done : forall st,
  exists rows work,
    CountEventsByYear.gather task_srv done st
    = Some (rows, {| trace := trace st ++ work; sent := sent st |})
    /\ Forall2 (fun t row => CountEventsByYear.task_row task_srv t = Some row) done rows
    /\ forallb worker_event work = true.
Proof.
  induction done as [| [cid bin] done IH]; intro st.
  - exists [], []. simpl. rewrite app_nil_r. destruct st. repeat split. constructor.
  - destruct (fetch_count_returns (task_srv cid (CountEventsByYear.label bin)) cid bin)
      as (row & st_task & Hrun).
    destruct (IH {| trace := trace st ++ trace st_task; sent := sent st |})
      as (rows & work & Hrest & Hall & Hwork).
    exists (row :: rows), (trace st_task ++ work)%list. split; [| split].
    + cbn [CountEventsByYear.gather]. unfold bind.
      rewrite (in_worker_run _ _ _ _ st Hrun), Hrest. cbn [ret trace sent].
      now rewrite <- app_assoc.
    + constructor; [| exact Hall].
      unfold CountEventsByYear.task_row. cbn [fst snd]. now rewrite Hrun.
    + rewrite forallb_app, Hwork.
      rewrite (emits_from_start _ _ _ _ _ (count_events_by_year_worker _ _ _) Hrun).
      reflexivity.
Qed.

Lemma not_counted_within_model rows :
  existsb CountEventsByYear.is_counted rows = false ->
  CountEventsByYear.within_model rows = true.
Proof.
  intro H.
  assert (Hnil : filter CountEventsByYear.is_counted rows = []).
  { induction rows as [| r rows IH]; [reflexivity |].
    cbn [existsb] in H. apply orb_false_elim in H. destruct H as [Hr Hrest].
    cbn [filter]. rewrite Hr. now apply IH. }
  unfold CountEventsByYear.within_model, CountEventsByYear.workbook.
  rewrite Hnil. reflexivity.
Qed.

Lemma count_events_by_year_export rows st :
  CountEventsByYear.workbook rows <> [] ->
  CountEventsByYear.within_model rows = true ->
  CountEventsByYear.export rows st
  = Some (tt,
          {| trace := trace st ++ export_events CountEventsByYear.OUTPUT_FILE
                                    (CountEventsByYear.workbook rows);
             sent := sent st |}).
Proof.
  intros Hne Hin. destruct rows as [| r rows]; [now destruct Hne |].
  unfold CountEventsByYear.export. rewrite Hin.
  unfold bind, print. cbn [emit].
  rewrite (for_each_emit _ _ _ (fun sheet => Print (CreatingSheet (sheet_name sheet))))
    by reflexivity.
  destruct (CountEventsByYear.workbook (r :: rows)) as [| sheet sheets] eqn:E;
    [now destruct Hne |].
  unfold emit, export_events. cbn [trace sent]. rewrite <- !app_assoc. reflexivity.
Qed.

Lemma count_events_by_year_export_empty rows st :
  rows <> [] ->
  CountEventsByYear.workbook rows = [] ->
  CountEventsByYear.export rows st
  = Some (tt,
          {| trace := trace st
                      ++ [Print (WritingExcel CountEventsByYear.OUTPUT_FILE);
                          Uncaught Frame.no_sheet_error];
             sent := sent st |}).
Proof.
  intros Hne Hnil. destruct rows as [| r rows]; [congruence |].
  unfold CountEventsByYear.export.
  rewrite (not_counted_within_model _ (proj1 (workbook_empty _) Hnil)), Hnil.
  unfold bind, print. cbn [emit for_each ret trace sent].
  unfold emit. cbn [trace sent]. rewrite <- !app_assoc. reflexivity.
Qed.

Lemma count_events_by_year_export_beyond rows st :
  rows <> [] ->
  CountEventsByYear.within_model rows = false ->
  CountEventsByYear.export rows st
  = Some (tt,
          {| trace := trace st
                      ++ [Print (WritingExcel CountEventsByYear.OUTPUT_FILE);
                          NotModelled Frame.beyond_to_excel];
             sent := sent st |}).
Proof.
  intros Hne Hout. destruct rows as [| r rows]; [congruence |].
  unfold CountEventsByYear.export. rewrite Hout.
  unfold bind, print. cbn [emit for_each ret trace sent].
  unfold emit. cbn [trace sent]. rewrite <- !app_assoc. reflexivity.
Qed.

Lemma make_tasks_nonempty (cs : list string) (bins : list CountEventsByYear.TimeBin) :
  cs <> [] -> bins <> [] -> CountEventsByYear.make_tasks cs bins <> [].
Proof.
  destruct cs as [| c cs]; [congruence |]. destruct bins as [| b bins]; [congruence |].
  discriminate.
Qed.

(** The run of [main] once the listing has arrived. *)
Lemma count_events_by_year_batch fuel now srv task_srv completion listing bins :
  srv 0%nat CountEventsByYear.listing_url = Json listing ->
  CountEventsByYear.event_collections_of listing <> [] ->
  CountEventsByYear.generate_time_bins fuel now = Some bins ->
  completion (CountEventsByYear.make_tasks
                (CountEventsByYear.event_collections_of listing) bins) <> [] ->
  let tasks := CountEventsByYear.make_tasks
                 (CountEventsByYear.event_collections_of listing) bins in
  exists st rows,
    CountEventsByYear.main fuel now srv task_srv completion Effects.start = Some (tt, st)
    /\ Forall2 (fun t row => CountEventsByYear.task_row task_srv t = Some row)
         (completion tasks) rows
    /\ pools (trace st) = [CountEventsByYear.MAX_WORKERS]
    /\ submitted (trace st)
       = map (fun t => (fst t, CountEventsByYear.label (snd t))) tasks
    /\ workbooks (trace st)
       = (if CountEventsByYear.within_model rows
             && existsb CountEventsByYear.is_counted rows
          then [(CountEventsByYear.OUTPUT_FILE, CountEventsByYear.workbook rows)]
          else [])
    /\ uncaught (trace st)
       = (if existsb CountEventsByYear.is_counted rows
          then []
          else [Frame.no_sheet_error])
    /\ not_modelled (trace st)
       = (if CountEventsByYear.within_model rows
          then []
          else [Frame.beyond_to_excel]).
Proof.
  intros Hsrv Hne Hbins Hdone tasks. subst tasks.
  remember (CountEventsByYear.event_collections_of listing) as ecs eqn:Eecs.
  remember (CountEventsByYear.make_tasks ecs bins) as tasks eqn:Etasks.
  set (st1 := {| trace := Print FetchingCollections
                          :: Get CountEventsByYear.listing_url (Json listing)
                          :: Print (FoundCollections ecs)
                          :: Print (GeneratedBins (Py.len bins))
                          :: PoolStart CountEventsByYear.MAX_WORKERS
                          :: map (fun t : string * CountEventsByYear.TimeBin =>
                                    Submit (fst t) (CountEventsByYear.label (snd t)))
                                 tasks;
                 sent := 1 |}).
  destruct (count_events_by_year_gather task_srv (completion tasks) st1)
    as (rows & work & Hg & Hall & Hwork).
  assert (Hrows : rows <> []).
  { intros ->. inversion Hall as [Hc |]. apply Hdone. symmetry. exact Hc. }
  assert (Hmain : CountEventsByYear.main fuel now srv task_srv completion Effects.start
                  = CountEventsByYear.export rows
                      {| trace := trace st1 ++ work; sent := sent st1 |}).
  { unfold CountEventsByYear.main, CountEventsByYear.get_event_collections,
      Effects.start.
    unfold bind at 1. unfold bind at 1. unfold print at 1. cbn [emit trace sent app].
    unfold bind at 1. cbn [session_get trace sent]. rewrite Hsrv.
    unfold bind at 1. unfold print at 1. cbn [emit ret trace sent app].
    rewrite <- Eecs.
    destruct ecs as [| c cs]; [congruence |].
    rewrite Hbins. unfold bind, print. cbn [emit trace sent].
    rewrite (for_each_emit _ _ _
               (fun t => Submit (fst t) (CountEventsByYear.label (snd t))))
      by reflexivity.
    cbn [trace sent app]. rewrite <- Etasks. fold st1.
    rewrite Hg. reflexivity. }
  set (head := [Print FetchingCollections;
                Get CountEventsByYear.listing_url (Json listing);
                Print (FoundCollections ecs);
                Print (GeneratedBins (Py.len bins))]).
  assert (Hshape : forall post,
             ((trace st1 ++ work) ++ post
              = ((head ++ PoolStart CountEventsByYear.MAX_WORKERS
                    :: map (fun x : string * CountEventsByYear.TimeBin =>
                              Submit (fst (fst x, CountEventsByYear.label (snd x)))
                                     (snd (fst x, CountEventsByYear.label (snd x))))
                           tasks)
                 ++ work) ++ post)%list).
  { intro post. subst st1 head. reflexivity. }
  assert (Hpool : forall post,
             pools post = [] -> submitted post = [] ->
             pools ((trace st1 ++ work) ++ post) = [CountEventsByYear.MAX_WORKERS]
             /\ submitted ((trace st1 ++ work) ++ post)
                = map (fun t => (fst t, CountEventsByYear.label (snd t))) tasks
             /\ workbooks ((trace st1 ++ work) ++ post) = workbooks post
             /\ uncaught ((trace st1 ++ work) ++ post) = uncaught post
             /\ not_modelled ((trace st1 ++ work) ++ post) = not_modelled post).
  { intros post Pp Sp. rewrite Hshape.
    rewrite (pool_uncaught head _ tasks
               (fun t => (fst t, CountEventsByYear.label (snd t))) work _ _
               eq_refl Hwork).
    rewrite (pool_nothing_beyond head _ tasks
               (fun t => (fst t, CountEventsByYear.label (snd t))) work _ _
               eq_refl Hwork).
    pose proof (pool_projections head _ tasks
                  (fun t => (fst t, CountEventsByYear.label (snd t))) work
                  post CountEventsByYear.MAX_WORKERS eq_refl Hwork Pp Sp) as Hp.
    cbv zeta in Hp. destruct Hp as (P1 & P2 & P3). auto. }
  destruct (CountEventsByYear.within_model rows) eqn:Ewithin;
    [destruct (existsb CountEventsByYear.is_counted rows) eqn:Ecounted |].
  - assert (Hwb : CountEventsByYear.workbook rows <> []).
    { intro Hnil. apply workbook_empty in Hnil. congruence. }
    eexists _, rows. split; [| split; [exact Hall |]].
    + rewrite Hmain. now apply count_events_by_year_export.
    + cbn [trace]. rewrite Ewithin, Ecounted. cbn [andb].
      destruct (export_projections CountEventsByYear.OUTPUT_FILE
                  (CountEventsByYear.workbook rows)) as (Pe & Se & We).
      destruct (Hpool _ Pe Se) as (P1 & P2 & P3 & P4 & P5).
      rewrite P1, P2, P3, P4, P5, We, export_uncaught, export_nothing_beyond.
      auto.
  - assert (Hwb : CountEventsByYear.workbook rows = [])
      by now apply workbook_empty.
    eexists _, rows. split; [| split; [exact Hall |]].
    + rewrite Hmain. now apply count_events_by_year_export_empty.
    + cbn [trace]. rewrite Ewithin, Ecounted. cbn [andb].
      destruct (Hpool [Print (WritingExcel CountEventsByYear.OUTPUT_FILE);
                       Uncaught Frame.no_sheet_error] eq_refl eq_refl)
        as (P1 & P2 & P3 & P4 & P5).
      rewrite P1, P2, P3, P4, P5. auto.
  - assert (Ecounted : existsb CountEventsByYear.is_counted rows = true).
    { destruct (existsb CountEventsByYear.is_counted rows) eqn:E; [reflexivity |].
      apply not_counted_within_model in E. congruence. }
    eexists _, rows. split; [| split; [exact Hall |]].
    + rewrite Hmain. now apply count_events_by_year_export_beyond.
    + cbn [trace]. rewrite Ewithin, Ecounted. cbn [andb].
      destruct (Hpool [Print (WritingExcel CountEventsByYear.OUTPUT_FILE);
                       NotModelled Frame.beyond_to_excel] eq_refl eq_refl)
        as (P1 & P2 & P3 & P4 & P5).
      rewrite P1, P2, P3, P4, P5. auto.
Qed.

(** *** example_5 *)






(** *** A listing that fails *)

Lemma count_events_by_year_abort fuel now srv task_srv completion e :
  srv 0%nat CountEventsByYear.listing_url = RequestException e ->
  CountEventsByYear.main fuel now srv task_srv completion Effects.start
  = Some (tt, {| trace := [Print FetchingCollections;
                          Get CountEventsByYear.listing_url (RequestException e);
                          Print (Fatal e)];
                sent := 1 |}).
Proof.
  intro Hsrv. unfold CountEventsByYear.main, CountEventsByYear.get_event_collections,
    Effects.start.
  unfold bind at 1. unfold bind at 1. unfold print at 1. cbn [emit trace sent app].
  unfold bind at 1. cbn [session_get trace sent]. rewrite Hsrv.
  unfold bind, print. cbn [emit ret trace sent app]. reflexivity.
Qed.

Lemma example5_abort fuel now srv task_srv completion e :
  srv 0%nat Example5.first_listing_url = RequestException e ->
  Example5.main (S fuel) now srv task_srv completion Effects.start
  = Some (tt, {| trace := [Print FetchingCollections; Print (CollectionsPage 1);
                          Get Example5.first_listing_url (RequestException e);
                          Print (Fatal e)];
                sent := 1 |}).
Proof.
  intro Hsrv. unfold Example5.main, Example5.get_hazard_collections, Effects.start.
  unfold bind at 1. unfold bind at 1. unfold print at 1. cbn [emit trace sent app].
  unfold bind at 1. cbn [Example5.listing_pages].
  change (truthy (Some Example5.listing_url)) with true. cbn iota.
  unfold bind at 1. unfold print at 1. cbn [emit trace sent app].
  unfold bind at 1. cbn [session_get trace sent].
  change (url_text (Some Example5.listing_url) ++ "?limit=100")
    with Example5.first_listing_url.
  rewrite Hsrv. unfold bind, print. cbn [emit ret trace sent app]. reflexivity.
Qed.

Lemma count_events_per_collection_abort fuel srv task_srv completion e :
  srv 0%nat CountEventsPerCollection.listing_url = RequestException e ->
  CountEventsPerCollection.main fuel srv task_srv completion Effects.start
  = Some (tt, {| trace := [Print FetchingCollections;
                          Get CountEventsPerCollection.listing_url (RequestException e);
                          Print (Fatal e); Print NoCollections];
                sent := 1 |}).
Proof.
  intro Hsrv. unfold CountEventsPerCollection.main,
    CountEventsPerCollection.get_all_collections, Effects.start.
  unfold bind at 1. unfold print at 1. cbn [emit trace sent app].
  unfold bind at 1. unfold bind at 1. cbn [session_get trace sent]. rewrite Hsrv.
  unfold bind, print. cbn [emit ret trace sent app]. reflexivity.
Qed.

End Pools.

(** ** Listing failures and task failures *)

Section Batches.
Import Http Effects Pages Kinds.



Lemma generate_time_bins_nonempty fuel now bins :
  CountEventsByYear.generate_time_bins fuel now = Some bins -> bins <> [].
Proof.
  unfold CountEventsByYear.generate_time_bins.
  change (fold_left _ (Py.range 1600 1800 100) [])
    with [CountEventsByYear.make_bin 1600 1699; CountEventsByYear.make_bin 1700 1799].
  rewrite fifty_year_bins_acc.
  destruct (CountEventsByYear.fifty_year_bins fuel _ _ []); simpl; [| discriminate].
  intro H. injection H as <-. discriminate.
Qed.

Lemma failed_count_row task_srv t e :
  task_srv (fst t) (CountEventsByYear.label (snd t)) 0%nat
    (CountEventsByYear.count_url (fst t) (snd t)) = RequestException e ->
  CountEventsByYear.task_row task_srv t
  = Some {| CountEventsByYear.collection := fst t;
            CountEventsByYear.time_period := CountEventsByYear.label (snd t);
            CountEventsByYear.event_count := CountEventsByYear.Error |}.
Proof.
  intro H. unfold CountEventsByYear.task_row, CountEventsByYear.fetch_count_for_bin,
    Effects.start.
  unfold bind at 1. unfold print at 1. cbn [emit trace sent app].
  unfold bind at 1. cbn [session_get trace sent]. rewrite H.
  reflexivity.
Qed.


Lemma make_tasks_In A B (cs : list A) (bins : list B) c b :
  In (c, b) (flat_map (fun c => map (fun b => (c, b)) bins) cs) <-> In c cs /\ In b bins.
Proof.
  rewrite in_flat_map. split.
  - intros (c' & Hc & Hin). apply in_map_iff in Hin. destruct Hin as (b' & E & Hb).
    injection E as -> ->. auto.
  - intros [Hc Hb]. exists c. split; [exact Hc |]. apply in_map_iff. now exists b.
Qed.

Lemma make_tasks_length A B (cs : list A) (bins : list B) :
  List.length (flat_map (fun c => map (fun b => (c, b)) bins) cs)
  = (List.length cs * List.length bins)%nat.
Proof.
  induction cs as [| c cs IH]; [reflexivity |].
  cbn [flat_map]. rewrite length_app, length_map, IH. reflexivity.
Qed.




(** When the request for the list of collections fails, [main] of each of
    the three scripts returns after that one request: no pool is started,
    no task is submitted, no file is written and nothing is left
    uncaught. *)
Theorem listing_failure_ends_the_run
    (fuel : nat) (now : Calendar.datetime) (down : Server) (e : string) :
  (forall u, down 0%nat u = RequestException e) ->
  (forall task_srv completion, exists st,
     CountEventsByYear.main fuel now down task_srv completion Effects.start
     = Some (tt, st)
     /\ requests (trace st) = [CountEventsByYear.listing_url]
     /\ pools (trace st) = [] /\ submitted (trace st) = []
     /\ files_written (trace st) = [] /\ uncaught (trace st) = []
     /\ not_modelled (trace st) = [])
  /\ (forall task_srv completion, exists st,
       Example5.main (S fuel) now down task_srv completion Effects.start
       = Some (tt, st)
       /\ requests (trace st) = [Example5.first_listing_url]
       /\ pools (trace st) = [] /\ submitted (trace st) = []
       /\ files_written (trace st) = [] /\ uncaught (trace st) = []
       /\ not_modelled (trace st) = [])
  /\ (forall task_srv completion, exists st,
       CountEventsPerCollection.main fuel down task_srv completion Effects.start
       = Some (tt, st)
       /\ requests (trace st) = [CountEventsPerCollection.listing_url]
       /\ pools (trace st) = [] /\ submitted (trace st) = []
       /\ files_written (trace st) = [] /\ uncaught (trace st) = []
       /\ not_modelled (trace st) = []
       /\ Printed.tables (trace st) = []).
Proof.
  intro Hdown. split; [| split].
  - intros task_srv completion. eexists.
    split; [apply count_events_by_year_abort; apply Hdown |]. repeat split.
  - intros task_srv completion. eexists.
    split; [apply example5_abort; apply Hdown |]. repeat split.
  - intros task_srv completion. eexists.
    split; [apply count_events_per_collection_abort; apply Hdown |]. repeat split.
Qed.



End Batches.

Section BatchRuns.
Import Http Effects Pages Kinds Mock.

Lemma listing_failure_ends_the_run_witness :
  (forall task_srv completion, exists st,
     CountEventsByYear.main 11 Scenario.noon (always (RequestException "down"))
       task_srv completion Effects.start
     = Some (tt, st)
     /\ requests (trace st) = [CountEventsByYear.listing_url]
     /\ pools (trace st) = [] /\ submitted (trace st) = []
     /\ files_written (trace st) = [] /\ uncaught (trace st) = []
     /\ not_modelled (trace st) = [])
  /\ (forall task_srv completion, exists st,
       Example5.main 12 Scenario.noon (always (RequestException "down"))
         task_srv completion Effects.start
       = Some (tt, st)
       /\ requests (trace st) = [Example5.first_listing_url]
       /\ pools (trace st) = [] /\ submitted (trace st) = []
       /\ files_written (trace st) = [] /\ uncaught (trace st) = []
       /\ not_modelled (trace st) = [])
  /\ (forall task_srv completion, exists st,
       CountEventsPerCollection.main 11 (always (RequestException "down"))
         task_srv completion Effects.start
       = Some (tt, st)
       /\ requests (trace st) = [CountEventsPerCollection.listing_url]
       /\ pools (trace st) = [] /\ submitted (trace st) = []
       /\ files_written (trace st) = [] /\ uncaught (trace st) = []
       /\ not_modelled (trace st) = []
       /\ Printed.tables (trace st) = []).
Proof.
  exact (listing_failure_ends_the_run 11 Scenario.noon
           (always (RequestException "down")) "down" (fun u => eq_refl)).
Defined.



(** C7, on an input where the code departs from it: on 4 November 2026
    the listing arrives with one event collection and every count request
    fails.  count_events_by_year submits and runs its seven tasks, each
    gives an error row, and the run then ends with the error of the
    Excel writer, which was given no sheet, left uncaught: [all_results]
    is not empty, so the check before the export does not stop the run,
    and the frame is empty once the error rows are dropped.  No file is
    written.  example_5, where a failed task gives no row, prints that no
    data was fetched and returns. *)
Lemma all_count_tasks_failing_ends_in_an_uncaught_error :
  (exists st,
     CountEventsByYear.main 12 Scenario.noon (always (Json listing)) all_down
       (fun tasks => tasks) Effects.start
     = Some (tt, st)
     /\ pools (trace st) = [CountEventsByYear.MAX_WORKERS]
     /\ submitted (trace st)
        = map (fun l => ("usgs-events", l))
            ["1600-1699"; "1700-1799"; "1800-1849"; "1850-1899"; "1900-1949";
             "1950-1999"; "2000-2026"]
     /\ List.length (requests (trace st)) = 8%nat
     /\ filter (fun l => match l with TaskError _ _ _ => true | _ => false end)
          (printed (trace st))
        = map (fun l => TaskError "usgs-events" l "timeout")
            ["1600-1699"; "1700-1799"; "1800-1849"; "1850-1899"; "1900-1949";
             "1950-1999"; "2000-2026"]
     /\ In (Print (WritingExcel CountEventsByYear.OUTPUT_FILE)) (trace st)
     /\ files_written (trace st) = []
     /\ uncaught (trace st) = [Frame.no_sheet_error]
     /\ not_modelled (trace st) = [])
  /\ (exists st,
        Example5.main 12 Scenario.noon (always (Json listing)) all_down
          (fun tasks => tasks) Effects.start
        = Some (tt, st)
        /\ pools (trace st) = [Example5.MAX_WORKERS]
        /\ List.length (submitted (trace st)) = 5%nat
        /\ last (trace st) (Print Added) = Print NoData
        /\ files_written (trace st) = []
        /\ uncaught (trace st) = []
        /\ not_modelled (trace st) = []).
Proof.
  split; eexists; (split; [vm_compute; reflexivity |]); vm_compute; intuition.
Qed.

End BatchRuns.

(** ** The pivoted tables *)

Section Pivots.
Import Http Effects.

(** *** count_events_by_year *)

Lemma count_pivot_shape rows sheet :
  In sheet (CountEventsByYear.workbook rows) ->
  exists c,
    In c (map CountEventsByYear.collection (filter CountEventsByYear.is_counted rows))
    /\ sheet = CountEventsByYear.pivot (filter CountEventsByYear.is_counted rows)
                 (Text.sorted (Text.unique
                    (map CountEventsByYear.time_period
                       (filter CountEventsByYear.is_counted rows)))) c.
Proof.
  unfold CountEventsByYear.workbook. intro H. apply in_map_iff in H.
  destruct H as (c & <- & Hc). exists c. split; [| reflexivity].
  exact (proj1 (sorted_unique_In _ _) Hc).
Qed.

(** *** example_5 *)

Lemma hazard_pivot_shape rows sheet :
  In sheet (Example5.workbook rows) ->
  exists c,
    In c (map Example5.collection rows)
    /\ sheet = Example5.pivot rows
                 (Text.sorted (Text.unique (map Example5.time_period rows))) c.
Proof.
  unfold Example5.workbook. intro H. apply in_map_iff in H.
  destruct H as (c & <- & Hc). exists c. split; [| reflexivity].
  exact (proj1 (unique_In _ _) Hc).
Qed.


Lemma hazard_pivot_rectangular df periods c :
  Tables.rectangular (Example5.pivot df periods c).
Proof.
  unfold Tables.rectangular. cbn [Example5.pivot rows columns].
  apply Forall_forall. intros cells H. apply in_map_iff in H.
  destruct H as (code & <- & _). apply length_map.
Qed.

(** The sheets of the two pivoting scripts, as they are handed to the
    Excel writer ([workbook]).  A sheet has one column for each period that
    occurs in the rows kept (for count_events_by_year the rows whose count
    is not an error, zero counts included; for example_5 the rows of the
    hazard codes tallied), in the chronological order of the bin labels and
    not in the order in which the rows arrived; every row of a sheet has a
    cell in every column, and the cell is zero where no row of the
    collection (and hazard code) has the period.  Every collection of a
    kept row has its sheet among those handed over, also when all its
    counts are zero, and every hazard code of a row its line.  A period
    that occurs in no kept row has no column. *)
Theorem pivot_cells_zero_filled
    (labels : list string)
    (rows_y : list CountEventsByYear.Row) (rows_5 : list Example5.Row) :
  StronglySorted Text.str_lt labels ->
  incl (Tables.counted_periods rows_y) labels ->
  incl (Tables.hazard_periods rows_5) labels ->
  (* count_events_by_year *)
  (forall sheet, In sheet (CountEventsByYear.workbook rows_y) ->
     columns sheet = Tables.observed_of labels (Tables.counted_periods rows_y)
     /\ Tables.rectangular sheet
     /\ List.length (rows sheet) = 1%nat
     /\ forall k period,
          nth_error (columns sheet) k = Some period ->
          (forall row, In row rows_y ->
             CountEventsByYear.is_counted row = true ->
             CountEventsByYear.collection row = sheet_name sheet ->
             CountEventsByYear.time_period row <> period) ->
          Tables.cell_at sheet 0 k = Some 0%Q)
  /\ (forall row, In row rows_y ->
        CountEventsByYear.is_counted row = true ->
        exists sheet,
          In sheet (CountEventsByYear.workbook rows_y)
          /\ sheet_name sheet = CountEventsByYear.collection row
          /\ In (CountEventsByYear.time_period row) (columns sheet))
  (* example_5 *)
  /\ (forall sheet, In sheet (Example5.workbook rows_5) ->
        columns sheet = Tables.observed_of labels (Tables.hazard_periods rows_5)
        /\ Tables.rectangular sheet
        /\ exists codes,
             index sheet = Some codes
             /\ List.length (rows sheet) = List.length codes
             /\ forall i k code period,
                  nth_error codes i = Some code ->
                  nth_error (columns sheet) k = Some period ->
                  (forall row, In row rows_5 ->
                     Example5.collection row = sheet_name sheet ->
                     Example5.hazard_code row = code ->
                     Example5.time_period row <> period) ->
                  Tables.cell_at sheet i k = Some 0%Q)
  /\ (forall row, In row rows_5 ->
        exists sheet codes,
          In sheet (Example5.workbook rows_5)
          /\ sheet_name sheet = Example5.collection row
          /\ index sheet = Some codes
          /\ In (Example5.hazard_code row) codes
          /\ In (Example5.time_period row) (columns sheet))
  /\ (forall sheet period,
        In sheet (CountEventsByYear.workbook rows_y) ->
        ~ In period (Tables.counted_periods rows_y) ->
        ~ In period (columns sheet))
  /\ (forall sheet period,
        In sheet (Example5.workbook rows_5) ->
        ~ In period (Tables.hazard_periods rows_5) ->
        ~ In period (columns sheet)).
Proof.
  intros Hsorted Hy H5.
  assert (Ecols_y : Text.sorted (Text.unique (Tables.counted_periods rows_y))
                    = Tables.observed_of labels (Tables.counted_periods rows_y))
    by now apply sorted_unique_filter.
  assert (Ecols_5 : Text.sorted (Text.unique (Tables.hazard_periods rows_5))
                    = Tables.observed_of labels (Tables.hazard_periods rows_5))
    by now apply sorted_unique_filter.
  split; [| split; [| split; [| split; [| split]]]].
  - intros sheet Hsheet. apply count_pivot_shape in Hsheet.
    destruct Hsheet as (c & Hc & ->). fold (Tables.counted_periods rows_y).
    split; [exact Ecols_y |]. split; [| split; [reflexivity |]].
    + unfold Tables.rectangular. cbn [CountEventsByYear.pivot rows columns].
      constructor; [apply length_map | constructor].
    + intros k period Hk Hnone. unfold Tables.cell_at.
      cbn [CountEventsByYear.pivot rows nth_error].
      cbn [CountEventsByYear.pivot columns] in Hk.
      rewrite (nth_error_map_some _ _ _ _ _ _ Hk).
      rewrite filter_nil; [reflexivity |].
      intros row Hrow. apply filter_In in Hrow. destruct Hrow as [Hin Ec].
      apply filter_In in Hin. destruct Hin as [Hin Hcounted].
      apply String.eqb_eq in Ec. apply String.eqb_neq.
      now apply Hnone.
  - intros row Hrow Hcounted.
    exists (CountEventsByYear.pivot (filter CountEventsByYear.is_counted rows_y)
              (Text.sorted (Text.unique (Tables.counted_periods rows_y)))
              (CountEventsByYear.collection row)).
    split; [| split; [reflexivity |]].
    + unfold CountEventsByYear.workbook. apply in_map.
      apply sorted_unique_In. apply in_map. apply filter_In. now split.
    + cbn [CountEventsByYear.pivot columns]. apply sorted_unique_In.
      unfold Tables.counted_periods. apply in_map. apply filter_In. now split.
  - intros sheet Hsheet. apply hazard_pivot_shape in Hsheet.
    destruct Hsheet as (c & Hc & ->). fold (Tables.hazard_periods rows_5).
    split; [exact Ecols_5 |]. split; [apply hazard_pivot_rectangular |].
    eexists. split; [reflexivity |]. split.
    + cbn [Example5.pivot rows]. apply length_map.
    + intros i k code period Hi Hk Hnone. unfold Tables.cell_at.
      cbn [Example5.pivot rows]. cbn [Example5.pivot columns] in Hk.
      rewrite (nth_error_map_some _ _ _ _ _ _ Hi).
      rewrite (nth_error_map_some _ _ _ _ _ _ Hk).
      rewrite filter_nil; [reflexivity |].
      intros row Hrow. apply filter_In in Hrow. destruct Hrow as [Hin Ec].
      apply String.eqb_eq in Ec. apply andb_false_iff.
      destruct (String.eqb_spec (Example5.hazard_code row) code) as [E | E];
        [right | now left].
      apply String.eqb_neq. now apply Hnone.
  - intros row Hrow.
    exists (Example5.pivot rows_5
              (Text.sorted (Text.unique (Tables.hazard_periods rows_5)))
              (Example5.collection row)).
    eexists. split; [| split; [reflexivity | split; [reflexivity | split]]].
    + unfold Example5.workbook. apply in_map. apply unique_In. now apply in_map.
    + apply sorted_unique_In. apply in_map. apply filter_In.
      split; [assumption | apply String.eqb_refl].
    + cbn [Example5.pivot columns]. apply sorted_unique_In.
      unfold Tables.hazard_periods. now apply in_map.
  - intros sheet period Hsheet Hnot Hin. apply count_pivot_shape in Hsheet.
    destruct Hsheet as (c & _ & ->). cbn [CountEventsByYear.pivot columns] in Hin.
    exact (Hnot (proj1 (sorted_unique_In _ _) Hin)).
  - intros sheet period Hsheet Hnot Hin. apply hazard_pivot_shape in Hsheet.
    destruct Hsheet as (c & _ & ->). cbn [Example5.pivot columns] in Hin.
    exact (Hnot (proj1 (sorted_unique_In _ _) Hin)).
Qed.


Lemma pivot_cells_zero_filled_witness :
  StronglySorted Text.str_lt MockTables.labels
  /\ (forall sheet, In sheet (CountEventsByYear.workbook MockTables.rows_y) ->
        columns sheet = ["1800-1849"; "1850-1899"]
        /\ Tables.rectangular sheet
        /\ List.length (rows sheet) = 1%nat)
  /\ (forall sheet, In sheet (Example5.workbook MockTables.rows_5) ->
        columns sheet = ["1800-1849"; "1850-1899"]
        /\ Tables.rectangular sheet).
Proof.
  assert (Hs : StronglySorted Text.str_lt MockTables.labels)
    by (repeat constructor).
  assert (Hy : incl (Tables.counted_periods MockTables.rows_y) MockTables.labels)
    by (intros x Hx; vm_compute in Hx; vm_compute; tauto).
  assert (H5 : incl (Tables.hazard_periods MockTables.rows_5) MockTables.labels)
    by (intros x Hx; vm_compute in Hx; vm_compute; tauto).
  destruct (pivot_cells_zero_filled MockTables.labels MockTables.rows_y
              MockTables.rows_5 Hs Hy H5) as (Sy & _ & S5 & _).
  split; [exact Hs | split].
  - intros sheet Hsheet. destruct (Sy sheet Hsheet) as (Ec & Hr & Hl & _).
    split; [rewrite Ec; reflexivity | now split].
  - intros sheet Hsheet. destruct (S5 sheet Hsheet) as (Ec & Hr & _).
    split; [rewrite Ec; reflexivity | exact Hr].
Defined.

(** C3, on an input where the code departs from it: example_5 on 4
    November 2026, with one hazard collection; the bins 1800-1849,
    1950-1999 and 2000-2026 were queried and had no events, and the bin
    1900-1949 failed.  The sheet written has the single column 1850-1899:
    a period without data is an absent column and not a column of zeros.
    The columns are reindexed (its comment: so that all time periods are
    present as columns), but over the periods of the rows of the frame,
    and a bin without a hazard code gave no row. *)
Lemma period_without_data_has_no_column :
  Example5.generate_time_bins 12 (Calendar.make 2026 11 4 12 0 0)
    Example5.START_YEAR Example5.INTERVAL_YEARS = Some Mock.bins_5
  /\ map Example5.label Mock.bins_5
     = ["1800-1849"; "1850-1899"; "1900-1949"; "1950-1999"; "2000-2026"]
  /\ submitted (Mock.trace_of MockTables.hazard_run)
     = map (fun l => ("usgs-events", l)) (map Example5.label Mock.bins_5)
  /\ Tables.sheets_written (Mock.trace_of MockTables.hazard_run)
     = [ {| sheet_name := "usgs-events";
            index := Some ["CA"; "MX"; "US"];
            columns := ["1850-1899"];
            rows := [[1%Q]; [1%Q]; [2%Q]] |} ].
Proof. vm_compute. repeat split. Qed.

End Pivots.

(** ** Counters and tallies *)

Section Counters.
Import Http Tally.

Lemma counter_get_add k n c key :
  Py.counter_get (Py.counter_add k n c) key
  = if String.eqb key k then Py.counter_get c key + n else Py.counter_get c key.
Proof.
  induction c as [| [k0 v] c IH]; simpl.
  - destruct (String.eqb key k); lia.
  - destruct (String.eqb_spec k k0) as [-> | Hk]; simpl.
    + destruct (String.eqb_spec key k0); reflexivity.
    + rewrite IH. destruct (String.eqb_spec key k0) as [-> | Hkey]; [| reflexivity].
      destruct (String.eqb_spec k0 k); [congruence | reflexivity].
Qed.

Lemma occurrences_cons key e elems :
  occurrences key (e :: elems)
  = (if String.eqb key e then 1 else 0) + occurrences key elems.
Proof.
  unfold occurrences, Py.len. cbn [filter].
  destruct (String.eqb key e); cbn [List.length]; lia.
Qed.

Lemma occurrences_app key l1 l2 :
  occurrences key (l1 ++ l2) = occurrences key l1 + occurrences key l2.
Proof.
  unfold occurrences, Py.len. rewrite filter_app, length_app. lia.
Qed.

Lemma occurrences_nonneg key elems : 0 <= occurrences key elems.
Proof. unfold occurrences, Py.len. lia. Qed.

Lemma counter_get_update elems : forall c key,
  Py.counter_get (Py.counter_update c elems) key
  = Py.counter_get c key + occurrences key elems.
Proof.
  unfold Py.counter_update.
  induction elems as [| e elems IH]; intros c key; simpl.
  - unfold occurrences, Py.len. simpl. lia.
  - rewrite IH, counter_get_add, occurrences_cons.
    destruct (String.eqb key e); lia.
Qed.

(** The tally of a list of features, for either kind of code. *)
Lemma counter_get_tally (codes : Feature -> list string) features : forall c key,
  Py.counter_get
    (fold_left (fun counter feature => Py.counter_update counter (codes feature))
               features c) key
  = Py.counter_get c key + occurrences key (flat_map codes features).
Proof.
  induction features as [| f features IH]; intros c key; simpl.
  - unfold occurrences, Py.len. simpl. lia.
  - rewrite IH, counter_get_update, occurrences_app. lia.
Qed.

Lemma keys_add k n c :
  keys (Py.counter_add k n c)
  = if Text.mem k (keys c) then keys c else (keys c ++ [k])%list.
Proof.
  unfold keys, Text.mem. induction c as [| [k0 v] c IH]; simpl; [reflexivity |].
  destruct (String.eqb k k0); simpl; [reflexivity |].
  rewrite IH. now destruct (existsb (String.eqb k) (map fst c)).
Qed.

Lemma well_formed_nil : well_formed [].
Proof. split; constructor. Qed.

Lemma well_formed_add k n c : 1 <= n -> well_formed c -> well_formed (Py.counter_add k n c).
Proof.
  intros Hn [Hk Hv]. split.
  - rewrite keys_add. destruct (Text.mem k (keys c)) eqn:E; [exact Hk |].
    apply NoDup_app; [exact Hk | repeat constructor; intros [] |].
    intros x Hx [Ex | []]. subst x.
    assert (Text.mem k (keys c) = true) by (apply existsb_exists; exists k;
      split; [exact Hx | apply String.eqb_refl]).
    congruence.
  - clear Hk. induction c as [| [k0 v] c IH]; simpl.
    + repeat constructor. exact Hn.
    + inversion Hv as [| ? ? Hv0 Hv']; subst. simpl in Hv0.
      destruct (String.eqb k k0); constructor; simpl; auto; lia.
Qed.

Lemma well_formed_update elems : forall c,
  well_formed c -> well_formed (Py.counter_update c elems).
Proof.
  unfold Py.counter_update. induction elems as [| e elems IH]; intros c Hc; simpl.
  - exact Hc.
  - apply IH. apply well_formed_add; [lia | exact Hc].
Qed.

Lemma well_formed_tally (codes : Feature -> list string) features : forall c,
  well_formed c ->
  well_formed (fold_left (fun counter feature => Py.counter_update counter (codes feature))
                         features c).
Proof.
  induction features as [| f features IH]; intros c Hc; simpl; [exact Hc |].
  apply IH. now apply well_formed_update.
Qed.

Lemma counter_get_missing c key : ~ In key (keys c) -> Py.counter_get c key = 0.
Proof.
  induction c as [| [k v] c IH]; simpl; intro H; [reflexivity |].
  destruct (String.eqb_spec key k) as [-> | Hk]; [destruct H; now left |].
  apply IH. intro Hin. apply H. now right.
Qed.

Lemma counter_get_merge other : forall c key,
  NoDup (keys other) ->
  Py.counter_get (Py.counter_merge c other) key
  = Py.counter_get c key + Py.counter_get other key.
Proof.
  unfold Py.counter_merge.
  induction other as [| [k v] other IH]; intros c key Hk; simpl; [lia |].
  inversion Hk as [| ? ? Hnot Hk']; subst.
  rewrite IH by exact Hk'. rewrite counter_get_add.
  destruct (String.eqb_spec key k) as [-> | Hne]; [| reflexivity].
  rewrite (counter_get_missing other k Hnot). lia.
Qed.

Lemma well_formed_merge other : forall c,
  well_formed c -> Forall (fun kv => 1 <= snd kv) other ->
  well_formed (Py.counter_merge c other).
Proof.
  unfold Py.counter_merge.
  induction other as [| [k v] other IH]; intros c Hc Hv; simpl; [exact Hc |].
  inversion Hv as [| ? ? Hv0 Hv']; subst.
  apply IH; [| exact Hv']. now apply well_formed_add.
Qed.

Lemma tally_pages_country pages : forall c,
  Example3Optimized.tally_pages c pages
  = fold_left (fun counter feature =>
                 Py.counter_update counter (Py.get (country_codes feature) []))
              (flat_map (fun data => Py.get (features data) []) pages) c.
Proof.
  unfold Example3Optimized.tally_pages, Example3Optimized.tally.
  induction pages as [| p pages IH]; intro c; simpl; [reflexivity |].
  now rewrite IH, fold_left_app.
Qed.

Lemma tally_pages_hazard pages : forall c,
  Example5.tally_pages c pages
  = fold_left (fun counter feature =>
                 Py.counter_update counter (Py.get (hazard_codes feature) []))
              (flat_map (fun data => Py.get (features data) []) pages) c.
Proof.
  unfold Example5.tally_pages, Example5.tally.
  induction pages as [| p pages IH]; intro c; simpl; [reflexivity |].
  now rewrite IH, fold_left_app.
Qed.

Lemma flat_map_flat_map A B C (f : A -> list B) (g : B -> list C) l :
  flat_map g (flat_map f l) = flat_map (fun x => flat_map g (f x)) l.
Proof.
  induction l as [| x l IH]; simpl; [reflexivity |].
  now rewrite flat_map_app, IH.
Qed.

(** The tally of a task counts every code as often as it occurs in the
    features of the pages fetched: the count of a code in the counter of
    [fetch_time_chunk] (country codes) or of [fetch_counts_for_bin] (hazard
    codes) is the number of its occurrences, a feature without the property
    counting for nothing. *)
Theorem tally_counts_every_occurrence (pages : list Body) (code : string) :
  Py.counter_get (Example3Optimized.tally_pages [] pages) code
  = occurrences code (country_codes_of pages)
  /\ Py.counter_get (Example5.tally_pages [] pages) code
     = occurrences code (hazard_codes_of pages).
Proof.
  split.
  - rewrite tally_pages_country, counter_get_tally. unfold country_codes_of.
    now rewrite flat_map_flat_map.
  - rewrite tally_pages_hazard, counter_get_tally. unfold hazard_codes_of.
    now rewrite flat_map_flat_map.
Qed.

(** A tally holds every code once, with a count of at least one; so the
    rows that [main] of example_5 makes of the tally of a task have distinct
    hazard codes and positive counts, and a zero in a sheet of example_5 is
    always a filled cell. *)
Theorem tally_keys_distinct_counts_positive
    (pages : list Body) (collection_id bin_label : string) :
  well_formed (Example3Optimized.tally_pages [] pages)
  /\ well_formed (Example5.tally_pages [] pages)
  /\ NoDup (map Example5.hazard_code
              (Example5.rows_of (collection_id, bin_label,
                                 Example5.tally_pages [] pages)))
  /\ Forall (fun row => 1 <= Example5.event_count row
                        /\ Example5.collection row = collection_id
                        /\ Example5.time_period row = bin_label)
       (Example5.rows_of (collection_id, bin_label, Example5.tally_pages [] pages)).
Proof.
  assert (H3 : well_formed (Example3Optimized.tally_pages [] pages)).
  { rewrite tally_pages_country. apply well_formed_tally, well_formed_nil. }
  assert (H5 : well_formed (Example5.tally_pages [] pages)).
  { rewrite tally_pages_hazard. apply well_formed_tally, well_formed_nil. }
  split; [exact H3 |]. split; [exact H5 |].
  destruct H5 as [Hk Hv]. unfold Example5.rows_of. split.
  - rewrite map_map. exact Hk.
  - apply Forall_map. eapply Forall_impl; [| exact Hv]. intros kv Hkv. simpl. auto.
Qed.

End Counters.

(** ** The order of the CSV rows *)

Section Ties.
Import Http Effects Tally.

Lemma with_count_none n l :
  Forall (fun kv : string * Z => snd kv < n) l -> with_count n l = [].
Proof.
  intro H. apply filter_nil. intros kv Hin. rewrite Forall_forall in H.
  apply H in Hin. apply Z.eqb_neq. lia.
Qed.

Lemma with_count_cons n x l :
  with_count n (x :: l) = if snd x =? n then x :: with_count n l else with_count n l.
Proof. reflexivity. Qed.

Lemma with_count_insert_desc x l n :
  StronglySorted Py.by_count_desc l ->
  with_count n (Py.insert_desc x l)
  = if snd x =? n then (with_count n l ++ [x])%list else with_count n l.
Proof.
  induction 1 as [| y l Hs IH Hy].
  - cbn [Py.insert_desc]. rewrite with_count_cons. now destruct (snd x =? n).
  - cbn [Py.insert_desc]. destruct (snd y <? snd x) eqn:E.
    + apply Z.ltb_lt in E. rewrite (with_count_cons n x).
      destruct (snd x =? n) eqn:Ex; [| reflexivity].
      apply Z.eqb_eq in Ex.
      rewrite (with_count_none n (y :: l)); [reflexivity |].
      constructor; [lia |].
      eapply Forall_impl; [| exact Hy]. unfold Py.by_count_desc. intros z Hz. lia.
    + rewrite !(with_count_cons n y), IH.
      destruct (snd y =? n); destruct (snd x =? n); reflexivity.
Qed.

Lemma with_count_most_common_from n c : forall acc,
  StronglySorted Py.by_count_desc acc ->
  with_count n (fold_left (fun acc x => Py.insert_desc x acc) c acc)
  = (with_count n acc ++ with_count n c)%list.
Proof.
  induction c as [| x c IH]; intros acc Hs; cbn [fold_left].
  - now rewrite app_nil_r.
  - rewrite IH by now apply insert_desc_sorted.
    rewrite with_count_insert_desc by exact Hs.
    rewrite (with_count_cons n x).
    destruct (snd x =? n); [| reflexivity].
    now rewrite <- app_assoc.
Qed.

(** Countries with the same count come in the CSV in the order in which
    they were first counted: [most_common] sorts stably, so among the rows
    with a given count the order of the counter is kept. *)
Theorem csv_ties_keep_counter_order (country_counts : Py.Counter) (n : Z) :
  with_count n (Py.most_common country_counts) = with_count n country_counts
  /\ filter (fun row => match row with
                        | [Text _; Int m] => m =? n
                        | _ => false
                        end)
            (Example3Optimized.csv_rows country_counts)
     = map (fun kv => [Text (fst kv); Int (snd kv)]) (with_count n country_counts).
Proof.
  assert (H : with_count n (Py.most_common country_counts)
              = with_count n country_counts).
  { unfold Py.most_common. rewrite with_count_most_common_from by constructor.
    reflexivity. }
  split; [exact H |].
  unfold Example3Optimized.csv_rows. cbn [filter]. rewrite <- H.
  generalize (Py.most_common country_counts) as l.
  induction l as [| kv l IH]; [reflexivity |].
  rewrite with_count_cons. cbn [map filter].
  destruct (snd kv =? n); cbn [map]; now rewrite IH.
Qed.

End Ties.

(** ** The chunks of example_3_optimized, gathered *)

Section ChunksGathered.
Import Http Effects Pages Kinds Tally Example3Optimized.

Lemma fetch_pages_well_formed fuel : forall srv cid chunk_label url pc ti c st r st',
  fetch_pages fuel srv cid chunk_label url pc ti c st = Some (r, st') ->
  well_formed c -> well_formed (fst r).
Proof.
  induction fuel as [| fuel IH]; intros srv cid chunk_label url pc ti c st r st' Hrun Hc;
    [discriminate |].
  cbn [fetch_pages] in Hrun. destruct (truthy url).
  - unfold bind in Hrun.
    destruct (try_page srv cid chunk_label (url_text url) (pc + 1)
                (Py.range 0 max_retries 1) st) as [[res st1] |]; [| discriminate].
    destruct res as [data | entry |].
    + apply IH in Hrun; [exact Hrun |]. unfold tally. now apply well_formed_tally.
    + injection Hrun as <- _. exact Hc.
    + now apply IH in Hrun.
  - revert Hrun. run_effects. intro Hrun. injection Hrun as <- _. exact Hc.
Qed.

Lemma chunk_result_well_formed fuel task_srv cid chunk r :
  Tasks.chunk_result fuel task_srv cid chunk = Some r -> well_formed (fst r).
Proof.
  unfold Tasks.chunk_result, fetch_time_chunk. run_effects.
  destruct (fetch_pages fuel (task_srv chunk) cid (label chunk) _ 0 0 [] _)
    as [[r' st'] |] eqn:E; [| discriminate].
  intro H. injection H as <-. cbn [fst].
  exact (fetch_pages_well_formed _ _ _ _ _ _ _ _ _ _ _ E well_formed_nil).
Qed.

Lemma example3_gather fuel task_srv cid total done : forall results counter errors completed st,
  Forall2 (fun chunk r => Tasks.chunk_result fuel task_srv cid chunk = Some r)
          done results ->
  exists work,
    gather fuel task_srv cid total done counter errors completed st
    = Some ((Tasks.merged counter results, (errors ++ Tasks.errors_of results)%list,
             completed + Py.len done),
            {| trace := trace st ++ work; sent := sent st |})
    /\ forallb worker_event work = true.
Proof.
  induction done as [| chunk done IH]; intros results counter errors completed st Hall.
  - inversion Hall; subst. exists []. cbn [gather Tasks.merged Tasks.errors_of fold_left flat_map].
    rewrite !app_nil_r. unfold ret, Py.len. cbn [List.length].
    replace (completed + Z.of_nat 0) with completed by lia.
    destruct st. split; reflexivity.
  - inversion Hall as [| ? r ? results' Hr Hrest]; subst.
    unfold Tasks.chunk_result in Hr.
    destruct (fetch_time_chunk fuel (task_srv chunk) cid chunk Effects.start)
      as [[r' st_task] |] eqn:Hrun; [| discriminate].
    injection Hr as ->. destruct r as [chunk_counter error].
    destruct (IH results' (Py.counter_merge counter chunk_counter)
                (match error with Some e => (errors ++ [e])%list | None => errors end)
                (completed + 1)
                {| trace := (trace st ++ trace st_task)
                            ++ [Print (Progress (completed + 1) total)];
                   sent := sent st |} Hrest)
      as (work & Hg & Hwork).
    exists ((trace st_task ++ [Print (Progress (completed + 1) total)]) ++ work)%list.
    split.
    + cbn [gather]. unfold bind at 1.
      rewrite (in_worker_run _ _ _ _ st Hrun). unfold bind, print. cbn [emit trace sent].
      rewrite Hg. cbn [trace sent Tasks.merged Tasks.errors_of fold_left flat_map fst snd].
      f_equal. f_equal; [f_equal; [f_equal |] |].
      * destruct error; cbn [app]; now rewrite <- ?app_assoc.
      * unfold Py.len. cbn [List.length]. lia.
      * now rewrite <- !app_assoc.
    + rewrite !forallb_app, Hwork.
      rewrite (emits_from_start _ _ _ _ _ (example3_worker _ _ _ _) Hrun).
      reflexivity.
Qed.

Lemma sum_perm l1 l2 : Permutation l1 l2 -> Frame.sum l1 = Frame.sum l2.
Proof. induction 1; simpl; lia. Qed.

Lemma counter_get_merged results : forall counter code,
  Forall (fun r => well_formed (fst r)) results ->
  Py.counter_get (Tasks.merged counter results) code
  = Py.counter_get counter code
    + Frame.sum (map (fun r => Py.counter_get (fst r) code) results).
Proof.
  unfold Tasks.merged.
  induction results as [| r results IH]; intros counter code Hwf; simpl; [lia |].
  inversion Hwf as [| ? ? [Hk _] Hwf']; subst.
  rewrite IH by exact Hwf'. rewrite counter_get_merge by exact Hk. lia.
Qed.


Lemma chunks_at_extent fuel now :
  Partition.chunks_at fuel now
  = generate_time_chunks fuel (Text.str_of_Z START_YEAR ++ "-01-01T00:00:00Z")
      (Calendar.strftime now) YEARS_PER_CHUNK.
Proof. reflexivity. Qed.

(** What [fetch_country_counts_parallel] returns (the clock in the year
    1000 or later, every task returning) does not depend on the order in
    which the chunks complete: for every country code the combined
    count is the sum of the counts of the tasks.  A task that gave up on a
    page counts as completed like the others (the last progress line reads
    all chunks out of all), its partial tally is merged with the rest, and
    the number of such tasks is reported. *)
Theorem combined_counts_are_sums_of_chunk_counts
    (fuel : nat) (now : Calendar.datetime) (task_srv : TimeChunk -> Server)
    (completion : list TimeChunk -> list TimeChunk) (cid : string)
    (chunks : list TimeChunk) (results : list (Py.Counter * option ErrorEntry)) :
  1000 <= Calendar.year now ->
  Partition.chunks_at fuel now = Some (Value chunks) ->
  Permutation (completion chunks) chunks ->
  Forall2 (fun chunk r => Tasks.chunk_result fuel task_srv cid chunk = Some r)
          chunks results ->
  exists combined st,
    fetch_country_counts_parallel fuel now task_srv completion cid Effects.start
    = Some (inl combined, st)
    /\ (forall code,
          Py.counter_get combined code
          = Frame.sum (map (fun r => Py.counter_get (fst r) code) results))
    /\ well_formed combined
    /\ In (Print (CompletedChunks (Py.len chunks) (Py.len chunks))) (trace st)
    /\ (Tasks.errors_of results <> [] ->
        In (Print (ErrorsLogged (Py.len (Tasks.errors_of results)))) (trace st)).
Proof.
  intros Hyear Hchunks Hperm Hall. apply Z.ltb_ge in Hyear.
  destruct (Permutation_Forall2 (Permutation_sym Hperm) Hall)
    as (results' & Hres & Hall').
  assert (Hwf : Forall (fun r => well_formed (fst r)) results').
  { clear - Hall'. induction Hall' as [| chunk r done rs Hr _ IH]; constructor; auto.
    exact (chunk_result_well_formed _ _ _ _ _ Hr). }
  rewrite chunks_at_extent in Hchunks.
  set (st1 := {| trace := [Print (StartingFetch cid);
                           Print (TemporalExtent
                                    (Text.str_of_Z START_YEAR ++ "-01-01T00:00:00Z")
                                    (Calendar.strftime now));
                           Print (StartYearNote START_YEAR);
                           Print (GeneratedChunks (Py.len chunks));
                           PoolStart MAX_WORKERS]
                          ++ map (fun chunk => Submit cid (label chunk)) chunks;
                 sent := 0 |}).
  destruct (example3_gather fuel task_srv cid (Py.len chunks) (completion chunks)
              results' [] [] 0 st1 Hall') as (work & Hg & Hwork).
  assert (Hlen : Py.len (completion chunks) = Py.len chunks).
  { unfold Py.len. now rewrite (Permutation_length Hperm). }
  assert (Herrs : Permutation (Tasks.errors_of results) (Tasks.errors_of results')).
  { unfold Tasks.errors_of. now apply Permutation_flat_map. }
  exists (Tasks.merged [] results').
  assert (Hrun : exists tail,
             fetch_country_counts_parallel fuel now task_srv completion cid Effects.start
             = Some (inl (Tasks.merged [] results'),
                     {| trace := ((trace st1 ++ work)
                                  ++ [Print (CompletedChunks (Py.len chunks)
                                               (Py.len chunks))]) ++ tail;
                        sent := 0 |})
             /\ (Tasks.errors_of results' <> [] ->
                 tail = [Print (ErrorsLogged (Py.len (Tasks.errors_of results')))])).
  { unfold fetch_country_counts_parallel, get_collection_temporal_extent, Effects.start.
    unfold bind at 1. unfold print at 1. cbn [emit trace sent app].
    unfold bind at 1. unfold bind at 1. unfold print at 1. cbn [emit trace sent app].
    unfold bind at 1. unfold print at 1. cbn [emit ret trace sent app].
    rewrite Hyear, Hchunks.
    unfold bind at 1. unfold print at 1. cbn [emit trace sent app].
    unfold bind at 1. cbn [emit trace sent app].
    unfold bind at 1.
    rewrite (for_each_emit _ _ _ (fun chunk => Submit cid (label chunk))) by reflexivity.
    cbn [trace sent]. fold st1. unfold bind at 1. rewrite Hg.
    cbn [app]. rewrite Hlen, Z.add_0_l.
    unfold bind at 1. unfold print at 1. cbn [emit trace sent].
    destruct (Tasks.errors_of results') as [| e errs] eqn:Ee.
    - exists []. split; [| congruence].
      unfold bind, ret. cbn [trace sent]. now rewrite app_nil_r.
    - exists [Print (ErrorsLogged (Py.len (e :: errs)))]. split; [| reflexivity].
      unfold bind, print, ret. cbn [emit trace sent]. reflexivity. }
  destruct Hrun as (tail & Hrun & Htail).
  eexists. split; [exact Hrun |]. split; [| split; [| split]].
  - intro code. rewrite counter_get_merged by exact Hwf. cbn [Py.counter_get].
    rewrite Z.add_0_l. apply sum_perm. apply Permutation_map. now symmetry.
  - clear - Hwf. unfold Tasks.merged.
    assert (G : forall c, well_formed c ->
                  well_formed (fold_left (fun acc r => Py.counter_merge acc (fst r))
                                 results' c)).
    { induction results' as [| r rs IH]; intros c Hc; simpl; [exact Hc |].
      inversion Hwf as [| ? ? [_ Hv] Hwf']; subst.
      apply IH; [exact Hwf' |]. now apply well_formed_merge. }
    apply G, well_formed_nil.
  - cbn [trace]. apply in_or_app. left. apply in_or_app. right. now left.
  - intro Hne. cbn [trace]. apply in_or_app. right.
    assert (Hne' : Tasks.errors_of results' <> []).
    { intro E. rewrite E in Herrs. apply Permutation_sym, Permutation_nil in Herrs.
      contradiction. }
    rewrite (Htail Hne'). unfold Py.len. rewrite (Permutation_length Herrs). now left.
Qed.

End ChunksGathered.

(** ** Pages that arrive on a later attempt *)

Section Retried.
Import Http Effects Pages Kinds Retries Example3Optimized.

Lemma try_page_retried srv cid chunk_label u pc st k data :
  (k < 3)%nat -> fails srv (sent st) u k ->
  srv (sent st + k)%nat u = Json data ->
  exists new,
    try_page srv cid chunk_label u pc (Py.range 0 max_retries 1) st
    = Some (Fetched data,
            {| trace := trace st ++ new; sent := S (sent st + k) |})
    /\ received new = [data]
    /\ error_log new = []
    /\ sleeps new = firstn k [1; 2]
    /\ List.length (failures new) = k.
Proof.
  intros Hk Hfails Hdata. change (Py.range 0 max_retries 1) with [0; 1; 2].
  destruct k as [| [| [| k]]]; try lia.
  - rewrite Nat.add_0_r in Hdata. exists [Get u (Json data)].
    cbn [try_page]. run_effects. rewrite Hdata, Nat.add_0_r. repeat split.
  - destruct (Hfails 0%nat) as (r0 & H0); [lia |]. rewrite Nat.add_0_r in H0.
    rewrite Nat.add_1_r in Hdata.
    exists [Get u (RequestException r0); Print (RetryWarning chunk_label pc 1 1);
            Sleep 1; Get u (Json data)].
    cbn [try_page]. run_effects. rewrite H0. run_effects.
    change (0 =? max_retries - 1) with false. cbn iota.
    cbn [try_page]. run_effects. rewrite Hdata. rewrite <- !app_assoc.
    rewrite Nat.add_1_r. repeat split.
  - destruct (Hfails 0%nat) as (r0 & H0); [lia |]. rewrite Nat.add_0_r in H0.
    destruct (Hfails 1%nat) as (r1 & H1); [lia |]. rewrite Nat.add_1_r in H1.
    replace (sent st + 2)%nat with (S (S (sent st))) in * by lia.
    exists [Get u (RequestException r0); Print (RetryWarning chunk_label pc 1 1);
            Sleep 1;
            Get u (RequestException r1); Print (RetryWarning chunk_label pc 2 2);
            Sleep 2; Get u (Json data)].
    cbn [try_page]. run_effects. rewrite H0. run_effects.
    change (0 =? max_retries - 1) with false. cbn iota.
    cbn [try_page]. run_effects. rewrite H1. run_effects.
    change (1 =? max_retries - 1) with false. cbn iota.
    cbn [try_page]. run_effects. rewrite Hdata. rewrite <- !app_assoc.
    repeat split.
Qed.

Lemma retried_chain_sent srv n u pages n' :
  retried_chain srv n u pages n' -> (n < n')%nat.
Proof. induction 1; lia. Qed.

Lemma fetch_pages_retried srv cid chunk_label pages : forall n u n',
  retried_chain srv n u pages n' -> u <> "" ->
  forall st pc ti c, sent st = n ->
  forall fuel, (List.length pages < fuel)%nat ->
  exists new,
    fetch_pages fuel srv cid chunk_label (Some u) pc ti c st
    = Some ((tally_pages c pages, None),
            {| trace := trace st ++ new; sent := n' |})
    /\ received new = pages
    /\ error_log new = []
    /\ Forall (fun s => s = 1 \/ s = 2) (sleeps new)
    /\ List.length (sleeps new) = List.length (failures new)
    /\ (List.length (failures new) + List.length pages = n' - n)%nat
    /\ In (Print (ChunkCompleted chunk_label (ti + items pages) (pc + Py.len pages))) new.
Proof.
  induction 1 as [n u k data Hk Hfails Hdata Hno
                 | n u k data u' pages n' Hk Hfails Hdata Hnext Hu' Hchain IH];
    intros Hu st pc ti c Hsent fuel Hfuel.
  - destruct fuel as [| [| fuel]]; cbn [List.length] in Hfuel; try lia.
    rewrite <- Hsent in Hfails, Hdata.
    destruct (try_page_retried srv cid chunk_label u (pc + 1) st k data Hk Hfails Hdata)
      as (new & Htry & Hrec & Hlog & Hsl & Hf).
    exists (new ++ [Print (ChunkCompleted chunk_label
                             (ti + Py.len (Py.get (features data) []))
                             (pc + 1))])%list.
    split; [| split; [| split; [| split; [| split; [| split]]]]].
    + cbn [fetch_pages]. rewrite (truthy_some u Hu). unfold Effects.bind at 1.
      change (url_text (Some u)) with u. rewrite Htry.
      rewrite (no_next_href _ Hno). cbn [truthy]. run_effects.
      rewrite Hsent, <- app_assoc. reflexivity.
    + rewrite received_app, Hrec. reflexivity.
    + rewrite error_log_app, Hlog. reflexivity.
    + rewrite sleeps_app, Hsl, app_nil_r.
      destruct k as [| [| [| k]]]; try lia; repeat (constructor; try lia).
    + rewrite sleeps_app, failures_app, !length_app, Hsl, Hf.
      cbn [sleeps failures flat_map List.length].
      destruct k as [| [| [| k]]]; try lia; reflexivity.
    + rewrite failures_app, length_app, Hf. cbn [failures flat_map List.length app]. lia.
    + apply in_or_app. right. left.
      replace (ti + items [data]) with (ti + Py.len (Py.get (features data) []))
        by (rewrite items_cons; unfold items; cbn [map Frame.sum fold_right]; lia).
      replace (pc + Py.len [data]) with (pc + 1)
        by (unfold Py.len; cbn [List.length]; lia).
      reflexivity.
  - destruct fuel as [| fuel]; cbn [List.length] in Hfuel; try lia.
    rewrite <- Hsent in Hfails, Hdata.
    destruct (try_page_retried srv cid chunk_label u (pc + 1) st k data Hk Hfails Hdata)
      as (new & Htry & Hrec & Hlog & Hsl & Hf).
    destruct (IH Hu' {| trace := trace st ++ new; sent := S (sent st + k) |}
                (pc + 1) (ti + Py.len (Py.get (features data) []))
                (tally c (Py.get (features data) []))
                ltac:(cbn [sent]; now rewrite Hsent) fuel ltac:(lia))
      as (new' & Hrun & Hrec' & Hlog' & Hsl' & Hlen' & Hcount' & Hin').
    exists (new ++ new')%list.
    split; [| split; [| split; [| split; [| split; [| split]]]]].
    + cbn [fetch_pages]. rewrite (truthy_some u Hu). unfold Effects.bind at 1.
      change (url_text (Some u)) with u. rewrite Htry.
      rewrite Hnext, Hrun. cbn [trace sent]. now rewrite <- app_assoc.
    + rewrite received_app, Hrec, Hrec'. reflexivity.
    + rewrite error_log_app, Hlog, Hlog'. reflexivity.
    + rewrite sleeps_app. apply Forall_app. split; [| exact Hsl'].
      rewrite Hsl. destruct k as [| [| [| k]]]; try lia; repeat (constructor; try lia).
    + rewrite sleeps_app, failures_app, !length_app, Hlen', Hsl, Hf.
      destruct k as [| [| [| k]]]; try lia; reflexivity.
    + rewrite failures_app, length_app, Hf. cbn [List.length].
      pose proof (retried_chain_sent _ _ _ _ _ Hchain). lia.
    + apply in_or_app. right.
      replace (ti + items (data :: pages))
        with (ti + Py.len (Py.get (features data) []) + items pages)
        by (rewrite items_cons; lia).
      replace (pc + Py.len (data :: pages)) with (pc + 1 + Py.len pages)
        by (unfold Py.len; cbn [List.length]; lia).
      exact Hin'.
Qed.

(** A page that fails once or twice and then arrives costs nothing but
    the waits: over a chain of pages each of which arrives within the three
    attempts, [fetch_time_chunk] returns the tally of all the pages and no
    error, writes nothing to the error log, and sleeps one second after a
    first failure and two after a second. *)
Theorem transient_failures_leave_no_trace_in_the_tally
    (srv : Server) (cid : string) (chunk : TimeChunk) (pages : list Body) (n : nat) :
  retried_chain srv 0 (chunk_url cid chunk) pages n ->
  forall fuel, (List.length pages < fuel)%nat ->
  exists st,
    fetch_time_chunk fuel srv cid chunk Effects.start
    = Some ((tally_pages [] pages, None), st)
    /\ sent st = n
    /\ received (trace st) = pages
    /\ error_log (trace st) = []
    /\ Forall (fun s => s = 1 \/ s = 2) (sleeps (trace st))
    /\ List.length (sleeps (trace st)) = List.length (failures (trace st))
    /\ (List.length (failures (trace st)) + List.length pages = n)%nat
    /\ In (Print (ChunkCompleted (label chunk) (items pages) (Py.len pages))) (trace st).
Proof.
  intros Hchain fuel Hfuel.
  set (st0 := {| trace := [Print (StartingChunk (label chunk))]; sent := 0 |}).
  destruct (fetch_pages_retried srv cid (label chunk) pages 0 _ n Hchain
              (chunk_url_nonempty cid chunk) st0 0 0 [] eq_refl fuel Hfuel)
    as (new & Hrun & Hrec & Hlog & Hsl & Hlen & Hcount & Hin).
  exists {| trace := trace st0 ++ new; sent := n |}.
  split; [| split; [reflexivity |]].
  - unfold fetch_time_chunk. run_effects. fold st0. exact Hrun.
  - cbn [trace]. subst st0. cbn [trace app].
    rewrite !Z.add_0_l in Hin. rewrite Nat.sub_0_r in Hcount.
    change (received (Print (StartingChunk (label chunk)) :: new)) with (received new).
    change (error_log (Print (StartingChunk (label chunk)) :: new)) with (error_log new).
    change (sleeps (Print (StartingChunk (label chunk)) :: new)) with (sleeps new).
    change (failures (Print (StartingChunk (label chunk)) :: new)) with (failures new).
    split; [exact Hrec |]. split; [exact Hlog |]. split; [exact Hsl |].
    split; [exact Hlen |]. split; [exact Hcount |]. right. exact Hin.
Qed.

End Retried.

(** ** Loops that do not end *)

Section Endless.
Import Example3Optimized.

Lemma bins_from_endless interval end_year fuel : forall current_year bins,
  interval <= 0 -> current_year <= end_year ->
  Example5.bins_from fuel interval end_year current_year bins = None.
Proof.
  induction fuel as [| fuel IH]; intros current_year bins Hi Hc; [reflexivity |].
  cbn [Example5.bins_from].
  replace (current_year <=? end_year) with true by (symmetry; apply Z.leb_le; lia).
  apply IH; lia.
Qed.

Lemma chunks_from_endless end_date fuel : forall current_start chunks,
  Calendar.in_range current_start = true -> current_start < end_date ->
  chunks_from fuel 0 end_date current_start chunks = None.
Proof.
  induction fuel as [| fuel IH]; intros current_start chunks Hin Hc; [reflexivity |].
  cbn [chunks_from].
  replace (current_start <? end_date) with true by (symmetry; apply Z.ltb_lt; lia).
  unfold Calendar.plus_days. change (365 * 0) with 0.
  change (Calendar.timedelta_days 0) with 0. rewrite Z.add_0_r, Hin.
  change (Z.abs 0 <=? 999999999) with true. cbn [andb].
  rewrite Z.min_l by lia. now apply IH.
Qed.

Lemma chunks_from_backwards years_per_chunk end_date k : forall current_start chunks fuel,
  years_per_chunk < 0 ->
  Calendar.in_range current_start = true -> current_start < end_date ->
  current_start / Calendar.SECONDS_PER_DAY <= Z.of_nat k ->
  (k < fuel)%nat ->
  chunks_from fuel years_per_chunk end_date current_start chunks = Some OverflowError.
Proof.
  induction k as [| k IH]; intros current_start chunks fuel Hy Hin Hc Hk Hf.
  - unfold Calendar.in_range in Hin. apply andb_true_iff in Hin.
    destruct Hin as [H1 _]. apply Z.leb_le in H1. simpl in Hk. lia.
  - destruct fuel as [| fuel]; [lia |]. cbn [chunks_from].
    replace (current_start <? end_date) with true by (symmetry; apply Z.ltb_lt; lia).
    unfold Calendar.plus_days.
    destruct ((Z.abs (365 * years_per_chunk) <=? 999999999)
              && Calendar.in_range
                   (current_start + Calendar.timedelta_days (365 * years_per_chunk)))
      eqn:E; [| reflexivity].
    apply andb_true_iff in E. destruct E as [_ Hin'].
    assert (Hless : current_start + Calendar.timedelta_days (365 * years_per_chunk)
                    <= current_start - Calendar.SECONDS_PER_DAY)
      by (unfold Calendar.timedelta_days, Calendar.SECONDS_PER_DAY; lia).
    unfold Calendar.SECONDS_PER_DAY in *.
    rewrite Z.min_l by lia.
    apply IH; [exact Hy | exact Hin' | lia | | lia].
    assert ((current_start + Calendar.timedelta_days (365 * years_per_chunk)) / 86400
            <= (current_start - 86400) / 86400)
      by (apply Z.div_le_mono; lia).
    replace (current_start - 86400) with (current_start + (-1) * 86400) in H by lia.
    rewrite Z.div_add in H by lia. lia.
Qed.

(** With a step that is not positive the partitioners do not do their
    work.  Called with an interval of zero or less and a start year that is
    not in the future, [generate_time_bins] of example_5 has not returned
    after any number of iterations.  [generate_time_chunks], when the start
    lies before the end, has not returned after any number of iterations
    with a chunk length of zero, and with a negative one it walks back in
    time until the date arithmetic raises OverflowError. *)
Theorem nonpositive_step_never_returns
    (now : Calendar.datetime) (start_year interval : Z)
    (start_date_str end_date_str : string) (start_date end_date : Calendar.datetime)
    (years_per_chunk : Z) :
  interval <= 0 ->
  start_year <= Calendar.year now ->
  Calendar.fromisoformat (Calendar.replace_Z start_date_str) = Some start_date ->
  Calendar.fromisoformat (Calendar.replace_Z end_date_str) = Some end_date ->
  Calendar.in_range start_date = true ->
  start_date < end_date ->
  (forall fuel, Example5.generate_time_bins fuel now start_year interval = None)
  /\ (forall fuel, generate_time_chunks fuel start_date_str end_date_str 0 = None)
  /\ (years_per_chunk < 0 ->
      exists fuel0, forall fuel, (fuel0 <= fuel)%nat ->
        generate_time_chunks fuel start_date_str end_date_str years_per_chunk
        = Some OverflowError).
Proof.
  intros Hi Hs Hstart Hend Hin Hlt. split; [| split].
  - intro fuel. unfold Example5.generate_time_bins. now apply bins_from_endless.
  - intro fuel. unfold generate_time_chunks. rewrite Hstart, Hend.
    now apply chunks_from_endless.
  - intro Hy. exists (S (Z.to_nat (start_date / Calendar.SECONDS_PER_DAY))).
    intros fuel Hf. unfold generate_time_chunks. rewrite Hstart, Hend.
    apply (chunks_from_backwards years_per_chunk end_date
             (Z.to_nat (start_date / Calendar.SECONDS_PER_DAY)));
      [exact Hy | exact Hin | exact Hlt | | lia].
    unfold Calendar.in_range in Hin. apply andb_true_iff in Hin.
    destruct Hin as [H1 _]. apply Z.leb_le in H1. lia.
Qed.

End Endless.

(** ** The listing of example_5, page after page *)

Section Listing.
Import Http Effects Pages Kinds.

Lemma append_empty s : s ++ "" = s.
Proof. induction s as [| c s IH]; simpl; [reflexivity | now rewrite IH]. Qed.

(** The collections of all the pages of a listing, in order. *)
Lemma listing_step fuel srv u params all page st data :
  u <> "" ->
  srv (sent st) (u ++ params) = Json data ->
  Example5.listing_pages (S fuel) srv (Some u) params all page st
  = Example5.listing_pages fuel srv (next_href data)
      (match find is_next (Py.get (links data) []) with
       | Some _ => ""
       | None => params
       end)
      (all ++ Py.get (collections data) []) (page + 1)
      {| trace := trace st
                  ++ [Print (CollectionsPage page);
                      Get (u ++ params) (Json data);
                      Print (RetrievedCollections
                               (Py.len (Py.get (collections data) []))
                               (Py.len (all ++ Py.get (collections data) [])%list))];
         sent := S (sent st) |}.
Proof.
  intros Hu Hsrv. cbn [Example5.listing_pages]. rewrite (truthy_some u Hu).
  unfold bind at 1. unfold print at 1. cbn [emit trace sent].
  unfold bind at 1. cbn [session_get trace sent].
  change (url_text (Some u)) with u. rewrite Hsrv.
  unfold bind at 1. unfold print at 1. cbn [emit trace sent].
  rewrite <- !app_assoc. cbn [app]. unfold next_href.
  destruct (find is_next (Py.get (links data) [])); reflexivity.
Qed.

Lemma listing_step_error fuel srv u params all page st e :
  u <> "" ->
  srv (sent st) (u ++ params) = RequestException e ->
  Example5.listing_pages (S fuel) srv (Some u) params all page st
  = Some (None,
          {| trace := trace st
                      ++ [Print (CollectionsPage page);
                          Get (u ++ params) (RequestException e);
                          Print (Fatal e)];
             sent := S (sent st) |}).
Proof.
  intros Hu Hsrv. cbn [Example5.listing_pages]. rewrite (truthy_some u Hu).
  unfold bind at 1. unfold print at 1. cbn [emit trace sent].
  unfold bind at 1. cbn [session_get trace sent].
  change (url_text (Some u)) with u. rewrite Hsrv.
  unfold bind, print, ret. cbn [emit trace sent].
  rewrite <- !app_assoc. reflexivity.
Qed.


Lemma listing_pages_run srv pages : forall n u n' u',
  run srv n u pages n' u' -> u <> "" ->
  forall st all page, sent st = n ->
  exists new,
    u' <> ""
    /\ forallb quiet new = true
    /\ received new = pages
    /\ forall fuel,
         Example5.listing_pages (List.length pages + fuel) srv (Some u) "" all page st
         = Example5.listing_pages fuel srv (Some u') ""
             (all ++ Listings.collections_of pages) (page + Py.len pages)
             {| trace := trace st ++ new; sent := n' |}.
Proof.
  induction 1 as [n u | n u data u' pages n' u'' Hsrv Hnext Hu' Hrun IH];
    intros Hu st all page Hsent.
  - exists []. split; [exact Hu |]. split; [reflexivity |]. split; [reflexivity |].
    intro fuel. cbn [List.length Nat.add Listings.collections_of flat_map].
    rewrite !app_nil_r. unfold Py.len. cbn [List.length].
    replace (page + Z.of_nat 0) with page by lia. subst n. now destruct st.
  - set (step := [Print (CollectionsPage page); Get (u ++ "") (Json data);
                  Print (RetrievedCollections
                           (Py.len (Py.get (collections data) []))
                           (Py.len (all ++ Py.get (collections data) [])%list))]).
    destruct (IH Hu' {| trace := trace st ++ step; sent := S (sent st) |}
                (all ++ Py.get (collections data) [])%list (page + 1)
                ltac:(cbn [sent]; now rewrite Hsent))
      as (new & Hne & Hq & Hrec & Hloop).
    exists (step ++ new)%list.
    split; [exact Hne |]. split; [| split].
    + rewrite forallb_app, Hq. reflexivity.
    + rewrite received_app, Hrec. reflexivity.
    + intro fuel. cbn [List.length Nat.add].
      rewrite (listing_step _ srv u "" all page st data Hu)
        by (rewrite append_empty, Hsent; exact Hsrv).
      rewrite Hnext. unfold next_href in Hnext.
      destruct (find is_next (Py.get (links data) [])); [| discriminate].
      fold step. rewrite Hloop. cbn [trace sent Listings.collections_of flat_map].
      fold (Listings.collections_of pages).
      rewrite <- !app_assoc. f_equal. unfold Py.len. cbn [List.length]. lia.
Qed.

Lemma collections_of_snoc init final :
  Listings.collections_of (init ++ [final])
  = (Listings.collections_of init ++ Py.get (collections final) [])%list.
Proof.
  unfold Listings.collections_of. rewrite flat_map_app. cbn [flat_map].
  now rewrite app_nil_r.
Qed.

(** The loop that reports on each collection listed. *)
Lemma checking_loop (cs : list Collection) : forall st,
  exists evs,
    for_each cs
      (fun collection =>
         (print (Checking (id collection));;;
          (if Text.contains "-events" (id collection)
           then print Added else print NotAdded))%effect) st
    = Some (tt, {| trace := trace st ++ evs; sent := sent st |})
    /\ forallb quiet evs = true
    /\ received evs = [].
Proof.
  induction cs as [| c cs IH]; intro st.
  - exists []. simpl. rewrite app_nil_r. now destruct st.
  - destruct (IH {| trace := (trace st ++ [Print (Checking (id c))])
                             ++ [Print (if Text.contains "-events" (id c)
                                        then Added else NotAdded)];
                    sent := sent st |}) as (evs & Hrun & Hq & Hr).
    exists (Print (Checking (id c))
            :: Print (if Text.contains "-events" (id c) then Added else NotAdded)
            :: evs).
    split; [| split; [exact Hq | exact Hr]].
    cbn [for_each]. unfold bind at 1. unfold bind at 1.
    unfold print at 1. cbn [emit]. revert Hrun.
    destruct (Text.contains "-events" (id c)); intro Hrun;
      unfold print at 1; cbn [emit trace sent];
      rewrite Hrun; cbn [trace sent]; now rewrite <- !app_assoc.
Qed.

(** The pages of the listing up to its first failure or its end. *)
Lemma listing_first_page fuel srv st all page data :
  sent st = 0%nat ->
  srv 0%nat Example5.first_listing_url = Json data ->
  Example5.listing_pages (S fuel) srv (Some Example5.listing_url) "?limit=100"
    all page st
  = Example5.listing_pages fuel srv (next_href data)
      (match find is_next (Py.get (links data) []) with
       | Some _ => ""
       | None => "?limit=100"
       end)
      (all ++ Py.get (collections data) []) (page + 1)
      {| trace := trace st
                  ++ [Print (CollectionsPage page);
                      Get Example5.first_listing_url (Json data);
                      Print (RetrievedCollections
                               (Py.len (Py.get (collections data) []))
                               (Py.len (all ++ Py.get (collections data) [])%list))];
         sent := 1 |}.
Proof.
  intros Hsent Hsrv.
  rewrite (listing_step fuel srv Example5.listing_url "?limit=100" all page st data);
    [now rewrite Hsent | discriminate | now rewrite Hsent].
Qed.

Lemma listing_all_pages srv first rest n' u' :
  run srv 0 Example5.first_listing_url (first :: rest) n' u' ->
  forall st, sent st = 0%nat ->
  exists new,
    u' <> ""
    /\ forallb quiet new = true
    /\ received new = (first :: rest)%list
    /\ forall fuel,
         Example5.listing_pages (S (List.length rest) + fuel) srv
           (Some Example5.listing_url) "?limit=100" [] 1 st
         = Example5.listing_pages fuel srv (Some u') ""
             (Listings.collections_of (first :: rest)) (1 + Py.len (first :: rest))
             {| trace := trace st ++ new; sent := n' |}.
Proof.
  intros Hrun st Hsent.
  inversion Hrun as [| ? ? ? u1 ? ? ? Hsrv Hnext Hu1 Hrest]; subst.
  set (step := [Print (CollectionsPage 1);
                Get Example5.first_listing_url (Json first);
                Print (RetrievedCollections
                         (Py.len (Py.get (collections first) []))
                         (Py.len ([] ++ Py.get (collections first) [])%list))]).
  destruct (listing_pages_run srv rest 1 u1 n' u' Hrest Hu1
              {| trace := trace st ++ step; sent := 1 |}
              ([] ++ Py.get (collections first) [])%list (1 + 1) eq_refl)
    as (new & Hne & Hq & Hrec & Hloop).
  exists (step ++ new)%list.
  split; [exact Hne |]. split; [| split].
  - rewrite forallb_app, Hq. reflexivity.
  - rewrite received_app, Hrec. reflexivity.
  - intro fuel. cbn [Nat.add].
    rewrite (listing_first_page _ srv st [] 1 first Hsent Hsrv).
    rewrite Hnext. unfold next_href in Hnext.
    destruct (find is_next (Py.get (links first) [])); [| discriminate].
    fold step. rewrite Hloop. cbn [trace sent app Listings.collections_of flat_map].
    fold (Listings.collections_of rest).
    rewrite <- !app_assoc. f_equal. unfold Py.len. cbn [List.length]. lia.
Qed.

Lemma get_hazard_collections_listed fuel srv all st1 :
  Example5.listing_pages fuel srv (Some Example5.listing_url) "?limit=100" [] 1
    {| trace := [Print FetchingCollections]; sent := 0 |}
  = Some (Some all, st1) ->
  exists tail,
    Example5.get_hazard_collections fuel srv Effects.start
    = Some (Example5.hazard_collections_of all,
            {| trace := trace st1 ++ tail; sent := sent st1 |})
    /\ forallb quiet tail = true
    /\ received tail = [].
Proof.
  intro Hlist.
  destruct (checking_loop all
              {| trace := trace st1 ++ [Print (TotalCollections (Py.len all))];
                 sent := sent st1 |}) as (evs & Hloop & Hq & Hr).
  exists ((Print (TotalCollections (Py.len all)) :: evs)
          ++ [Print (FoundCollections (Example5.hazard_collections_of all))])%list.
  split.
  - unfold Example5.get_hazard_collections, Effects.start.
    unfold bind at 1. unfold print at 1. cbn [emit trace sent app].
    unfold bind at 1. rewrite Hlist.
    unfold bind at 1. unfold print at 1. cbn [emit trace sent].
    unfold bind at 1. rewrite Hloop.
    unfold bind, print, ret. cbn [emit trace sent].
    rewrite <- !app_assoc. reflexivity.
  - split.
    + rewrite forallb_app. cbn [forallb quiet]. rewrite Hq. reflexivity.
    + rewrite received_app. cbn [received flat_map app]. fold (received evs).
      rewrite Hr. reflexivity.
Qed.

Lemma get_hazard_collections_failed fuel srv st1 :
  Example5.listing_pages fuel srv (Some Example5.listing_url) "?limit=100" [] 1
    {| trace := [Print FetchingCollections]; sent := 0 |}
  = Some (None, st1) ->
  Example5.get_hazard_collections fuel srv Effects.start = Some ([], st1).
Proof.
  intro Hlist.
  unfold Example5.get_hazard_collections, Effects.start.
  unfold bind at 1. unfold print at 1. cbn [emit trace sent app].
  unfold bind at 1. rewrite Hlist. reflexivity.
Qed.

Lemma quiet_no_pool t :
  forallb quiet t = true ->
  pools t = [] /\ submitted t = [] /\ files_written t = [].
Proof. intro H. apply worker_no_pool. now apply quiet_worker. Qed.

(** The listing of example_5 is all or nothing: when the request for any of
    its pages fails, the collections of the pages before are dropped with
    it, [get_hazard_collections] returns the empty list, and [main] ends
    without a pool, a task or a file. *)
Theorem listing_failure_on_any_page_ends_the_run
    (srv : Server) (pages : list Body) (n : nat) (u e : string) :
  run srv 0 Example5.first_listing_url pages n u ->
  srv n u = RequestException e ->
  forall fuel, (List.length pages < fuel)%nat ->
  (exists st,
     Example5.get_hazard_collections fuel srv Effects.start = Some ([], st)
     /\ received (trace st) = pages
     /\ failures (trace st) = [e]
     /\ sent st = S n)
  /\ (forall now task_srv completion, exists st,
        Example5.main fuel now srv task_srv completion Effects.start = Some (tt, st)
        /\ received (trace st) = pages
        /\ pools (trace st) = []
        /\ submitted (trace st) = []
        /\ files_written (trace st) = []
        /\ uncaught (trace st) = []
        /\ not_modelled (trace st) = []).
Proof.
  intros Hrun Herr fuel Hfuel.
  assert (H : exists new,
             Example5.get_hazard_collections fuel srv Effects.start
             = Some ([], {| trace := (Print FetchingCollections :: new)
                                     ++ [Get u (RequestException e); Print (Fatal e)];
                            sent := S n |})
             /\ forallb quiet new = true
             /\ received new = pages).
  { destruct pages as [| first rest].
    - inversion Hrun; subst. destruct fuel as [| fuel]; [cbn in Hfuel; lia |].
      exists [Print (CollectionsPage 1)]. split; [| split; reflexivity].
      apply get_hazard_collections_failed.
      rewrite (listing_step_error fuel srv Example5.listing_url "?limit=100" [] 1 _ e);
        [reflexivity | discriminate | exact Herr].
    - destruct (listing_all_pages srv first rest n u Hrun
                  {| trace := [Print FetchingCollections]; sent := 0 |} eq_refl)
        as (new & Hne & Hq & Hrec & Hloop).
      cbn [List.length] in Hfuel.
      replace fuel with (S (List.length rest) + S (fuel - S (S (List.length rest))))%nat
        by lia.
      exists (new ++ [Print (CollectionsPage (1 + Py.len (first :: rest)))])%list.
      split; [| split].
      + apply get_hazard_collections_failed. rewrite Hloop.
        rewrite (listing_step_error _ srv u "" _ _ _ e Hne)
          by (rewrite append_empty; exact Herr).
        cbn [trace sent app]. rewrite append_empty, <- !app_assoc. reflexivity.
      + rewrite forallb_app, Hq. reflexivity.
      + rewrite received_app, Hrec. cbn. now rewrite app_nil_r. }
  destruct H as (new & Hget & Hq & Hrec).
  assert (Hrec' : received ((Print FetchingCollections :: new)
                            ++ [Get u (RequestException e); Print (Fatal e)]) = pages).
  { rewrite received_app. cbn. now rewrite app_nil_r. }
  split.
  - eexists. split; [exact Hget |]. cbn [trace sent]. split; [exact Hrec' |].
    split; [| reflexivity].
    rewrite failures_app. cbn [failures flat_map app]. fold (failures new).
    destruct (quiet_silent _ Hq) as (-> & _). reflexivity.
  - intros now task_srv completion.
    exists {| trace := (Print FetchingCollections :: new)
                       ++ [Get u (RequestException e); Print (Fatal e)];
              sent := S n |}.
    split; [| cbn [trace]; split; [exact Hrec' |]].
    + unfold Example5.main. unfold bind at 1. rewrite Hget. reflexivity.
    + destruct (quiet_no_pool _ Hq) as (P & S & F).
      pose proof (worker_no_uncaught _ (quiet_worker _ Hq)) as U.
      pose proof (worker_nothing_beyond _ (quiet_worker _ Hq)) as N.
      rewrite pools_app, submitted_app, files_written_app.
      unfold uncaught, not_modelled in *. rewrite !flat_map_app.
      cbn [pools submitted files_written flat_map app].
      fold (pools new) (submitted new) (files_written new).
      rewrite P, S, F, U, N. auto.
Qed.

(** When every page of the listing arrives, [get_hazard_collections]
    follows the next links to the last page, one request per page, and
    returns the ids that contain "-events" out of the collections of all the
    pages, in the order of the listing. *)
Theorem listing_follows_the_next_links
    (srv : Server) (pages : list Body) :
  chain srv Example5.first_listing_url pages ->
  forall fuel, (List.length pages < fuel)%nat ->
  exists st,
    Example5.get_hazard_collections fuel srv Effects.start
    = Some (Example5.hazard_collections_of (Listings.collections_of pages), st)
    /\ sent st = List.length pages
    /\ received (trace st) = pages
    /\ failures (trace st) = []
    /\ forall cid,
         In cid (Example5.hazard_collections_of (Listings.collections_of pages))
         <-> Text.contains "-events" cid = true
             /\ exists data collection,
                  In data pages
                  /\ In collection (Py.get (collections data) [])
                  /\ id collection = cid.
Proof.
  intros (init & final & n' & u' & -> & Hrun & Hfinal & Hno) fuel Hfuel.
  rewrite length_app in *. cbn [List.length] in *.
  assert (H : exists new,
             Example5.listing_pages fuel srv (Some Example5.listing_url) "?limit=100"
               [] 1 {| trace := [Print FetchingCollections]; sent := 0 |}
             = Some (Some (Listings.collections_of (init ++ [final])),
                     {| trace := Print FetchingCollections :: new;
                        sent := List.length init + 1 |})
             /\ forallb quiet new = true
             /\ received new = (init ++ [final])%list).
  { destruct init as [| first rest].
    - inversion Hrun; subst. destruct fuel as [| [| fuel]]; try (cbn in Hfuel; lia).
      eexists. split; [| split].
      + rewrite (listing_first_page _ srv
                   {| trace := [Print FetchingCollections]; sent := 0 |}
                   [] 1 final eq_refl Hfinal).
        rewrite (no_next_href _ Hno). unfold no_next in Hno. rewrite Hno.
        cbn [Example5.listing_pages truthy ret trace sent app
             Listings.collections_of flat_map List.length Nat.add].
        rewrite app_nil_r. reflexivity.
      + reflexivity.
      + reflexivity.
    - destruct (listing_all_pages srv first rest n' u' Hrun
                  {| trace := [Print FetchingCollections]; sent := 0 |} eq_refl)
        as (new & Hne & Hq & Hrec & Hloop).
      pose proof (run_length _ _ _ _ _ _ Hrun) as Hn'. cbn [List.length] in *.
      replace fuel
        with (S (List.length rest) + S (S (fuel - S (S (S (List.length rest))))))%nat
        by lia.
      eexists. split; [| split].
      + rewrite Hloop.
        rewrite (listing_step _ srv u' "" _ _ _ final Hne)
          by (rewrite append_empty; exact Hfinal).
        rewrite (no_next_href _ Hno).
        cbn [Example5.listing_pages truthy ret trace sent app].
        change (first :: rest ++ [final])%list with ((first :: rest) ++ [final])%list.
        rewrite (collections_of_snoc (first :: rest) final).
        unfold ret. subst n'.
        replace (S (0 + S (List.length rest))) with (S (List.length rest) + 1)%nat by lia.
        reflexivity.
      + rewrite forallb_app, Hq. reflexivity.
      + rewrite received_app, Hrec. cbn [received flat_map app].
        change (first :: rest ++ [final])%list with ((first :: rest) ++ [final])%list.
        reflexivity. }
  destruct H as (new & Hlist & Hq & Hrec).
  destruct (get_hazard_collections_listed fuel srv _ _ Hlist)
    as (tail & Hget & Hqt & Ht).
  eexists. split; [exact Hget |]. cbn [trace sent].
  assert (Hall : forallb quiet (new ++ tail) = true) by now rewrite forallb_app, Hq, Hqt.
  split; [reflexivity |]. split; [| split].
  - change ((Print FetchingCollections :: new) ++ tail)%list
      with (Print FetchingCollections :: (new ++ tail))%list.
    change (received (Print FetchingCollections :: (new ++ tail)))
      with (received (new ++ tail)).
    rewrite received_app, Hrec.
    now rewrite Ht, app_nil_r.
  - destruct (quiet_silent _ Hall) as (F & _). exact F.
  - intro cid. unfold Example5.hazard_collections_of. rewrite filter_In, in_map_iff.
    unfold Listings.collections_of. split.
    + intros [(c & Hid & Hin) Hc]. split; [exact Hc |].
      apply in_flat_map in Hin. destruct Hin as (data & Hd & Hcd).
      now exists data, c.
    + intros [Hc (data & c & Hd & Hcd & Hid)]. split; [| exact Hc].
      exists c. split; [exact Hid |]. apply in_flat_map. now exists data.
Qed.

End Listing.

(** ** The three ways of fetch_collection_count *)

Section CollectionCounts.
Import Http Effects Pages Kinds CountEventsPerCollection.

(** [fetch_collection_count] stops at the first total it finds: with a
    count in the summary of the collection it sends the one request for the
    metadata; without it, and with numberMatched in the answer to the
    limit=1 query, it sends these two requests; in neither case does it
    page through the items, whatever the number of items is. *)
Theorem collection_count_stops_at_first_total
    (fuel : nat) (srv srv' : Server) (cid : string)
    (summary summary' listing : Body) (n m : Z) :
  srv 0%nat (collection_url cid) = Json summary ->
  monty_count summary = Some n ->
  srv' 0%nat (collection_url cid) = Json summary' ->
  monty_count summary' = None ->
  srv' 1%nat (items_url cid) = Json listing ->
  numberMatched listing = Some m ->
  fetch_collection_count fuel srv cid Effects.start
  = Some ({| collection_id := cid; total_events := Items n |},
          {| trace := [Get (collection_url cid) (Json summary);
                       Print (FetchedFromSummary cid n)];
             sent := 1 |})
  /\ fetch_collection_count fuel srv' cid Effects.start
     = Some ({| collection_id := cid; total_events := Items m |},
             {| trace := [Get (collection_url cid) (Json summary');
                          Print (NoSummary cid);
                          Get (items_url cid) (Json listing);
                          Print (FetchedFromItems cid m)];
                sent := 2 |}).
Proof.
  intros Hs Hn Hs' Hn' Hl Hm. split.
  - unfold fetch_collection_count, Effects.start. run_effects.
    rewrite Hs, Hn. run_effects. reflexivity.
  - unfold fetch_collection_count, Effects.start. run_effects.
    rewrite Hs', Hn'. run_effects. rewrite Hl, Hm. run_effects. reflexivity.
Qed.

Lemma manual_pages_error srv cid u st e item_count fuel :
  u <> "" -> srv (sent st) u = RequestException e ->
  count_pages (S fuel) srv cid (Some u) item_count st
  = Some (ErrorDuringManualCount,
          {| trace := trace st ++ [Get u (RequestException e);
                                   Print (ManualCountError cid e)];
             sent := S (sent st) |}).
Proof.
  intros Hu Hsrv. cbn [count_pages]. rewrite (truthy_some u Hu). run_effects.
  change (url_text (Some u)) with u. rewrite Hsrv. run_effects.
  now rewrite <- app_assoc.
Qed.

(** A failed request makes [fetch_collection_count] return a text in place
    of the count and send nothing more: "Error" when the request for the
    metadata or the limit=1 query fails, "Error during manual count" when a
    page of the manual count fails, on whatever page; the items counted on
    the pages before are dropped. *)
Theorem collection_count_failures_become_texts
    (srv0 srv1 srv2 : Server) (cid e0 e1 e2 : string)
    (summary1 summary2 listing2 : Body) (pages : list Body) (n : nat) (u : string) :
  srv0 0%nat (collection_url cid) = RequestException e0 ->
  srv1 0%nat (collection_url cid) = Json summary1 ->
  monty_count summary1 = None ->
  srv1 1%nat (items_url cid) = RequestException e1 ->
  srv2 0%nat (collection_url cid) = Json summary2 ->
  monty_count summary2 = None ->
  srv2 1%nat (items_url cid) = Json listing2 ->
  numberMatched listing2 = None ->
  run srv2 2 (manual_url cid) pages n u ->
  srv2 n u = RequestException e2 ->
  (forall fuel,
     fetch_collection_count fuel srv0 cid Effects.start
     = Some ({| collection_id := cid; total_events := Error |},
             {| trace := [Get (collection_url cid) (RequestException e0);
                          Print (CollectionError cid e0)];
                sent := 1 |}))
  /\ (forall fuel,
        fetch_collection_count fuel srv1 cid Effects.start
        = Some ({| collection_id := cid; total_events := Error |},
                {| trace := [Get (collection_url cid) (Json summary1);
                             Print (NoSummary cid);
                             Get (items_url cid) (RequestException e1);
                             Print (CollectionError cid e1)];
                   sent := 2 |}))
  /\ (forall fuel, (List.length pages < fuel)%nat ->
        exists st,
          fetch_collection_count fuel srv2 cid Effects.start
          = Some ({| collection_id := cid; total_events := ErrorDuringManualCount |},
                  st)
          /\ total_cell ErrorDuringManualCount = Text "Error during manual count"
          /\ received (trace st) = (summary2 :: listing2 :: pages)%list
          /\ failures (trace st) = [e2]
          /\ sent st = S n).
Proof.
  intros H0 H1 Hn1 He1 H2 Hn2 Hl2 Hm2 Hrun He2. split; [| split].
  - intro fuel. unfold fetch_collection_count, Effects.start. run_effects.
    rewrite H0. run_effects. reflexivity.
  - intro fuel. unfold fetch_collection_count, Effects.start. run_effects.
    rewrite H1, Hn1. run_effects. rewrite He1. run_effects. reflexivity.
  - intros fuel Hfuel.
    set (st2 := {| trace := [Get (collection_url cid) (Json summary2);
                             Print (NoSummary cid);
                             Get (items_url cid) (Json listing2);
                             Print (ManualCountStart cid)];
                   sent := 2 |}).
    destruct (manual_pages_run srv2 cid pages 2 _ n u Hrun (manual_url_nonempty cid)
                st2 0 eq_refl)
      as (st3 & new & Hs3 & Hu & Htr & Hq & Hrec & Hloop).
    destruct (quiet_silent _ Hq) as (F & _).
    eexists. split; [| split; [reflexivity |]].
    + unfold fetch_collection_count, Effects.start. run_effects.
      rewrite H2, Hn2. run_effects. rewrite Hl2, Hm2.
      unfold count_items_manually.
      replace fuel with (List.length pages + S (fuel - S (List.length pages)))%nat by lia.
      unfold bind, print. cbn [emit trace sent app]. fold st2. rewrite Hloop.
      rewrite (manual_pages_error srv2 cid u st3 e2) by (rewrite ?Hs3; assumption).
      reflexivity.
    + cbn [trace sent]. rewrite Htr. subst st2. cbn [trace].
      rewrite !received_app, !failures_app, Hrec, F, Hs3.
      cbn. rewrite app_nil_r. auto.
Qed.

End CollectionCounts.

(** ** The table of count_events_per_collection *)

Section CollectionTable.
Import Http Effects Pages Kinds CountEventsPerCollection.

Lemma fetch_collection_count_id fuel srv cid st r st' :
  fetch_collection_count fuel srv cid st = Some (r, st') -> collection_id r = cid.
Proof.
  unfold fetch_collection_count. unfold bind at 1. cbn [session_get].
  destruct (srv (sent st) (collection_url cid)) as [e | data].
  - run_effects. intro H. now injection H as <- _.
  - destruct (monty_count data).
    + run_effects. intro H. now injection H as <- _.
    + unfold bind at 1. unfold print at 1. cbn [emit trace sent].
      unfold bind at 1. cbn [session_get trace sent].
      destruct (srv (S (sent st)) (items_url cid)) as [e | listing].
      * run_effects. intro H. now injection H as <- _.
      * destruct (numberMatched listing).
        -- run_effects. intro H. now injection H as <- _.
        -- unfold bind.
           destruct (count_items_manually fuel srv cid _) as [[t s] |]; [| discriminate].
           cbn [ret]. intro H. now injection H as <- _.
Qed.

Lemma collection_gather fuel task_srv done : forall results st,
  Forall2 (fun cid r => Tasks.collection_result fuel task_srv cid = Some r) done results ->
  exists work,
    gather fuel task_srv done st
    = Some (results, {| trace := trace st ++ work; sent := sent st |})
    /\ forallb worker_event work = true.
Proof.
  induction done as [| cid done IH]; intros results st Hall.
  - inversion Hall; subst. exists []. cbn [gather ret]. rewrite app_nil_r.
    now destruct st.
  - inversion Hall as [| ? r ? results' Hr Hrest]; subst.
    unfold Tasks.collection_result in Hr.
    destruct (fetch_collection_count fuel (task_srv cid) cid Effects.start)
      as [[r' st_task] |] eqn:Hrun; [| discriminate].
    injection Hr as ->.
    destruct (IH results' {| trace := trace st ++ trace st_task; sent := sent st |} Hrest)
      as (work & Hg & Hwork).
    exists (trace st_task ++ work)%list. split.
    + cbn [gather]. unfold bind at 1. rewrite (in_worker_run _ _ _ _ st Hrun).
      unfold bind. rewrite Hg. cbn [ret trace sent]. now rewrite <- app_assoc.
    + rewrite forallb_app, Hwork.
      rewrite (emits_from_start _ _ _ _ _
                 (count_events_per_collection_worker _ _ _) Hrun).
      reflexivity.
Qed.

Lemma worker_no_table t : forallb worker_event t = true -> Printed.tables t = [].
Proof.
  intro H. apply flat_map_all_nil. intros e He.
  rewrite forallb_forall in H. apply H in He.
  destruct e; try discriminate; reflexivity.
Qed.

(** The table that count_events_per_collection prints has one line for
    each collection of the listing, sorted by collection id whatever the
    order in which the tasks completed; the line of a collection holds the
    total its task returned, a count or the text of its failure. *)
Theorem table_lists_every_collection_sorted
    (fuel : nat) (srv : Server) (task_srv : string -> Server)
    (completion : list string -> list string) (listing : Body)
    (results : list Result) :
  srv 0%nat listing_url = Json listing ->
  map id (Py.get (collections listing) []) <> [] ->
  Permutation (completion (map id (Py.get (collections listing) [])))
              (map id (Py.get (collections listing) [])) ->
  Forall2 (fun cid r => Tasks.collection_result fuel task_srv cid = Some r)
          (map id (Py.get (collections listing) [])) results ->
  exists st index rows,
    main fuel srv task_srv completion Effects.start = Some (tt, st)
    /\ Printed.tables (trace st) = [(index, rows)]
    /\ Permutation index (map id (Py.get (collections listing) []))
    /\ StronglySorted Text.str_le index
    /\ Forall2 (fun cid row =>
                  exists r, In r results /\ collection_id r = cid
                            /\ row = [total_cell (total_events r)])
               index rows
    /\ uncaught (trace st) = []
    /\ not_modelled (trace st) = [].
Proof.
  intros Hsrv Hne Hperm Hall.
  remember (map id (Py.get (collections listing) [])) as cids eqn:Ecids.
  destruct (Permutation_Forall2 (Permutation_sym Hperm) Hall)
    as (results' & Hres & Hall').
  set (st1 := {| trace := [Print FetchingCollections; Get listing_url (Json listing);
                           Print (FoundCount (Py.len cids)); PoolStart 10]
                          ++ map (fun cid => Submit cid "") cids;
                 sent := 1 |}).
  destruct (collection_gather fuel task_srv (completion cids) results' st1 Hall')
    as (work & Hg & Hwork).
  assert (Hids : map collection_id results' = completion cids).
  { clear - Hall'. induction Hall' as [| cid r done rs Hr _ IH]; [reflexivity |].
    cbn [map]. rewrite IH. f_equal.
    unfold Tasks.collection_result in Hr.
    destruct (fetch_collection_count fuel (task_srv cid) cid Effects.start)
      as [[r' st'] |] eqn:E; [| discriminate].
    injection Hr as ->. exact (fetch_collection_count_id _ _ _ _ _ _ E). }
  assert (Hne' : results' <> []).
  { intros ->. cbn in Hids. rewrite <- Hids in Hperm.
    apply Permutation_nil in Hperm. congruence. }
  set (sorted := Text.sorted_by collection_id results').
  exists {| trace := (trace st1 ++ work)
                     ++ [PrintTable (map collection_id sorted)
                           (map (fun r => [total_cell (total_events r)]) sorted)];
            sent := 1 |},
    (map collection_id sorted),
    (map (fun r => [total_cell (total_events r)]) sorted).
  assert (Hsorted : Permutation sorted results')
    by apply (sorted_by_perm _ collection_id).
  split; [| split; [| split; [| split; [| split]]]].
  - unfold main, get_all_collections, Effects.start.
    unfold bind at 1. unfold print at 1. cbn [emit trace sent app].
    unfold bind at 1. unfold bind at 1. cbn [session_get trace sent]. rewrite Hsrv.
    cbn [ret]. rewrite <- Ecids.
    assert (Hcase : forall (A B : Type) (l : list B) (x y : A),
               l <> [] -> match l with [] => x | _ :: _ => y end = y)
      by (intros A B l x y Hl; destruct l; congruence).
    rewrite (Hcase _ _ cids) by exact Hne.
    unfold bind at 1. unfold print at 1. cbn [emit trace sent app].
    unfold bind at 1. cbn [emit trace sent app].
    unfold bind at 1.
    rewrite (for_each_emit _ _ _ (fun cid => Submit cid "")) by reflexivity.
    cbn [trace sent]. fold st1. unfold bind at 1. rewrite Hg.
    rewrite (Hcase _ _ results') by exact Hne'.
    fold sorted. reflexivity.
  - cbn [trace]. unfold Printed.tables. rewrite !flat_map_app.
    fold (Printed.tables work). rewrite (worker_no_table _ Hwork).
    subst st1. cbn [trace]. rewrite flat_map_app, flat_map_map.
    rewrite (flat_map_all_nil _ _ _ cids) by reflexivity. reflexivity.
  - rewrite Hsorted, Hids. exact Hperm.
  - pose proof (sorted_by_sorted _ collection_id results') as Hs. fold sorted in Hs.
    clear - Hs. induction Hs as [| r l Hs IH Hr]; [constructor |].
    cbn [map]. constructor; [exact IH |].
    apply Forall_map. exact Hr.
  - assert (Hin : forall r, In r sorted -> In r results).
    { intros r Hr. apply (Permutation_in _ (Permutation_sym Hres)).
      now apply (Permutation_in _ Hsorted). }
    clear - Hin. induction sorted as [| r l IH]; cbn [map]; constructor.
    + exists r. split; [apply Hin; now left | auto].
    + apply IH. intros r' Hr'. apply Hin. now right.
  - pose proof (worker_no_uncaught _ Hwork) as U.
    pose proof (worker_nothing_beyond _ Hwork) as N.
    cbn [trace]. unfold uncaught, not_modelled in *. rewrite !flat_map_app, U, N.
    subst st1. cbn [trace]. rewrite !flat_map_app, !flat_map_map.
    rewrite !(flat_map_all_nil _ _ _ cids) by reflexivity. split; reflexivity.
Qed.

End CollectionTable.

(** ** What the tasks and the mains leave alone *)

Section Untouched.
Import Http Effects Pages Kinds TaskKinds.





Lemma make_tasks_NoDup A B (cs : list A) (bins : list B) :
  NoDup cs -> NoDup bins ->
  NoDup (flat_map (fun c => map (fun b => (c, b)) bins) cs).
Proof.
  intros Hc Hb. induction Hc as [| c cs Hnot Hc IH]; [constructor |].
  cbn [flat_map]. apply NoDup_app.
  - apply Finite.Injective_map_NoDup; [| exact Hb].
    intros b1 b2 E. now injection E.
  - exact IH.
  - intros [c' b'] H1 H2. apply in_map_iff in H1. destruct H1 as (b & E & _).
    injection E as <- <-. apply make_tasks_In in H2. now destruct H2.
Qed.

(** The tasks of a batch are the pairs of a collection and a time bin,
    collection by collection and, within a collection, bin by bin: every
    pair is a task, there are as many tasks as pairs, and a pair is not
    submitted twice when no collection is listed twice and the bins are
    distinct. *)
Theorem tasks_are_the_pairs_of_collection_and_bin
    (collections : list string)
    (bins_y : list CountEventsByYear.TimeBin) (bins_5 : list Example5.TimeBin) :
  (forall c b, In (c, b) (CountEventsByYear.make_tasks collections bins_y)
               <-> In c collections /\ In b bins_y)
  /\ (forall c b, In (c, b) (Example5.make_tasks collections bins_5)
                  <-> In c collections /\ In b bins_5)
  /\ Py.len (CountEventsByYear.make_tasks collections bins_y)
     = Py.len collections * Py.len bins_y
  /\ Py.len (Example5.make_tasks collections bins_5)
     = Py.len collections * Py.len bins_5
  /\ (NoDup collections -> NoDup bins_y ->
      NoDup (CountEventsByYear.make_tasks collections bins_y))
  /\ (NoDup collections -> NoDup bins_5 ->
      NoDup (Example5.make_tasks collections bins_5))
  /\ map fst (CountEventsByYear.make_tasks collections bins_y)
     = flat_map (fun c => map (fun _ => c) bins_y) collections
  /\ map fst (Example5.make_tasks collections bins_5)
     = flat_map (fun c => map (fun _ => c) bins_5) collections.
Proof.
  unfold CountEventsByYear.make_tasks, Example5.make_tasks, Py.len.
  split; [intros; apply make_tasks_In |].
  split; [intros; apply make_tasks_In |].
  split; [rewrite <- Nat2Z.inj_mul; f_equal; apply make_tasks_length |].
  split; [rewrite <- Nat2Z.inj_mul; f_equal; apply make_tasks_length |].
  split; [apply make_tasks_NoDup |].
  split; [apply make_tasks_NoDup |].
  split.
  - induction collections as [| c cs IH]; [reflexivity |].
    cbn [flat_map]. rewrite map_app, IH, map_map. reflexivity.
  - induction collections as [| c cs IH]; [reflexivity |].
    cbn [flat_map]. rewrite map_app, IH, map_map. reflexivity.
Qed.

End Untouched.

(** ** The error log and the CSV of example_3_optimized *)

Section ErrorLog.
Import Http Effects Pages Kinds TaskKinds Example3Optimized.

Lemma try_page_after_reset srv cid chunk_label url pc attempts :
  emits_only after_reset (try_page srv cid chunk_label url pc attempts).
Proof.
  induction attempts as [| a attempts IH]; cbn [try_page];
    unfold write_error_entry; emits. apply IH.
Qed.

Lemma fetch_pages_after_reset srv cid chunk_label fuel : forall url pc ti counter,
  emits_only after_reset (fetch_pages fuel srv cid chunk_label url pc ti counter).
Proof.
  induction fuel as [| fuel IH]; intros; cbn [fetch_pages].
  - emits.
  - destruct (truthy url); [| emits].
    apply emits_only_bind; [apply try_page_after_reset |].
    intros [data | entry |]; [apply IH | emits | apply IH].
Qed.

Lemma gather_after_reset fuel task_srv cid total done :
  forall counter errors completed,
    emits_only after_reset (gather fuel task_srv cid total done counter errors completed).
Proof.
  induction done as [| chunk done IH]; intros; cbn [gather].
  - emits.
  - apply emits_only_bind.
    + apply emits_only_in_worker. unfold fetch_time_chunk. emits.
      apply fetch_pages_after_reset.
    + intros [chunk_counter error]. emits; apply IH.
Qed.

(** A run of example_3_optimized starts from an empty error log: when the
    error file of an earlier run exists it is removed first, before any
    request is sent, and nothing is removed after that; the lines appended
    later all go to that file, and the only file written is the CSV. *)
Theorem error_log_is_reset_before_the_run
    (fuel : nat) (now : Calendar.datetime) (error_file_exists : bool)
    (task_srv : TimeChunk -> Server) (completion : list TimeChunk -> list TimeChunk)
    (st : State) :
  main fuel now error_file_exists task_srv completion Effects.start = Some (tt, st) ->
  exists rest,
    trace st = ((if error_file_exists then [RemoveFile ERROR_FILE] else []) ++ rest)%list
    /\ forallb after_reset rest = true
    /\ removed rest = []
    /\ Forall (fun file => file = ERROR_FILE) (appended_to rest)
    /\ Forall (fun file => file = OUTPUT_FILE) (files_written rest).
Proof.
  intro Hmain. unfold main in Hmain. unfold bind at 1 in Hmain.
  assert (Hrest : emits_only after_reset
            (fetched <- fetch_country_counts_parallel fuel now task_srv completion
                          COLLECTION_ID ;;
             match fetched with
             | inr stopped => stop stopped
             | inl country_counts =>
                 match country_counts with
                 | [] => print NoDataProcessed
                 | _ =>
                     emit (WriteCsv OUTPUT_FILE (csv_rows country_counts)) ;;;
                     print (ResultsSaved OUTPUT_FILE (Py.len country_counts)
                              (Frame.sum (map snd country_counts)))
                 end ;;;
                 print ExecutionTime
             end)%effect).
  { unfold fetch_country_counts_parallel, get_collection_temporal_extent.
    emits; apply gather_after_reset. }
  assert (Hkinds : forall rest, forallb after_reset rest = true ->
             removed rest = []
             /\ Forall (fun file => file = ERROR_FILE) (appended_to rest)
             /\ Forall (fun file => file = OUTPUT_FILE) (files_written rest)).
  { induction rest as [| e rest IH]; [repeat constructor |].
    cbn [forallb]. intro H. apply andb_true_iff in H. destruct H as [He Hr].
    destruct (IH Hr) as (R & A & F).
    destruct e; try discriminate; cbn; auto;
      apply String.eqb_eq in He; subst; auto. }
  destruct error_file_exists.
  - cbn [emit Effects.start trace sent app] in Hmain.
    destruct (Hrest _ _ _ Hmain) as (rest & Htr & Hall). cbn [trace] in Htr.
    exists rest. split; [exact Htr |]. split; [exact Hall | now apply Hkinds].
  - cbn [ret] in Hmain.
    destruct (Hrest _ _ _ Hmain) as (rest & Htr & Hall). cbn [trace Effects.start] in Htr.
    exists rest. split; [exact Htr |]. split; [exact Hall | now apply Hkinds].
Qed.

End ErrorLog.

(** ** count_events_by_year when no task gives a count *)

Section NoCount.
Import Http Effects Pages Kinds.

(** When the request of every task of count_events_by_year fails, every
    row is an error row: the frame is empty after the filter, no sheet is
    written, and the writer fails when it is closed; [main] ends with that
    exception, after all the tasks ran, and saves no workbook. *)
Theorem no_count_at_all_leaves_no_workbook
    (fuel : nat) (now : Calendar.datetime) (srv : Server)
    (task_srv : string -> string -> Server)
    (completion : list CountEventsByYear.Task -> list CountEventsByYear.Task)
    (listing : Body) (bins : list CountEventsByYear.TimeBin) :
  srv 0%nat CountEventsByYear.listing_url = Json listing ->
  CountEventsByYear.event_collections_of listing <> [] ->
  CountEventsByYear.generate_time_bins fuel now = Some bins ->
  Permutation
    (completion (CountEventsByYear.make_tasks
                   (CountEventsByYear.event_collections_of listing) bins))
    (CountEventsByYear.make_tasks (CountEventsByYear.event_collections_of listing) bins) ->
  (forall t,
     In t (CountEventsByYear.make_tasks
             (CountEventsByYear.event_collections_of listing) bins) ->
     exists e,
       task_srv (fst t) (CountEventsByYear.label (snd t)) 0%nat
         (CountEventsByYear.count_url (fst t) (snd t)) = RequestException e) ->
  exists st,
    CountEventsByYear.main fuel now srv task_srv completion Effects.start = Some (tt, st)
    /\ submitted (trace st)
       = map (fun t => (fst t, CountEventsByYear.label (snd t)))
           (CountEventsByYear.make_tasks
              (CountEventsByYear.event_collections_of listing) bins)
    /\ workbooks (trace st) = []
    /\ uncaught (trace st) = [Frame.no_sheet_error].
Proof.
  intros Hsrv Hne Hbins Hperm Hfail.
  destruct (count_events_by_year_batch fuel now srv task_srv completion listing bins
              Hsrv Hne Hbins) as (st & rows & Hmain & Hrows & _ & S & W & U & _).
  { intro Hnil. rewrite Hnil in Hperm. apply Permutation_nil in Hperm.
    revert Hperm. apply make_tasks_nonempty; [exact Hne |].
    exact (generate_time_bins_nonempty _ _ _ Hbins). }
  assert (Hnone : existsb CountEventsByYear.is_counted rows = false).
  { assert (Hin : forall t, In t (completion
                     (CountEventsByYear.make_tasks
                        (CountEventsByYear.event_collections_of listing) bins)) ->
                   exists e,
                     task_srv (fst t) (CountEventsByYear.label (snd t)) 0%nat
                       (CountEventsByYear.count_url (fst t) (snd t))
                     = RequestException e).
    { intros t Ht. apply Hfail. now apply (Permutation_in _ Hperm). }
    clear - Hrows Hin. induction Hrows as [| t row done rows Hrow _ IH]; [reflexivity |].
    cbn [existsb]. rewrite IH by (intros t' Ht'; apply Hin; now right).
    destruct (Hin t (or_introl eq_refl)) as (e & He).
    rewrite (failed_count_row task_srv t e He) in Hrow. injection Hrow as <-.
    reflexivity. }
  rewrite Hnone, andb_false_r in W. rewrite Hnone in U. exists st. auto.
Qed.

End NoCount.

(** ** The CSV of example_3_optimized, written *)

Section CsvWritten.
Import Http Effects Pages Kinds TaskKinds Example3Optimized.

Lemma example3_gather_before_output fuel task_srv cid total done :
  forall counter errors completed,
    emits_only before_output
      (gather fuel task_srv cid total done counter errors completed).
Proof.
  induction done as [| chunk done IH]; intros; cbn [gather].
  - emits.
  - apply emits_only_bind.
    + apply emits_only_in_worker.
      apply (emits_only_weaken worker_event); [| apply example3_worker].
      intros e He. destruct e; try discriminate; reflexivity.
    + intros [chunk_counter error]. emits; apply IH.
Qed.

Lemma fetch_country_counts_before_output fuel now task_srv completion cid :
  emits_only before_output
    (fetch_country_counts_parallel fuel now task_srv completion cid).
Proof.
  unfold fetch_country_counts_parallel, get_collection_temporal_extent.
  emits; apply example3_gather_before_output.
Qed.

Lemma before_output_projections t :
  forallb before_output t = true ->
  csv_files t = [] /\ uncaught t = [] /\ not_modelled t = [].
Proof.
  intro H. repeat split; apply flat_map_all_nil; intros e He;
    rewrite forallb_forall in H; apply H in He;
    destruct e; try discriminate; reflexivity.
Qed.

(** The chunks of a run: enough fuel gives them. *)
Lemma chunks_at_returns fuel now :
  Calendar.fromisoformat (Calendar.replace_Z (Calendar.strftime now)) = Some now ->
  Calendar.in_range
    (now + Calendar.timedelta_days (365 * YEARS_PER_CHUNK)) = true ->
  (Z.to_nat ((now - Calendar.make START_YEAR 1 1 0 0 0)
             / Calendar.timedelta_days (365 * YEARS_PER_CHUNK)) + 1 < fuel)%nat ->
  exists chunks, Partition.chunks_at fuel now = Some (Value chunks).
Proof.
  intros Hclock Hend Hfuel.
  unfold Partition.chunks_at, get_collection_temporal_extent, bind, print, emit, ret.
  cbn [Effects.start trace sent].
  unfold generate_time_chunks. rewrite Hclock.
  change (Calendar.fromisoformat
            (Calendar.replace_Z (Text.str_of_Z START_YEAR ++ "-01-01T00:00:00Z")))
    with (Some (Calendar.make START_YEAR 1 1 0 0 0)).
  set (t0 := Calendar.make START_YEAR 1 1 0 0 0) in *.
  set (d := Calendar.timedelta_days (365 * YEARS_PER_CHUNK)) in *.
  assert (Hd : 0 < d) by reflexivity.
  destruct (Z_lt_ge_dec t0 now) as [Hl | Hl].
  - destruct (chunks_from_tiling YEARS_PER_CHUNK now
                (Z.to_nat ((now - t0) / d) + 1) ltac:(unfold YEARS_PER_CHUNK; lia) Hend t0
                ltac:(reflexivity) Hl) as (rs & _ & Run).
    + fold d. rewrite Nat2Z.inj_add, Z2Nat.id by (apply Z.div_pos; lia).
      change (Z.of_nat 1) with 1.
      pose proof (Z.mod_pos_bound (now - t0) d Hd).
      pose proof (Z.div_mod (now - t0) d ltac:(lia)). nia.
    + exists (map Partition.chunk_of rs). now rewrite Run.
  - exists []. destruct fuel as [| fuel]; [lia |]. cbn [chunks_from].
    replace (t0 <? now) with false by (symmetry; apply Z.ltb_ge; lia).
    reflexivity.
Qed.

Lemma chunk_results_exist fuel task_srv cid :
  (forall chunk, Tasks.chunk_result fuel task_srv cid chunk <> None) ->
  forall done, exists results,
    Forall2 (fun chunk r => Tasks.chunk_result fuel task_srv cid chunk = Some r)
            done results.
Proof.
  intros Hall done. induction done as [| chunk done (results & IH)].
  - exists []. constructor.
  - destruct (Tasks.chunk_result fuel task_srv cid chunk) as [r |] eqn:E;
      [| now elim (Hall chunk)].
    exists (r :: results). now constructor.
Qed.

Lemma fetch_country_counts_returns fuel now task_srv completion cid chunks results :
  1000 <= Calendar.year now ->
  Partition.chunks_at fuel now = Some (Value chunks) ->
  Forall2 (fun chunk r => Tasks.chunk_result fuel task_srv cid chunk = Some r)
          (completion chunks) results ->
  forall st0, exists st',
    fetch_country_counts_parallel fuel now task_srv completion cid st0
    = Some (inl (Tasks.merged [] results), st').
Proof.
  intros Hyear Hchunks Hall st0. apply Z.ltb_ge in Hyear.
  rewrite chunks_at_extent in Hchunks.
  unfold fetch_country_counts_parallel, get_collection_temporal_extent.
  unfold bind at 1. unfold print at 1. cbn [emit].
  unfold bind at 1. unfold bind at 1. unfold print at 1. cbn [emit].
  unfold bind at 1. unfold print at 1. cbn [emit ret].
  rewrite Hyear, Hchunks.
  unfold bind at 1. unfold print at 1. cbn [emit].
  unfold bind at 1. cbn [emit].
  unfold bind at 1.
  rewrite (for_each_emit _ _ _ (fun chunk => Submit cid (label chunk))) by reflexivity.
  unfold bind at 1.
  match goal with
  | |- context [gather _ _ _ _ _ _ _ _ ?st] =>
      destruct (example3_gather fuel task_srv cid (Py.len chunks) (completion chunks)
                  results [] [] 0 st Hall) as (work & Hg & _)
  end.
  rewrite Hg. unfold bind at 1. unfold print at 1. cbn [emit].
  destruct (([] ++ Tasks.errors_of results)%list);
    unfold bind, print, ret; cbn [emit]; eexists; reflexivity.
Qed.

(** C8: the CSV of example_3_optimized.  [main] returns and writes it:
    when the clock reads a time [now] from the year 1000 on (where every
    platform formats the year alike) that its format gives back, five
    years before the end of the calendar at the latest, and every task
    returns, then with fuel for the chunks [main] returns, nothing is left
    uncaught, and the trace holds exactly one CSV, the output file, made of
    the counts of all the tasks merged: a header row followed by one row
    of two columns per country code, the code and its count, with counts
    that never rise from one row to the next.  Only when there is no count
    at all is no file written.  And whenever [main] returns, whatever the
    servers do, a CSV in its trace is of that form. *)
Theorem csv_rows_sorted_by_count
    (fuel : nat) (now : Calendar.datetime) (error_file_exists : bool)
    (task_srv : TimeChunk -> Server)
    (completion : list TimeChunk -> list TimeChunk) :
  1000 <= Calendar.year now ->
  Calendar.fromisoformat (Calendar.replace_Z (Calendar.strftime now)) = Some now ->
  Calendar.in_range
    (now + Calendar.timedelta_days (365 * YEARS_PER_CHUNK)) = true ->
  (Z.to_nat ((now - Calendar.make START_YEAR 1 1 0 0 0)
             / Calendar.timedelta_days (365 * YEARS_PER_CHUNK)) + 1 < fuel)%nat ->
  (forall chunk, Tasks.chunk_result fuel task_srv COLLECTION_ID chunk <> None) ->
  (exists st chunks results,
     main fuel now error_file_exists task_srv completion Effects.start = Some (tt, st)
     /\ Partition.chunks_at fuel now = Some (Value chunks)
     /\ Forall2 (fun chunk r =>
                   Tasks.chunk_result fuel task_srv COLLECTION_ID chunk = Some r)
          (completion chunks) results
     /\ csv_files (trace st)
        = match Tasks.merged [] results with
          | [] => []
          | _ => [(OUTPUT_FILE,
                   [Text "country_code"; Text "event_count"]
                   :: map (fun kv => [Text (fst kv); Int (snd kv)])
                          (Py.most_common (Tasks.merged [] results)))]
          end
     /\ Sorted Py.by_count_desc (Py.most_common (Tasks.merged [] results))
     /\ Permutation (Py.most_common (Tasks.merged [] results))
          (Tasks.merged [] results)
     /\ uncaught (trace st) = []
     /\ not_modelled (trace st) = [])
  /\ (forall fuel' now' error_file_exists' task_srv' completion' st',
        main fuel' now' error_file_exists' task_srv' completion' Effects.start
        = Some (tt, st') ->
        forall file rows,
          In (WriteCsv file rows) (trace st') ->
          file = OUTPUT_FILE
          /\ exists ranked,
               rows = [Text "country_code"; Text "event_count"]
                      :: map (fun kv => [Text (fst kv); Int (snd kv)]) ranked
               /\ ranked <> []
               /\ Sorted Py.by_count_desc ranked)
  /\ (forall country_counts,
        csv_rows country_counts
        = [Text "country_code"; Text "event_count"]
          :: map (fun kv => [Text (fst kv); Int (snd kv)])
                 (Py.most_common country_counts)
        /\ Sorted Py.by_count_desc (Py.most_common country_counts)
        /\ Permutation (Py.most_common country_counts) country_counts).
Proof.
  intros Hyear Hclock Hend Hfuel Htasks. split; [| split].
  - destruct (chunks_at_returns fuel now Hclock Hend Hfuel) as (chunks & Hchunks).
    destruct (chunk_results_exist fuel task_srv COLLECTION_ID Htasks (completion chunks))
      as (results & Hall).
    set (st1 := {| trace := if error_file_exists then [RemoveFile ERROR_FILE] else [];
                   sent := 0 |}).
    destruct (fetch_country_counts_returns fuel now task_srv completion COLLECTION_ID
                chunks results Hyear Hchunks Hall st1) as (st2 & Hrun).
    destruct (fetch_country_counts_before_output _ _ _ _ _ _ _ _ Hrun)
      as (new & Htr & Hnew).
    destruct (before_output_projections new Hnew) as (C & U & N).
    assert (Hfirst : forall A (k : unit -> M A),
               bind (if error_file_exists then emit (RemoveFile ERROR_FILE) else ret tt)
                    k Effects.start
               = k tt st1).
    { intros A k. unfold bind. subst st1. now destruct error_file_exists. }
    assert (Hpre : csv_files (trace st2) = [] /\ uncaught (trace st2) = []
                   /\ not_modelled (trace st2) = []).
    { rewrite Htr. unfold csv_files, uncaught, not_modelled.
      rewrite !flat_map_app. fold (csv_files new) (uncaught new) (not_modelled new).
      rewrite C, U, N. subst st1. now destruct error_file_exists. }
    destruct Hpre as (C2 & U2 & N2).
    destruct (most_common_sorted (Tasks.merged [] results)) as [Hsorted Hperm].
    destruct (Tasks.merged [] results) as [| kv counts] eqn:Ecounts.
    + eexists _, chunks, results.
      split; [unfold main; rewrite Hfirst; unfold bind at 1; rewrite Hrun;
              unfold bind, print; cbn [emit]; reflexivity |].
      rewrite Ecounts. cbn [trace]. unfold csv_files, uncaught, not_modelled in *.
      rewrite !flat_map_app, C2, U2, N2. repeat split; auto.
    + eexists _, chunks, results.
      split; [unfold main; rewrite Hfirst; unfold bind at 1; rewrite Hrun;
              unfold bind, print; cbn [emit]; reflexivity |].
      rewrite Ecounts. cbn [trace]. unfold csv_files, uncaught, not_modelled in *.
      rewrite !flat_map_app, C2, U2, N2. repeat split; auto.
  - clear. intros fuel now error_file_exists task_srv completion st Hmain file rows Hin.
    unfold main, bind in Hmain.
    destruct ((if error_file_exists
               then emit (RemoveFile ERROR_FILE)
               else ret tt) Effects.start) as [[[] st1] |] eqn:E1; [| discriminate].
    assert (H1 : exists new, trace st1 = new /\ forallb no_file_written new = true).
    { destruct error_file_exists; injection E1 as <-; eexists; split; reflexivity. }
    destruct H1 as (new1 & T1 & F1).
    destruct (fetch_country_counts_parallel fuel now task_srv completion
                COLLECTION_ID st1)
      as [[fetched st2] |] eqn:E2; [| discriminate].
    destruct (fetch_country_counts_no_file _ _ _ _ _ _ _ _ E2) as (new2 & T2 & F2).
    assert (Hpre : ~ In (WriteCsv file rows) (trace st2)).
    { rewrite T2, T1. intro Hc. apply in_app_or in Hc.
      destruct Hc as [Hc | Hc];
        [apply (forallb_In _ _ _ F1) in Hc | apply (forallb_In _ _ _ F2) in Hc];
        discriminate. }
    destruct fetched as [[| kv counts] | stopped].
    + revert Hmain. unfold print, emit. cbn. intro Hmain. injection Hmain as <-.
      cbn [trace] in Hin. rewrite <- app_assoc in Hin. apply in_app_or in Hin.
      destruct Hin as [Hin | Hin]; [contradiction |].
      simpl in Hin. destruct Hin as [Hin | [Hin | []]]; discriminate.
    + revert Hmain. unfold print, emit. cbn [trace sent]. intro Hmain.
      injection Hmain as <-. cbn [trace] in Hin.
      repeat (apply in_app_or in Hin; destruct Hin as [Hin | Hin]);
        try contradiction;
        try (simpl in Hin; destruct Hin as [Hin | []]; discriminate).
      simpl in Hin. destruct Hin as [Hin | []]. injection Hin as <- <-.
      split; [reflexivity |].
      exists (Py.most_common (kv :: counts)). split; [reflexivity |]. split.
      * intro Hnil. destruct (most_common_sorted (kv :: counts)) as [_ Pm].
        rewrite Hnil in Pm. now apply Permutation_nil in Pm.
      * apply most_common_sorted.
    + revert Hmain. destruct stopped; unfold stop, emit; intro Hmain;
        injection Hmain as <-; cbn [trace] in Hin; apply in_app_or in Hin;
        (destruct Hin as [Hin | Hin]; [contradiction |]);
        simpl in Hin; destruct Hin as [Hin | []]; discriminate.
  - intro country_counts. split; [reflexivity |]. apply most_common_sorted.
Qed.

End CsvWritten.

Section CsvRuns.
Import Http Effects Example3Optimized.

Lemma csv_rows_sorted_by_count_witness :
  exists st chunks results,
    main 30 Scenario.noon false (fun _ => Mock.two_pages) (fun chunks => chunks)
      Effects.start = Some (tt, st)
    /\ Partition.chunks_at 30 Scenario.noon = Some (Value chunks)
    /\ List.length chunks = 19%nat
    /\ Forall2 (fun chunk r =>
                  Tasks.chunk_result 30 (fun _ => Mock.two_pages) COLLECTION_ID chunk
                  = Some r)
         chunks results
    /\ csv_files (trace st)
       = [(OUTPUT_FILE,
           [[Text "country_code"; Text "event_count"];
            [Text "US"; Int 38]; [Text "CA"; Int 19]; [Text "MX"; Int 19]])]
    /\ uncaught (trace st) = []
    /\ not_modelled (trace st) = [].
Proof.
  destruct (csv_rows_sorted_by_count 30 Scenario.noon false (fun _ => Mock.two_pages)
              (fun chunks => chunks))
    as ((st & chunks & results & Hmain & Hchunks & Hall & _ & _ & _ & U & N) & _).
  - vm_compute. discriminate.
  - vm_compute. reflexivity.
  - vm_compute. reflexivity.
  - apply Nat.ltb_lt. vm_compute. reflexivity.
  - intro chunk. vm_compute. discriminate.
  - exists st, chunks, results.
    assert (Htrace : trace st = Mock.trace_of Mock.csv_run).
    { unfold Mock.trace_of.
      change Mock.csv_run
        with (main 30 Scenario.noon false (fun _ => Mock.two_pages)
                (fun chunks => chunks) Effects.start).
      now rewrite Hmain. }
    split; [exact Hmain |]. split; [exact Hchunks |]. split.
    { revert Hchunks. vm_compute. intro H. injection H as <-. reflexivity. }
    split; [exact Hall |]. split; [| split; [exact U | exact N]].
    rewrite Htrace. vm_compute. reflexivity.
Defined.

End CsvRuns.

(** ** Examples of the properties above *)

Section Runs.
Import Http Effects Pages Kinds Retries Tally TaskKinds Mock Examples.

Lemma combined_counts_are_sums_of_chunk_counts_witness :
  exists combined st,
    Example3Optimized.fetch_country_counts_parallel 30 june_1941
      (fun _ => two_pages) (@rev _) Example3Optimized.COLLECTION_ID Effects.start
    = Some (inl combined, st)
    /\ (forall code,
          Py.counter_get combined code
          = Frame.sum (map (fun r => Py.counter_get (fst r) code) results_1941))
    /\ well_formed combined
    /\ In (Print (CompletedChunks (Py.len chunks_1941) (Py.len chunks_1941)))
          (trace st)
    /\ (Tasks.errors_of results_1941 <> [] ->
        In (Print (ErrorsLogged (Py.len (Tasks.errors_of results_1941)))) (trace st)).
Proof.
  apply (combined_counts_are_sums_of_chunk_counts 30 june_1941 (fun _ => two_pages)
           (@rev _) Example3Optimized.COLLECTION_ID chunks_1941 results_1941).
  - vm_compute. discriminate.
  - vm_compute. reflexivity.
  - apply Permutation_sym, Permutation_rev.
  - repeat (constructor; [vm_compute; reflexivity |]). constructor.
Defined.

Lemma transient_failures_leave_no_trace_in_the_tally_witness :
  exists st,
    Example3Optimized.fetch_time_chunk 3 flaky "usgs-events" chunk3 Effects.start
    = Some ((Example3Optimized.tally_pages [] [first_page; second_page], None), st)
    /\ sent st = 5%nat
    /\ received (trace st) = [first_page; second_page]
    /\ error_log (trace st) = []
    /\ Forall (fun s => s = 1 \/ s = 2) (sleeps (trace st))
    /\ List.length (sleeps (trace st)) = List.length (failures (trace st))
    /\ (List.length (failures (trace st)) + List.length [first_page; second_page]
        = 5)%nat
    /\ In (Print (ChunkCompleted (Example3Optimized.label chunk3)
                    (items [first_page; second_page])
                    (Py.len [first_page; second_page])))
          (trace st).
Proof.
  apply (transient_failures_leave_no_trace_in_the_tally flaky "usgs-events" chunk3
           [first_page; second_page] 5).
  - apply (retried_more flaky 0 _ 1 first_page "page2" [second_page] 5).
    + lia.
    + intros i Hi. exists "timeout". destruct i as [| i]; [reflexivity | lia].
    + reflexivity.
    + reflexivity.
    + discriminate.
    + apply (retried_last flaky 2 "page2" 2 second_page).
      * lia.
      * intros i Hi. exists "timeout".
        destruct i as [| [| i]]; [reflexivity | reflexivity | lia].
      * reflexivity.
      * reflexivity.
  - simpl. lia.
Defined.

Lemma nonpositive_step_never_returns_witness :
  (forall fuel, Example5.generate_time_bins fuel Scenario.noon 1800 0 = None)
  /\ (forall fuel,
        Example3Optimized.generate_time_chunks fuel "1934-01-01T00:00:00Z"
          "2026-11-04T12:00:00Z" 0 = None)
  /\ (-5 < 0 ->
      exists fuel0, forall fuel, (fuel0 <= fuel)%nat ->
        Example3Optimized.generate_time_chunks fuel "1934-01-01T00:00:00Z"
          "2026-11-04T12:00:00Z" (-5)
        = Some Example3Optimized.OverflowError).
Proof.
  apply (nonpositive_step_never_returns Scenario.noon 1800 0
           "1934-01-01T00:00:00Z" "2026-11-04T12:00:00Z"
           (Calendar.make 1934 1 1 0 0 0) Scenario.noon (-5)).
  - lia.
  - vm_compute. discriminate.
  - vm_compute. reflexivity.
  - vm_compute. reflexivity.
  - vm_compute. reflexivity.
  - vm_compute. reflexivity.
Defined.

Lemma listing_failure_on_any_page_ends_the_run_witness :
  (exists st,
     Example5.get_hazard_collections 2 listing_breaks Effects.start = Some ([], st)
     /\ received (trace st) = [listing_first]
     /\ failures (trace st) = ["timeout"]
     /\ sent st = 2%nat)
  /\ (forall now task_srv completion, exists st,
        Example5.main 2 now listing_breaks task_srv completion Effects.start
        = Some (tt, st)
        /\ received (trace st) = [listing_first]
        /\ pools (trace st) = []
        /\ submitted (trace st) = []
        /\ files_written (trace st) = []
        /\ uncaught (trace st) = []
        /\ not_modelled (trace st) = []).
Proof.
  apply (listing_failure_on_any_page_ends_the_run listing_breaks [listing_first]
           1 "listing2" "timeout").
  - apply (run_cons listing_breaks 0 _ listing_first "listing2" [] 1 "listing2").
    + reflexivity.
    + reflexivity.
    + discriminate.
    + apply run_nil.
  - reflexivity.
  - simpl. lia.
Defined.

Lemma listing_follows_the_next_links_witness :
  exists st,
    Example5.get_hazard_collections 3 listing_server Effects.start
    = Some (Example5.hazard_collections_of
              (Listings.collections_of [listing_first; listing_second]), st)
    /\ sent st = List.length [listing_first; listing_second]
    /\ received (trace st) = [listing_first; listing_second]
    /\ failures (trace st) = []
    /\ forall cid,
         In cid (Example5.hazard_collections_of
                   (Listings.collections_of [listing_first; listing_second]))
         <-> Text.contains "-events" cid = true
             /\ exists data collection,
                  In data [listing_first; listing_second]
                  /\ In collection (Py.get (collections data) [])
                  /\ id collection = cid.
Proof.
  apply (listing_follows_the_next_links listing_server [listing_first; listing_second]).
  - exists [listing_first], listing_second, 1%nat, "listing2".
    split; [reflexivity |]. split; [| split; reflexivity].
    apply (run_cons listing_server 0 _ listing_first "listing2" [] 1 "listing2").
    + reflexivity.
    + reflexivity.
    + discriminate.
    + apply run_nil.
  - simpl. lia.
Defined.

Lemma collection_count_stops_at_first_total_witness :
  CountEventsPerCollection.fetch_collection_count 5 summary_server "reference"
    Effects.start
  = Some ({| CountEventsPerCollection.collection_id := "reference";
             CountEventsPerCollection.total_events :=
               CountEventsPerCollection.Items 12 |},
          {| trace := [Get (CountEventsPerCollection.collection_url "reference")
                           (Json (with_summary 12));
                       Print (FetchedFromSummary "reference" 12)];
             sent := 1 |})
  /\ CountEventsPerCollection.fetch_collection_count 5 total_server "reference"
       Effects.start
     = Some ({| CountEventsPerCollection.collection_id := "reference";
                CountEventsPerCollection.total_events :=
                  CountEventsPerCollection.Items 7 |},
             {| trace := [Get (CountEventsPerCollection.collection_url "reference")
                              (Json (page [] None));
                          Print (NoSummary "reference");
                          Get (CountEventsPerCollection.items_url "reference")
                              (Json (total 7));
                          Print (FetchedFromItems "reference" 7)];
                sent := 2 |}).
Proof.
  apply (collection_count_stops_at_first_total 5 summary_server total_server
           "reference" (with_summary 12) (page [] None) (total 7) 12 7);
    reflexivity.
Defined.

Lemma collection_count_failures_become_texts_witness :
  (forall fuel,
     CountEventsPerCollection.fetch_collection_count fuel
       (always (RequestException "down")) "reference" Effects.start
     = Some ({| CountEventsPerCollection.collection_id := "reference";
                CountEventsPerCollection.total_events :=
                  CountEventsPerCollection.Error |},
             {| trace := [Get (CountEventsPerCollection.collection_url "reference")
                              (RequestException "down");
                          Print (CollectionError "reference" "down")];
                sent := 1 |}))
  /\ (forall fuel,
        CountEventsPerCollection.fetch_collection_count fuel page_then_down
          "reference" Effects.start
        = Some ({| CountEventsPerCollection.collection_id := "reference";
                   CountEventsPerCollection.total_events :=
                     CountEventsPerCollection.Error |},
                {| trace := [Get (CountEventsPerCollection.collection_url "reference")
                                 (Json first_page);
                             Print (NoSummary "reference");
                             Get (CountEventsPerCollection.items_url "reference")
                                 (RequestException "down");
                             Print (CollectionError "reference" "down")];
                   sent := 2 |}))
  /\ (forall fuel, (List.length [first_page] < fuel)%nat ->
        exists st,
          CountEventsPerCollection.fetch_collection_count fuel manual_breaks
            "reference" Effects.start
          = Some ({| CountEventsPerCollection.collection_id := "reference";
                     CountEventsPerCollection.total_events :=
                       CountEventsPerCollection.ErrorDuringManualCount |},
                  st)
          /\ CountEventsPerCollection.total_cell
               CountEventsPerCollection.ErrorDuringManualCount
             = Text "Error during manual count"
          /\ received (trace st) = [page [] None; page [] None; first_page]
          /\ failures (trace st) = ["timeout"]
          /\ sent st = 4%nat).
Proof.
  apply (collection_count_failures_become_texts
           (always (RequestException "down")) page_then_down manual_breaks
           "reference" "down" "down" "timeout"
           first_page (page [] None) (page [] None) [first_page] 3 "page2");
    try reflexivity.
  apply (run_cons manual_breaks 2 _ first_page "page2" [] 3 "page2").
  - reflexivity.
  - reflexivity.
  - discriminate.
  - apply run_nil.
Defined.

Lemma table_lists_every_collection_sorted_witness :
  exists st index rows,
    CountEventsPerCollection.main 5 (always (Json listing)) collection_srv (@rev _)
      Effects.start = Some (tt, st)
    /\ Printed.tables (trace st) = [(index, rows)]
    /\ Permutation index (map id (Py.get (collections listing) []))
    /\ StronglySorted Text.str_le index
    /\ Forall2 (fun cid row =>
                  exists r,
                    In r [ {| CountEventsPerCollection.collection_id := "usgs-events";
                              CountEventsPerCollection.total_events :=
                                CountEventsPerCollection.Items 7 |};
                           {| CountEventsPerCollection.collection_id := "reference";
                              CountEventsPerCollection.total_events :=
                                CountEventsPerCollection.Items 12 |} ]
                    /\ CountEventsPerCollection.collection_id r = cid
                    /\ row = [CountEventsPerCollection.total_cell
                                (CountEventsPerCollection.total_events r)])
               index rows
    /\ uncaught (trace st) = []
    /\ not_modelled (trace st) = [].
Proof.
  apply (table_lists_every_collection_sorted 5 (always (Json listing)) collection_srv
           (@rev _) listing).
  - reflexivity.
  - vm_compute. discriminate.
  - apply Permutation_sym, Permutation_rev.
  - repeat (constructor; [vm_compute; reflexivity |]). constructor.
Defined.

Lemma error_log_is_reset_before_the_run_witness :
  exists rest,
    trace_of (Example3Optimized.main 30 Scenario.noon true (fun _ => two_pages)
                (fun chunks => chunks) Effects.start)
    = (RemoveFile Example3Optimized.ERROR_FILE :: rest)%list
    /\ forallb after_reset rest = true
    /\ removed rest = []
    /\ Forall (fun file => file = Example3Optimized.ERROR_FILE) (appended_to rest)
    /\ Forall (fun file => file = Example3Optimized.OUTPUT_FILE) (files_written rest).
Proof.
  apply (error_log_is_reset_before_the_run 30 Scenario.noon true (fun _ => two_pages)
           (fun chunks => chunks)
           {| trace := trace_of (Example3Optimized.main 30 Scenario.noon true
                                   (fun _ => two_pages) (fun chunks => chunks)
                                   Effects.start);
              sent := 0 |}).
  vm_compute. reflexivity.
Defined.

Lemma no_count_at_all_leaves_no_workbook_witness :
  exists st,
    CountEventsByYear.main 12 Scenario.noon (always (Json listing)) all_down (@rev _)
      Effects.start = Some (tt, st)
    /\ submitted (trace st)
       = map (fun t => (fst t, CountEventsByYear.label (snd t)))
           (CountEventsByYear.make_tasks
              (CountEventsByYear.event_collections_of listing) bins_y)
    /\ workbooks (trace st) = []
    /\ uncaught (trace st) = [Frame.no_sheet_error].
Proof.
  apply (no_count_at_all_leaves_no_workbook 12 Scenario.noon (always (Json listing))
           all_down (@rev _) listing bins_y).
  - reflexivity.
  - vm_compute. discriminate.
  - vm_compute. reflexivity.
  - apply Permutation_sym, Permutation_rev.
  - intros t _. exists "timeout". reflexivity.
Defined.

End Runs.
